(** * actioncam / libipcamera: control session, media relay and RTSP bridge

    A shallow embedding of the Go sources of the repository
    (package [libipcamera]: protocol.go, Camera.go, RTPRelay.go; package
    [ipcamera]: listener.go; package [rtsp]) together with the properties
    the specification states about them.

    Conventions
    - a Go [byte], [uint16], [uint32], [uint64] is a [Z]; conversions that
      wrap in Go ([uint16(len(payload))], [sequenceNumber+1], [elapsed*90])
      are written out with [mod];
    - a [[]byte] is a [list Z]; a Go [string] is a [string] (a sequence of
      8-bit characters, as in Go);
    - a Go map is a [gmap]; a run-time panic is the [Panic] result;
    - sockets are modelled by what is written to them (a list of packets)
      and by the byte stream or datagram list that is read from them. *)

From Stdlib Require Import ZArith NArith Lia Ascii String List.
From stdpp Require Import gmap strings list pretty.

Local Open Scope string_scope.
Local Open Scope list_scope.
Local Open Scope Z_scope.

(** ** Go run-time and library functions used by the sources *)

Module Go.

(** Run-time panics raised by the modelled code. *)
Inductive panic :=
| IndexOutOfRange (index len : nat)
| SliceOutOfRange (bound len : nat)
| NilDereference.

Inductive result (A : Type) :=
| Ok (a : A)
| Panic (p : panic).
Arguments Ok {A} a.
Arguments Panic {A} p.

Definition uint16 (z : Z) : Z := z mod 65536.
Definition uint32 (z : Z) : Z := z mod 4294967296.

(** [[]byte(s)]: the bytes of a string. *)
Fixpoint bytes (s : string) : list Z :=
  match s with
  | EmptyString => []
  | String c s' => Z.of_N (N_of_ascii c) :: bytes s'
  end.

(** [make([]byte, n)]. *)
Definition make (n : nat) : list Z := replicate n 0.

(** [copy(dst, src)]: overwrites the first [min (len dst) (len src)]
    elements of [dst]. *)
Definition copy {A} (dst src : list A) : list A :=
  take (length dst) src ++ drop (length src) dst.

(** [copy(dst[off:], src)] seen from [dst] (with [off <= len dst]). *)
Definition copy_at {A} (off : nat) (dst src : list A) : list A :=
  take off dst ++ copy (drop off dst) src.

(** Big-endian output of the low [8*n] bits of [v], as done by
    [bitio.Writer.WriteBits] on a byte boundary and by
    [binary.Write(_, binary.BigEndian, _)]. *)
Fixpoint BigEndian_put (n : nat) (v : Z) : list Z :=
  match n with
  | O => []
  | S k => Z.land (Z.shiftr v (8 * Z.of_nat k)) 255 :: BigEndian_put k v
  end.

(** [binary.BigEndian] decoding of a byte slice. *)
Definition BigEndian_get (bs : list Z) : Z :=
  fold_left (fun acc b => acc * 256 + b) bs 0.

(** [binary.LittleEndian] decoding of a byte slice. *)
Definition LittleEndian_get (bs : list Z) : Z :=
  fold_right (fun b acc => b + 256 * acc) 0 bs.

(** [binary.LittleEndian.Uint32(b)]: panics when [len b < 4]. *)
Definition LittleEndian_Uint32 (b : list Z) : result Z :=
  if (length b <? 4)%nat then Panic (IndexOutOfRange 3 (length b))
  else Ok (LittleEndian_get (take 4 b)).

(** [strings.Split(s, sep)] for a one-byte separator: one more element
    than there are separators, never empty. *)
Fixpoint Split (s : string) (sep : ascii) : list string :=
  match s with
  | EmptyString => [EmptyString]
  | String c s' =>
      if Ascii.eqb c sep then EmptyString :: Split s' sep
      else match Split s' sep with
           | [] => [String c EmptyString]
           | x :: xs => String c x :: xs
           end
  end.

(** [strings.Join(elems, sep)]. *)
Fixpoint Join (elems : list string) (sep : string) : string :=
  match elems with
  | [] => ""
  | [x] => x
  | x :: xs => x +:+ sep +:+ Join xs sep
  end.

(** The white space of ASCII: tab, line feed, vertical tab, form feed,
    carriage return and space. *)
Definition isSpace (c : ascii) : bool :=
  let n := N_of_ascii c in
  ((9 <=? n) && (n <=? 13) || (n =? 32))%N.

Definition utf8 (bs : list N) : string :=
  fold_right (fun b s => String (ascii_of_N b) s) EmptyString bs.

(** The white space of [unicode.IsSpace] beyond ASCII, in UTF-8: U+0085,
    U+00A0, U+1680, U+2000 to U+200A, U+2028, U+2029, U+202F, U+205F and
    U+3000.  A string is a byte string; bytes that are no valid UTF-8 are
    decoded as U+FFFD, one byte at a time, which is no white space. *)
Definition unicodeSpaces : list string :=
  map utf8
    [[0xC2; 0x85]; [0xC2; 0xA0]; [0xE1; 0x9A; 0x80];
     [0xE2; 0x80; 0x80]; [0xE2; 0x80; 0x81]; [0xE2; 0x80; 0x82];
     [0xE2; 0x80; 0x83]; [0xE2; 0x80; 0x84]; [0xE2; 0x80; 0x85];
     [0xE2; 0x80; 0x86]; [0xE2; 0x80; 0x87]; [0xE2; 0x80; 0x88];
     [0xE2; 0x80; 0x89]; [0xE2; 0x80; 0x8A]; [0xE2; 0x80; 0xA8];
     [0xE2; 0x80; 0xA9]; [0xE2; 0x80; 0xAF]; [0xE2; 0x81; 0x9F];
     [0xE3; 0x80; 0x80]]%N.

Definition isUnicodeSpace (s : string) : bool :=
  existsb (String.eqb s) unicodeSpaces.

(** The white space at the front is taken off rune by rune: a byte of
    ASCII white space, or the two or three bytes of one of the others. *)
Fixpoint TrimLeft (s : string) : string :=
  match s with
  | EmptyString => EmptyString
  | String c s1 =>
      if isSpace c then TrimLeft s1
      else
        match s1 with
        | EmptyString => s
        | String d s2 =>
            if isUnicodeSpace (String c (String d EmptyString)) then TrimLeft s2
            else
              match s2 with
              | EmptyString => s
              | String e s3 =>
                  if isUnicodeSpace
                       (String c (String d (String e EmptyString)))
                  then TrimLeft s3
                  else s
              end
        end
  end.

(** The white space at the end.  With [t] what is left of the bytes
    behind [c]: when nothing is left, [c] is the last byte and stays unless
    it is white space itself; otherwise [c] and [t] stay, unless together
    they are the encoding of one white space rune, behind which all was
    white space. *)
Fixpoint TrimRight (s : string) : string :=
  match s with
  | EmptyString => EmptyString
  | String c s' =>
      match TrimRight s' with
      | EmptyString => if isSpace c then EmptyString else String c EmptyString
      | t => if isUnicodeSpace (String c t) then EmptyString else String c t
      end
  end.

(** [strings.TrimSpace]. *)
Definition TrimSpace (s : string) : string := TrimRight (TrimLeft s).

Definition digit (c : ascii) : option Z :=
  let n := Z.of_N (N_of_ascii c) in
  if (48 <=? n) && (n <=? 57) then Some (n - 48) else None.

Fixpoint parseDigits (s : string) (acc : Z) : option Z :=
  match s with
  | EmptyString => Some acc
  | String c s' =>
      match digit c with
      | Some d => parseDigits s' (acc * 10 + d)
      | None => None
      end
  end.

(** [strconv.ParseUint(s, 10, bitSize)]: [None] stands for a non-nil
    error (empty text, a byte that is not a digit, or a value that does
    not fit). *)
Definition ParseUint (s : string) (bitSize : Z) : option Z :=
  match s with
  | EmptyString => None
  | _ => match parseDigits s 0 with
         | Some n => if n <? 2 ^ bitSize then Some n else None
         | None => None
         end
  end.

(** [strconv.ParseInt(s, 10, bitSize)]. *)
Definition ParseInt (s : string) (bitSize : Z) : option Z :=
  match s with
  | EmptyString => None
  | String c s' =>
      let neg := Ascii.eqb c "-" in
      let digits := if Ascii.eqb c "+" || neg then s' else s in
      match digits with
      | EmptyString => None
      | _ =>
          match parseDigits digits 0 with
          | None => None
          | Some un =>
              let cutoff := 2 ^ (bitSize - 1) in
              if neg then (if cutoff <? un then None else Some (- un))
              else (if cutoff <=? un then None else Some un)
          end
      end
  end.

(** [string(b)] for a byte slice. *)
Fixpoint string_of_bytes (b : list Z) : string :=
  match b with
  | [] => EmptyString
  | x :: b' => String (ascii_of_N (Z.to_N x)) (string_of_bytes b')
  end.

Definition bind {A B} (r : result A) (k : A -> result B) : result B :=
  match r with
  | Ok a => k a
  | Panic p => Panic p
  end.

End Go.

Import Go.

#[global] Instance result_bind : MBind Go.result :=
  fun A B k r => Go.bind r k.
#[global] Instance result_ret : MRet Go.result := @Go.Ok.

(** ** Package libipcamera *)

Module libipcamera.

(** *** protocol.go *)

Record Header := mkHeader {
  Magic : Z;        (* uint16 *)
  Length : Z;       (* uint16 *)
  MessageType : Z   (* uint32 *)
}.

Record Message := mkMessage {
  MHeader : Header;
  Payload : list Z
}.

Record streamHeader := mkStreamHeader {
  SMagic : Z;          (* uint16 *)
  SLength : Z;         (* uint16 *)
  SequenceNumber : Z;  (* uint16 *)
  SMessageType : Z     (* uint16 *)
}.

Definition LOGIN : Z := 0x0110.
Definition LOGIN_ACCEPT : Z := 0x0111.
Definition ALIVE_REQUEST : Z := 0x0112.
Definition ALIVE_RESPONSE : Z := 0x0113.
Definition DISCOVERY_REQUEST : Z := 0x0114.
Definition DISCOVERY_RESPONSE : Z := 0x0115.
Definition START_PREVIEW : Z := 0x01FF.
Definition REQUEST_FILE_LIST : Z := 0xA025.
Definition FILE_LIST_CONTENT : Z := 0xA026.
Definition REQUEST_FIRMWARE_INFO : Z := 0xA034.
Definition FIRMWARE_INFORMATION : Z := 0xA035.
Definition TAKE_PICTURE : Z := 0xA038.
Definition PICTURE_SAVED : Z := 0xA039.
Definition CONTROL_RECORDING : Z := 0xA03A.
Definition RECORD_COMMAND_ACCEPT : Z := 0xA03B.

(** [CreatePacket]: the length field is recomputed from the payload
    (wrapping to 16 bits), then magic, length and message type are
    written most significant byte first, then the payload. *)
Definition CreatePacket (header : Header) (payload : list Z) : list Z :=
  let header := mkHeader (Magic header)
                         (uint16 (Z.of_nat (length payload)))
                         (MessageType header) in
  BigEndian_put 2 (Magic header)
    ++ BigEndian_put 2 (Length header)
    ++ BigEndian_put 4 (MessageType header)
    ++ payload.

Definition CreateCommandHeader (command : Z) : Header :=
  mkHeader 0xABCD 0 command.

(** The [payload] that [CreateLoginPacket] builds. *)
Definition CreateLoginPayload (username password : string) : list Z :=
  let payload := make 128 in
  let payload := copy payload (bytes username) in
  copy_at 64 payload (bytes password).

Definition CreateLoginPacket (username password : string) : list Z :=
  let header := CreateCommandHeader LOGIN in
  CreatePacket header (CreateLoginPayload username password).

Definition CreateCommandPacket (command : Z) : list Z :=
  let header := CreateCommandHeader command in
  CreatePacket header [].

(** *** Camera.go *)

Definition RemoveHandler : bool := true.
Definition KeepHandler : bool := false.

Record StoredFile := mkStoredFile {
  Path : string;
  Size : Z   (* uint64 *)
}.

(** [parseFileList].  [stored] has one slot less than there are
    segments; [stored[i] = ...] panics when [i] is out of range. *)
Fixpoint parseFileList_loop (i : nat) (files : list string)
    (stored : list StoredFile) : result (list StoredFile) :=
  match files with
  | [] => Ok stored
  | file :: files' =>
      let parts := Split file ":" in
      match parts with
      | [path; sizeText] =>
          match ParseUint sizeText 64 with
          | Some size =>
              if (0 <? size) && (0 <? String.length path)%nat then
                if (i <? length stored)%nat then
                  parseFileList_loop (S i) files'
                    (<[i := mkStoredFile path size]> stored)
                else Panic (IndexOutOfRange i (length stored))
              else parseFileList_loop (S i) files' stored
          | None => parseFileList_loop (S i) files' stored
          end
      | _ => parseFileList_loop (S i) files' stored
      end
  end.

Definition parseFileList (input : string) : result (list StoredFile) :=
  let files := Split input ";" in
  let stored := replicate (length files - 1) (mkStoredFile "" 0) in
  parseFileList_loop 0 files stored.

(** Values travelling on the channels the commands create. *)
Inductive ChanVal :=
| VBool (b : bool)
| VString (s : string)
| VFiles (l : list StoredFile).

(** A [net.Conn] seen from this side: the packets written so far, and
    whether writing fails (the connection is closed or broken). *)
Record Conn := mkConn {
  written : list (list Z);
  closed : bool
}.

(** The [Camera] struct without its handler table, extended with the
    store the closures of Camera.go capture: the channels made by the
    commands ([chans], each with the values sent and not yet received)
    and the captured local variable [fileListData] ([vars]).  [nextId]
    numbers the channels and closures as they are created; [logs] is
    the log output. *)
Record State := mkState {
  username : string;
  password : string;
  connected : bool;
  disconnect : bool;
  verbose : bool;
  connection : option Conn;   (* nil until Connect succeeds *)
  isLoggedIn : bool;
  chans : gmap nat (list ChanVal);
  vars : gmap nat string;
  nextId : nat;
  logs : list string
}.

Definition set_connected (v : bool) (s : State) : State :=
  mkState (username s) (password s) v (disconnect s) (verbose s)
    (connection s) (isLoggedIn s) (chans s) (vars s) (nextId s) (logs s).
Definition set_connection (v : option Conn) (s : State) : State :=
  mkState (username s) (password s) (connected s) (disconnect s) (verbose s)
    v (isLoggedIn s) (chans s) (vars s) (nextId s) (logs s).
Definition set_isLoggedIn (v : bool) (s : State) : State :=
  mkState (username s) (password s) (connected s) (disconnect s) (verbose s)
    (connection s) v (chans s) (vars s) (nextId s) (logs s).
Definition set_chans (v : gmap nat (list ChanVal)) (s : State) : State :=
  mkState (username s) (password s) (connected s) (disconnect s) (verbose s)
    (connection s) (isLoggedIn s) v (vars s) (nextId s) (logs s).
Definition set_vars (v : gmap nat string) (s : State) : State :=
  mkState (username s) (password s) (connected s) (disconnect s) (verbose s)
    (connection s) (isLoggedIn s) (chans s) v (nextId s) (logs s).
Definition set_nextId (v : nat) (s : State) : State :=
  mkState (username s) (password s) (connected s) (disconnect s) (verbose s)
    (connection s) (isLoggedIn s) (chans s) (vars s) v (logs s).
Definition set_logs (v : list string) (s : State) : State :=
  mkState (username s) (password s) (connected s) (disconnect s) (verbose s)
    (connection s) (isLoggedIn s) (chans s) (vars s) (nextId s) v.

(** [log.Printf]: always written. *)
Definition log_Printf (line : string) (s : State) : State :=
  set_logs (logs s ++ [line]) s.

(** [Camera.Log]: written when the camera is verbose. *)
Definition Log (line : string) (s : State) : State :=
  if verbose s then log_Printf line s else s.

(** [make(chan T, n)]: a fresh channel. *)
Definition make_chan (s : State) : nat * State :=
  (nextId s, set_nextId (S (nextId s)) (set_chans (<[nextId s := []]> (chans s)) s)).

(** [ch <- v]. *)
Definition chan_send (ch : nat) (v : ChanVal) (s : State) : State :=
  set_chans (<[ch := default [] (chans s !! ch) ++ [v]]> (chans s)) s.

(** A ready receive [<-ch] of a [select]. *)
Definition chan_recv (ch : nat) (s : State) : option (ChanVal * State) :=
  match chans s !! ch with
  | Some (v :: q) => Some (v, set_chans (<[ch := q]> (chans s)) s)
  | _ => None
  end.

(** [SendPacket]: [c.connection.Write(packet)]. *)
Definition SendPacket (packet : list Z) (s : State)
    : result (State * option string) :=
  match connection s with
  | None => Panic NilDereference
  | Some conn =>
      if closed conn then Ok (s, Some "use of closed network connection")
      else Ok (set_connection
                 (Some (mkConn (written conn ++ [packet]) false)) s, None)
  end.

(** [MessageHandler]: returns whether it is to be removed and an error.
    No handler of Camera.go reads or changes the handler table of the
    camera it is given, so a handler acts on the [State].  [hid] stands
    for the identity of the Go function value. *)
Record MessageHandler := mkHandler {
  hid : nat;
  hfun : State -> Message -> result (State * (bool * option string))
}.

(** The [Camera]: its state, its handler table, and (for the
    statements about dispatch) the identities of the handlers invoked so
    far, in order of invocation. *)
Record Camera := mkCamera {
  st : State;
  messageHandlers : gmap Z (list MessageHandler);
  invoked : list nat
}.

Definition with_st (f : State -> State) (c : Camera) : Camera :=
  mkCamera (f (st c)) (messageHandlers c) (invoked c).

Definition handlersFor (c : Camera) (messageType : Z) : list MessageHandler :=
  default [] (messageHandlers c !! messageType).

Definition addHandler (messageType : Z) (handleFunc : MessageHandler)
    (prepend : bool) (c : Camera) : Camera :=
  let current := handlersFor c messageType in
  if prepend then
    mkCamera (st c) (<[messageType := handleFunc :: current]> (messageHandlers c))
             (invoked c)
  else
    mkCamera (st c) (<[messageType := current ++ [handleFunc]]> (messageHandlers c))
             (invoked c).

Definition Handle (messageType : Z) (handleFunc : MessageHandler) : Camera -> Camera :=
  addHandler messageType handleFunc false.

Definition HandleFirst (messageType : Z) (handleFunc : MessageHandler) : Camera -> Camera :=
  addHandler messageType handleFunc true.

(** The handlers of one message type are run in the order of the
    slice; a handler that answers [KeepHandler] is appended to
    [remainingMessageHandlers]; an error stops the pass. *)
Fixpoint runHandlers (hs : list MessageHandler) (message : Message)
    (s : State) (remaining : list MessageHandler) (trace : list nat)
    : result (State * list MessageHandler * list nat) :=
  match hs with
  | [] => Ok (s, remaining, trace)
  | handler :: hs' =>
      r ← hfun handler s message;
      let '(s', (toRemove, err)) := (r : State * (bool * option string)) in
      let remaining :=
        if toRemove then remaining else remaining ++ [handler] in
      let trace := trace ++ [hid handler] in
      match err with
      | Some _ =>
          Ok (log_Printf "ERROR running message handler" s', remaining, trace)
      | None => runHandlers hs' message s' remaining trace
      end
  end.

(** What [handleConnection] does with a message it has read: without
    a handler the message is dumped, otherwise the handlers are run and
    the table entry is replaced by the handlers that stay. *)
Definition dispatch (message : Message) (c : Camera) : result Camera :=
  let messageType := MessageType (MHeader message) in
  if (length (handlersFor c messageType) =? 0)%nat then
    Ok (with_st
          (log_Printf "Received Unknown Message (no handler registered)") c)
  else
    r ← runHandlers (handlersFor c messageType) message (st c) [] [];
    let '(s, remaining, trace) :=
      (r : State * list MessageHandler * list nat) in
    Ok (mkCamera s (<[messageType := remaining]> (messageHandlers c))
                 (invoked c ++ trace)).

(** Reading one message from the wire, as [handleConnection] does:
    eight header bytes, the check of the magic bytes, then
    [header.Length] payload bytes. *)
Inductive readOutcome :=
| ReadError
| InvalidMagic (header : Header)
| PayloadError (header : Header)
| GotMessage (message : Message) (rest : list Z).

Definition readHeader (stream : list Z) : Header :=
  mkHeader (BigEndian_get (take 2 stream))
           (BigEndian_get (take 2 (drop 2 stream)))
           (BigEndian_get (take 4 (drop 4 stream))).

Definition readMessage (stream : list Z) : readOutcome :=
  if (length stream <? 8)%nat then ReadError
  else
    let header := readHeader stream in
    let stream := drop 8 stream in
    if negb (Magic header =? 0xABCD) then InvalidMagic header
    else if 0 <? Length header then
      let n := Z.to_nat (Length header) in
      if (length stream <? n)%nat then PayloadError header
      else GotMessage (mkMessage header (take n stream)) (drop n stream)
    else GotMessage (mkMessage header []) stream.

(** The end of [handleConnection]. *)
Definition disconnected (c : Camera) : Camera :=
  with_st (fun s => set_connected false (Log "Disconnected" s)) c.

(** [handleConnection] on the bytes the camera sends until the
    connection ends.  Every pass of the loop consumes at least eight
    bytes, so the loop is unrolled at most [length stream + 1] times. *)
Fixpoint handleConnection_loop (fuel : nat) (stream : list Z) (c : Camera)
    : result Camera :=
  match fuel with
  | O => Ok (disconnected c)
  | S fuel' =>
      if disconnect (st c) then Ok (disconnected c)
      else
        match readMessage stream with
        | ReadError =>
            Ok (disconnected
                  (with_st (fun s => if disconnect s then s
                                     else log_Printf "ERROR Reading from Camera" s) c))
        | InvalidMagic _ =>
            Ok (disconnected
                  (with_st (log_Printf "Received message with invalid magic") c))
        | PayloadError _ =>
            Ok (disconnected
                  (with_st (log_Printf "ERROR Reading Payload from Camera") c))
        | GotMessage message rest =>
            c' ← dispatch message c;
            handleConnection_loop fuel' rest c'
        end
  end.

Definition handleConnection (stream : list Z) (c : Camera) : result Camera :=
  handleConnection_loop (S (length stream)) stream c.

(** The [select] that ends a command: the caller is blocked until its
    channel delivers a value or the timer fires.  [arrivals] are the
    messages the receive loop dispatches in the meantime; once they are
    used up and the channel is still empty, the timer fires ([None]). *)
Fixpoint select (ch : nat) (arrivals : list Message) (c : Camera)
    : result (Camera * option ChanVal) :=
  match chan_recv ch (st c) with
  | Some (v, s) => Ok (with_st (fun _ => s) c, Some v)
  | None =>
      match arrivals with
      | [] => Ok (c, None)
      | message :: arrivals' =>
          c' ← dispatch message c;
          select ch arrivals' c'
      end
  end.

Definition CreateCamera (username password : string) : Camera :=
  mkCamera (mkState username password false false true None false ∅ ∅ 1 [])
           ∅ [].

Definition aliveRequestHandler : MessageHandler :=
  mkHandler 0 (fun camera message =>
    let responseHeader := CreateCommandHeader ALIVE_RESPONSE in
    let response := CreatePacket responseHeader [] in
    r ← SendPacket response camera;
    Ok (r.1, (KeepHandler, r.2))).

Definition loginResultHandler (camera : State) (message : Message)
    : State * (bool * option string) :=
  if MessageType (MHeader message) =? 0x0111 then
    (Log "Login accepted" (set_isLoggedIn true camera), (RemoveHandler, None))
  else if MessageType (MHeader message) =? 0x1234 then
    (Log "Login failed" camera,
     (RemoveHandler, Some "There is already a client connected to the camera"))
  else (camera, (RemoveHandler, None)).

(** [Connect]; [dial] is the outcome of [net.Dial]. *)
Definition Connect (dial : option Conn) (c : Camera) : Camera :=
  let c := with_st (Log "Connecting") c in
  match dial with
  | None => with_st (log_Printf "ERROR: dial") c
  | Some conn =>
      HandleFirst ALIVE_REQUEST aliveRequestHandler
        (with_st (set_connection (Some conn)) c)
  end.

Definition Login_handler (loginAccept : nat) : MessageHandler :=
  mkHandler loginAccept (fun c m =>
    let '(c, (_, err)) := loginResultHandler c m in
    match err with
    | Some e => Ok (c, (RemoveHandler, Some e))
    | None => Ok (chan_send loginAccept (VBool true) c, (RemoveHandler, None))
    end).

Definition Login (arrivals : list Message) (c : Camera)
    : result (Camera * option string) :=
  let '(loginAccept, s) := make_chan (st c) in
  let c := Handle LOGIN_ACCEPT (Login_handler loginAccept)
             (with_st (fun _ => s) c) in
  r ← SendPacket (CreateLoginPacket (username (st c)) (password (st c)))
                 (st c);
  r ← select loginAccept arrivals (with_st (fun _ => r.1) c);
  match r.2 with
  | Some _ => Ok (r.1, None)
  | None => Ok (r.1, Some "Login request timed out")
  end.

Definition GetFileList_handler (fileListComplete : nat) : MessageHandler :=
  mkHandler fileListComplete (fun c m =>
    let payload := Payload m in
    if (length payload <? 4)%nat then Panic (SliceOutOfRange 4 (length payload))
    else
      numParts ← LittleEndian_Uint32 (take 4 payload);
      if (length payload <? 8)%nat then Panic (SliceOutOfRange 8 (length payload))
      else
        currentPart ← LittleEndian_Uint32 (take 4 (drop 4 payload));
        let fileListData :=
          default "" (vars c !! fileListComplete)
            +:+ string_of_bytes (drop 8 payload) in
        let c := set_vars (<[fileListComplete := fileListData]> (vars c)) c in
        if numParts <=? uint32 (currentPart + 1) then
          files ← parseFileList fileListData;
          Ok (chan_send fileListComplete (VFiles files) c, (RemoveHandler, None))
        else Ok (c, (KeepHandler, None))).

Definition GetFileList (arrivals : list Message) (c : Camera)
    : result (Camera * (list StoredFile * option string)) :=
  let '(fileListComplete, s) := make_chan (st c) in
  let s := set_vars (<[fileListComplete := ""]> (vars s)) s in
  let c := Handle FILE_LIST_CONTENT (GetFileList_handler fileListComplete)
             (with_st (fun _ => s) c) in
  r ← SendPacket
        (CreatePacket (CreateCommandHeader REQUEST_FILE_LIST) [1; 0; 0; 0])
        (st c);
  let c := with_st (fun _ => r.1) c in
  match r.2 with
  | Some e => Ok (c, ([], Some e))
  | None =>
      r ← select fileListComplete arrivals c;
      match r.2 with
      | Some (VFiles files) => Ok (r.1, (files, None))
      | Some _ => Ok (r.1, ([], None))
      | None => Ok (r.1, ([], Some "Timed out while loading file list"))
      end
  end.

Definition GetFirmwareInfo (arrivals : list Message) (c : Camera)
    : result (Camera * (string * option string)) :=
  if negb (isLoggedIn (st c)) then Ok (c, ("", Some "Camera Login required"))
  else
    let '(firmwareInfo, s) := make_chan (st c) in
    let c := Handle FIRMWARE_INFORMATION
               (mkHandler firmwareInfo (fun c m =>
                  Ok (chan_send firmwareInfo
                        (VString (string_of_bytes (Payload m))) c,
                      (RemoveHandler, None))))
               (with_st (fun _ => s) c) in
    r ← SendPacket (CreateCommandPacket REQUEST_FIRMWARE_INFO) (st c);
    let c := with_st (fun _ => r.1) c in
    match r.2 with
    | Some e => Ok (c, ("", Some e))
    | None =>
        r ← select firmwareInfo arrivals c;
        match r.2 with
        | Some (VString info) => Ok (r.1, (info, None))
        | Some _ => Ok (r.1, ("", None))
        | None => Ok (r.1, ("", Some "Firmware information request timed out"))
        end
    end.

Definition TakePicture (arrivals : list Message) (c : Camera)
    : result (Camera * option string) :=
  if negb (isLoggedIn (st c)) then Ok (c, Some "Camera Login required")
  else
    let '(pictureTaken, s) := make_chan (st c) in
    let c := Handle PICTURE_SAVED
               (mkHandler pictureTaken (fun c m =>
                  let c := Log "Picture has been saved to SD-Card" c in
                  Ok (chan_send pictureTaken (VBool true) c,
                      (RemoveHandler, None))))
               (with_st (fun _ => s) c) in
    r ← SendPacket (CreateCommandPacket TAKE_PICTURE) (st c);
    let c := with_st (fun _ => r.1) c in
    match r.2 with
    | Some e => Ok (c, Some e)
    | None =>
        r ← select pictureTaken arrivals c;
        match r.2 with
        | Some _ => Ok (r.1, None)
        | None => Ok (r.1, Some "TAKE_PICTURE request timed out")
        end
    end.

Definition StartRecording (arrivals : list Message) (c : Camera)
    : result (Camera * option string) :=
  if negb (isLoggedIn (st c)) then Ok (c, Some "Camera Login required")
  else
    let '(recordCommandAccept, s) := make_chan (st c) in
    let c := Handle RECORD_COMMAND_ACCEPT
               (mkHandler recordCommandAccept (fun c m =>
                  let c := Log "Started to record video" c in
                  Ok (chan_send recordCommandAccept (VBool true) c,
                      (RemoveHandler, None))))
               (with_st (fun _ => s) c) in
    let c := with_st (Log "Requesting camera to start recording") c in
    r ← SendPacket
          (CreatePacket (CreateCommandHeader CONTROL_RECORDING) [1; 0; 0; 0])
          (st c);
    let c := with_st (fun _ => r.1) c in
    match r.2 with
    | Some e => Ok (c, Some e)
    | None =>
        r ← select recordCommandAccept arrivals c;
        match r.2 with
        | Some _ => Ok (r.1, None)
        | None => Ok (r.1, Some "CONTROL_RECORDING request timed out")
        end
    end.

Definition StopRecording (arrivals : list Message) (c : Camera)
    : result (Camera * option string) :=
  if negb (isLoggedIn (st c)) then Ok (c, Some "Camera Login required")
  else
    let '(recordCommandAccept, s) := make_chan (st c) in
    let c := Handle RECORD_COMMAND_ACCEPT
               (mkHandler recordCommandAccept (fun c m =>
                  let c := Log "Stopping to record video" c in
                  Ok (chan_send recordCommandAccept (VBool true) c,
                      (RemoveHandler, None))))
               (with_st (fun _ => s) c) in
    let c := with_st (Log "Requesting camera to stop recording") c in
    r ← SendPacket
          (CreatePacket (CreateCommandHeader CONTROL_RECORDING) [0; 0; 0; 0])
          (st c);
    let c := with_st (fun _ => r.1) c in
    match r.2 with
    | Some e => Ok (c, Some e)
    | None =>
        r ← select recordCommandAccept arrivals c;
        match r.2 with
        | Some _ => Ok (r.1, None)
        | None => Ok (r.1, Some "CONTROL_RECORDING request timed out")
        end
    end.

Definition StartPreviewStream (c : Camera) : result (Camera * option string) :=
  if negb (isLoggedIn (st c)) then Ok (c, Some "Camera Login required")
  else
    let c := with_st (Log "Starting Preview Stream") c in
    r ← SendPacket (CreateCommandPacket START_PREVIEW) (st c);
    Ok (with_st (fun _ => r.1) c, r.2).

Definition Disconnect (c : Camera) : result Camera :=
  match connection (st c) with
  | None => Panic NilDereference
  | Some conn =>
      Ok (mkCamera
            (mkState (username (st c)) (password (st c)) false true
               (verbose (st c)) (Some (mkConn (written conn) true))
               (isLoggedIn (st c)) (chans (st c)) (vars (st c))
               (nextId (st c)) (logs (st c)))
            (messageHandlers c) (invoked c))
  end.

(** *** RTPRelay.go *)

(** The local variables of [handleCameraStream] and what it has
    written to [rtpConn]. *)
Record Relay := mkRelay {
  buffer : list Z;           (* 2048 bytes, reused for every datagram *)
  sequenceNumber : Z;        (* uint16 *)
  elapsed : Z;               (* uint32 *)
  frameBuffer : list Z;
  packetBuffer : list Z;
  rtpWritten : list (list Z);
  relayLogs : list string
}.

Definition freshRelay : Relay :=
  mkRelay (make 2048) 0 0 [] [] [] [].

(** What one pass of the loop meets: the context is done, the [close]
    flag is set, or [conn.ReadFrom] returns, with a datagram or with an
    error (its results are not looked at, the buffer keeps its bytes). *)
Inductive RelayEvent :=
| ContextDone
| CloseRequested
| Datagram (d : list Z)
| ReadFailed.

Inductive loopStatus := Listening | Terminated.

Definition readStreamHeader (buffer : list Z) : streamHeader :=
  mkStreamHeader (BigEndian_get (take 2 buffer))
                 (BigEndian_get (take 2 (drop 2 buffer)))
                 (BigEndian_get (take 2 (drop 4 buffer)))
                 (BigEndian_get (take 2 (drop 6 buffer))).

(** [elapsed = binary.LittleEndian.Uint32(payload[12:])]. *)
Definition readElapsed (payload : list Z) : result Z :=
  if (length payload <? 12)%nat then Panic (SliceOutOfRange 12 (length payload))
  else LittleEndian_Uint32 (drop 12 payload).

(** The [default] branch of the [select] once [ReadFrom] has returned.
    Each [break] in it leaves the [select] only: the surrounding [for]
    goes on with its next pass. *)
Definition relayPacket (r : Relay) : result Relay :=
  let header := readStreamHeader (buffer r) in
  if negb (SMagic header =? 0xBCDE) then
    Ok (mkRelay (buffer r) (sequenceNumber r) (elapsed r) (frameBuffer r)
          (packetBuffer r) (rtpWritten r)
          (relayLogs r ++ ["Received message with invalid magic"]))
  else
    let n := Z.to_nat (SLength header) in
    if (0 <? SLength header) && (length (drop 8 (buffer r)) <? n)%nat then
      Ok (mkRelay (buffer r) (sequenceNumber r) (elapsed r) (frameBuffer r)
            (packetBuffer r) (rtpWritten r) (relayLogs r ++ ["Read Error"]))
    else
      let payload :=
        if 0 <? SLength header then take n (drop 8 (buffer r)) else [] in
      if SMessageType header =? 0x0001 then
        Ok (mkRelay (buffer r) (sequenceNumber r) (elapsed r)
              (frameBuffer r ++ payload) (packetBuffer r) (rtpWritten r)
              (relayLogs r))
      else if SMessageType header =? 0x0002 then
        let packetBuffer' := packetBuffer r ++ frameBuffer r in
        let rtpWritten' := rtpWritten r ++ [packetBuffer'] in
        let packetBuffer'' :=
          [0x80; 0x63]
            ++ BigEndian_put 2 (uint16 (sequenceNumber r + 1))
            ++ BigEndian_put 4 (uint32 (elapsed r * 90))
            ++ BigEndian_put 8 0 in
        elapsed' ← readElapsed payload;
        Ok (mkRelay (buffer r) (uint16 (sequenceNumber r + 1)) elapsed' []
              packetBuffer'' rtpWritten' (relayLogs r))
      else
        Ok (mkRelay (buffer r) (sequenceNumber r) (elapsed r) (frameBuffer r)
              (packetBuffer r) (rtpWritten r)
              (relayLogs r ++ ["Received Unknown Message"])).

Definition relayRead (d : list Z) (r : Relay) : Relay :=
  mkRelay (copy (buffer r) d) (sequenceNumber r) (elapsed r) (frameBuffer r)
    (packetBuffer r) (rtpWritten r) (relayLogs r).

Fixpoint handleCameraStream (events : list RelayEvent) (r : Relay)
    : result (loopStatus * Relay) :=
  match events with
  | [] => Ok (Listening, r)
  | ContextDone :: _ =>
      Ok (Terminated,
          mkRelay (buffer r) (sequenceNumber r) (elapsed r) (frameBuffer r)
            (packetBuffer r) (rtpWritten r) (relayLogs r ++ ["Context Done"]))
  | CloseRequested :: _ => Ok (Terminated, r)
  | Datagram d :: events' =>
      r' ← relayPacket (relayRead d r);
      handleCameraStream events' r'
  | ReadFailed :: events' =>
      r' ← relayPacket r;
      handleCameraStream events' r'
  end.

(** A datagram of the fragment stream, as the camera builds it. *)
Definition streamPacket (header : streamHeader) (payload : list Z) : list Z :=
  BigEndian_put 2 (SMagic header)
    ++ BigEndian_put 2 (SLength header)
    ++ BigEndian_put 2 (SequenceNumber header)
    ++ BigEndian_put 2 (SMessageType header)
    ++ payload.

End libipcamera.

(** ** Package ipcamera: listener.go *)

Module ipcamera.

Import libipcamera.

Record Listener := mkListener {
  close : bool;              (* the copy of [listener] the loop was given *)
  lbuffer : list Z;
  lsequenceNumber : Z;
  lelapsed : Z;
  lframeBuffer : list Z;
  lrtpWritten : list (list Z);
  llogs : list string
}.

Definition freshListener : Listener :=
  mkListener false (make 2048) 0 0 [] [] [].

(** One pass of the loop after [conn.ReadFrom]; [Terminated] is a
    [break] out of the [for]. *)
Definition listenerPacket (l : Listener) : result (loopStatus * Listener) :=
  let header := readStreamHeader (lbuffer l) in
  if negb (SMagic header =? 0xBCDE) then
    Ok (Terminated,
        mkListener (close l) (lbuffer l) (lsequenceNumber l) (lelapsed l)
          (lframeBuffer l) (lrtpWritten l)
          (llogs l ++ ["Received message with invalid magic"]))
  else
    let n := Z.to_nat (SLength header) in
    if (0 <? SLength header) && (length (drop 8 (lbuffer l)) <? n)%nat then
      Ok (Terminated,
          mkListener (close l) (lbuffer l) (lsequenceNumber l) (lelapsed l)
            (lframeBuffer l) (lrtpWritten l) (llogs l ++ ["Read Error"]))
    else
      let payload :=
        if 0 <? SLength header then take n (drop 8 (lbuffer l)) else [] in
      l' ←
        (if SMessageType header =? 0x0001 then
           Ok (mkListener (close l) (lbuffer l) (lsequenceNumber l) (lelapsed l)
                 (lframeBuffer l ++ payload) (lrtpWritten l) (llogs l))
         else if SMessageType header =? 0x0002 then
           let packet :=
             [0x80; 0x63]
               ++ BigEndian_put 2 (lsequenceNumber l)
               ++ BigEndian_put 4 (uint32 (lelapsed l * 90))
               ++ BigEndian_put 8 0
               ++ lframeBuffer l in
           elapsed' ← readElapsed payload;
           Ok (mkListener (close l) (lbuffer l)
                 (uint16 (lsequenceNumber l + 1)) elapsed' []
                 (lrtpWritten l ++ [packet]) (llogs l))
         else
           Ok (mkListener (close l) (lbuffer l) (lsequenceNumber l) (lelapsed l)
                 (lframeBuffer l) (lrtpWritten l)
                 (llogs l ++ ["Received Unknown Message"])));
      Ok (if close l' then Terminated else Listening, l').

Definition listenerRead (d : list Z) (l : Listener) : Listener :=
  mkListener (close l) (copy (lbuffer l) d) (lsequenceNumber l) (lelapsed l)
    (lframeBuffer l) (lrtpWritten l) (llogs l).

(** [handleCameraStream] on the datagrams received ([None]: [ReadFrom]
    failed). *)
Fixpoint handleCameraStream (datagrams : list (option (list Z))) (l : Listener)
    : result (loopStatus * Listener) :=
  match datagrams with
  | [] => Ok (Listening, l)
  | d :: datagrams' =>
      r ← listenerPacket (match d with Some d => listenerRead d l | None => l end);
      match r.1 with
      | Terminated => Ok r
      | Listening => handleCameraStream datagrams' r.2
      end
  end.

End ipcamera.

(** ** Package rtsp *)

Module rtsp.

Definition CRLF : string :=
  String (ascii_of_nat 13) (String (ascii_of_nat 10) EmptyString).

(** The client connection: its remote address, the IP part of it, and
    what has been written to it. *)
Record Conn := mkConn {
  RemoteAddr : string;
  RemoteIP : string;
  output : list string
}.

Definition Write (text : string) (conn : Conn) : Conn :=
  mkConn (RemoteAddr conn) (RemoteIP conn) (output conn ++ [text]).

(** What the server asks of the relay and of the camera. *)
Inductive Action :=
| CreateRTPRelay (targetIP : string) (targetPort : Z)
| StartPreviewStream
| StartRecording
| StopRelay.

Record Server := mkServer {
  remoteRTPPort : Z;
  remoteIP : string;
  rtpRelay : bool;          (* false: nil *)
  sdp : string;
  actions : list Action;
  logs : list string
}.

Definition CreateServer : Server :=
  mkServer 0 "" false
    ("v=0" +:+ CRLF +:+ "s=ActionCamera" +:+ CRLF +:+ "m=video 0 RTP/AVP 99"
       +:+ CRLF +:+ "a=rtpmap:99 H264/90000")
    [] [].

Definition log (line : string) (s : Server) : Server :=
  mkServer (remoteRTPPort s) (remoteIP s) (rtpRelay s) (sdp s) (actions s)
    (logs s ++ [line]).

Definition act (a : Action) (s : Server) : Server :=
  mkServer (remoteRTPPort s) (remoteIP s) (rtpRelay s) (sdp s)
    (actions s ++ [a]) (logs s).

Definition writeStatus (status : Z) (statusWord : string) : Conn -> Conn :=
  Write ("RTSP/1.0 " +:+ pretty status +:+ " " +:+ statusWord +:+ CRLF).

Definition writeHeader (key value : string) : Conn -> Conn :=
  Write (key +:+ ": " +:+ value +:+ CRLF).

Definition header (headers : gmap string string) (key : string) : string :=
  default "" (headers !! key).

Definition replyCSeq (headers : gmap string string) : Conn -> Conn :=
  writeHeader "CSeq" (header headers "CSeq").

(** The header lines of a request, collected into the map. *)
Fixpoint parseHeaders (lines : list string) (headers : gmap string string)
    : gmap string string :=
  match lines with
  | [] => headers
  | line :: lines' =>
      match Split line ":" with
      | key :: (_ :: _) as values =>
          parseHeaders lines' (<[key := TrimSpace (Join values ":")]> headers)
      | _ => parseHeaders lines' headers
      end
  end.

Section handleRequest.

(** [fmt.Sprintf("%X", md5.Sum([]byte(addr)))]. *)
Variable md5hex : string -> string.

Definition handleRequest (packet : list string) (conn : Conn) (s : Server)
    : result (Server * Conn) :=
  match packet with
  | [] => Panic (IndexOutOfRange 0 0)
  | line :: headerLines =>
      let request := Split line " " in
      match request with
      | [method; url; version] =>
          let headers := parseHeaders headerLines ∅ in
          let session := md5hex (RemoteAddr conn) in
          if String.eqb method "OPTIONS" then
            Ok (s, Write ("Public: DESCRIBE, SETUP, PLAY, PAUSE, RECORD"
                            +:+ CRLF +:+ CRLF)
                     (replyCSeq headers (writeStatus 200 "OK" conn)))
          else if String.eqb method "DESCRIBE" then
            Ok (s, Write (CRLF +:+ sdp s)
                     (writeHeader "Content-Length"
                        (pretty (String.length (sdp s)))
                        (writeHeader "Content-Type" "application/sdp"
                           (replyCSeq headers (writeStatus 200 "OK" conn)))))
          else if String.eqb method "SETUP" then
            let transportDescription := Split (header headers "Transport") ";" in
            let rtpDescription := List.last transportDescription "" in
            match Split rtpDescription "=" with
            | _ :: range :: _ =>
                match ParseInt (hd "" (Split range "-")) 32 with
                | None => Ok (log "ERROR Parsing RTP description" s, conn)
                | Some port =>
                    let s := mkServer port (RemoteIP conn) (rtpRelay s) (sdp s)
                               (actions s)
                               (logs s ++ ["Preparing to Stream"]) in
                    Ok (s, Write CRLF
                             (writeHeader "Session" session
                                (writeHeader "Transport"
                                   (header headers "Transport" +:+ ";ssrc=0")
                                   (replyCSeq headers
                                      (writeStatus 200 "OK" conn)))))
                end
            | parts => Panic (IndexOutOfRange 1 (length parts))
            end
          else if String.eqb method "PLAY" then
            let s := mkServer (remoteRTPPort s) (remoteIP s) true (sdp s)
                       (actions s ++ [CreateRTPRelay (remoteIP s) (remoteRTPPort s);
                                      StartPreviewStream])
                       (logs s) in
            Ok (s, Write CRLF
                     (writeHeader "RTP-Info"
                        ("url=" +:+ url +:+ ";seq=10;rtptime=10")
                        (writeHeader "Session" session
                           (replyCSeq headers (writeStatus 200 "OK" conn)))))
          else if String.eqb method "TEARDOWN" then
            if rtpRelay s then
              Ok (act StopRelay s,
                  Write CRLF (replyCSeq headers (writeStatus 200 "OK" conn)))
            else Panic NilDereference
          else if String.eqb method "RECORD" then
            Ok (act StartRecording s,
                Write CRLF
                  (writeHeader "Session" session
                     (replyCSeq headers (writeStatus 200 "OK" conn))))
          else Ok (s, conn)
      | _ => Ok (log "Received invalid request" s, conn)
      end
  end.

(** [handleClient] on the lines the scanner yields. *)
Fixpoint handleClient_loop (lines : list string) (packet : list string)
    (conn : Conn) (s : Server) : result (Server * Conn) :=
  match lines with
  | [] => Ok (s, conn)
  | line :: lines' =>
      if (0 <? String.length line)%nat then
        handleClient_loop lines' (packet ++ [line]) conn s
      else
        r ← handleRequest packet conn s;
        handleClient_loop lines' [] r.2 r.1
  end.

Definition handleClient (lines : list string) (conn : Conn) (s : Server)
    : result (Server * Conn) :=
  handleClient_loop lines [] conn s.

End handleRequest.

End rtsp.

(** * Vocabulary of the statements *)

Import libipcamera.

(** A user name of 70 bytes. *)
Definition longUsername : string :=
  "uuuuuuuuuuuuuuuuuuuuuuuuuuuuuuuuuuuuuuuuuuuuuuuuuuuuuuuuuuuuuuuuuuuuuu".

(** The zero value of [StoredFile]. *)
Definition placeholder : StoredFile := mkStoredFile "" 0.

(** What [parseFileList] makes of one segment: the stored file, when
    the segment is [path:size] with a nonempty path and a positive size
    that fits 64 bits. *)
Definition fileEntry (file : string) : option StoredFile :=
  match Split file ":" with
  | [path; sizeText] =>
      match ParseUint sizeText 64 with
      | Some size =>
          if (0 <? size) && (0 <? String.length path)%nat
          then Some (mkStoredFile path size) else None
      | None => None
      end
  | _ => None
  end.

Definition entryOrPlaceholder (file : string) : StoredFile :=
  default placeholder (fileEntry file).


Definition standing (h : MessageHandler) : Prop :=
  forall s m s' toRemove err,
    hfun h s m = Ok (s', (toRemove, err)) -> toRemove = KeepHandler.





(** Three handlers, a message and a camera to try the statements on. *)
Definition exampleStanding : MessageHandler :=
  mkHandler 1 (fun s _ => Ok (s, (KeepHandler, None))).



Definition exampleMessage : Message :=
  mkMessage (mkHeader 0xABCD 0 PICTURE_SAVED) [].

Definition connectedCamera : Camera :=
  Connect (Some (mkConn [] false)) (CreateCamera "admin" "12345").




(** The message by which the camera refuses the login. *)
Definition loginRejection (payload : list Z) : Message :=
  mkMessage (mkHeader 0xABCD (Z.of_nat (length payload)) 0x1234) payload.

Definition loginAcceptance : Message :=
  mkMessage (mkHeader 0xABCD 0 LOGIN_ACCEPT) [].

(** The fields of a stream header fit their 16 bits. *)
Definition inRange (header : streamHeader) : Prop :=
  0 <= SMagic header < 65536 /\ 0 <= SLength header < 65536
  /\ 0 <= SequenceNumber header < 65536 /\ 0 <= SMessageType header < 65536.

(** Datagrams of the fragment stream: one with a foreign magic, a data
    fragment, a boundary fragment; and a boundary payload with elapsed
    100 at offset 12. *)
Definition badDatagram : list Z :=
  streamPacket (mkStreamHeader 0x1234 0 0 1) [].

Definition dataDatagram (sequence : Z) (data : list Z) : list Z :=
  streamPacket (mkStreamHeader 0xBCDE (Z.of_nat (length data)) sequence 1) data.

Definition boundaryDatagram (sequence : Z) (payload : list Z) : list Z :=
  streamPacket (mkStreamHeader 0xBCDE (Z.of_nat (length payload)) sequence 2)
    payload.

Definition elapsed100 : list Z :=
  [0; 0; 0; 0; 0; 0; 0; 0; 0; 0; 0; 0; 100; 0; 0; 0].


Definition timestampField (packet : list Z) : Z :=
  BigEndian_get (take 4 (drop 4 packet)).

(** Request lines of a signaling client. *)
Definition setupLine : string := "SETUP rtsp://127.0.0.1:8554/ RTSP/1.0".

Definition optionsLine : string := "OPTIONS rtsp://127.0.0.1:8554/ RTSP/1.0".

(** The answer to a keep-alive request, as it goes over the wire. *)
Definition aliveResponse : list Z := [0xAB; 0xCD; 0; 0; 0; 0; 0x01; 0x13].

(** A camera that is connected and logged in. *)
Definition loggedInCamera : Camera :=
  with_st (set_isLoggedIn true) connectedCamera.

(** The file list as the camera sends it: the number of parts and the
    index of the part, four bytes each, least significant byte first, then
    a piece of the listing; and the parts of a listing cut into pieces. *)
Definition LittleEndian_put32 (v : Z) : list Z :=
  [v mod 256; (v / 256) mod 256; (v / 65536) mod 256; (v / 16777216) mod 256].

Definition fileListPart (total index : Z) (chunk : string) : Message :=
  mkMessage
    (mkHeader 0xABCD (Z.of_nat (8 + String.length chunk)) FILE_LIST_CONTENT)
    (LittleEndian_put32 total ++ LittleEndian_put32 index ++ bytes chunk).

Fixpoint fileListParts (total : Z) (index : nat) (chunks : list string)
    : list Message :=
  match chunks with
  | [] => []
  | chunk :: chunks' =>
      fileListPart total (Z.of_nat index) chunk
        :: fileListParts total (S index) chunks'
  end.

Definition joined (chunks : list string) : string :=
  fold_right String.append "" chunks.

(** Data fragments, each with its sequence number, as events of the
    relay and as datagrams of the listener; and the fragments that fit. *)
Definition dataEvents (fragments : list (Z * list Z)) : list RelayEvent :=
  map (fun f => Datagram (dataDatagram (fst f) (snd f))) fragments.

Definition dataDatagrams (fragments : list (Z * list Z))
    : list (option (list Z)) :=
  map (fun f => Some (dataDatagram (fst f) (snd f))) fragments.

Definition fits (fragment : Z * list Z) : Prop :=
  0 <= fst fragment < 65536 /\ Z.of_nat (length (snd fragment)) <= 2040.

(** The header the relays put in front of a frame. *)
Definition rtpHeader (sequence timestamp : Z) : list Z :=
  [0x80; 0x63] ++ BigEndian_put 2 sequence ++ BigEndian_put 4 timestamp
    ++ BigEndian_put 8 0.

(** A line of a request, as opposed to the empty line that ends one. *)
Definition nonblank (line : string) : Prop := (0 < String.length line)%nat.

(** Request lines of a player. *)
Definition playLine : string := "PLAY rtsp://127.0.0.1:8554/ RTSP/1.0".

Definition teardownLine : string := "TEARDOWN rtsp://127.0.0.1:8554/ RTSP/1.0".

Definition pauseLine : string := "PAUSE rtsp://127.0.0.1:8554/ RTSP/1.0".

(** [free sep s]: the byte [sep] does not occur in [s]. *)
Fixpoint free (sep : ascii) (s : string) : bool :=
  match s with
  | EmptyString => true
  | String c s' => negb (Ascii.eqb c sep) && free sep s'
  end.

Fixpoint spaceless (s : string) : bool :=
  match s with
  | EmptyString => true
  | String c s' => negb (isSpace c) && spaceless s'
  end.

(** Text without ASCII white space and without the bytes that separate
    the parts of a transport header. *)
Definition plain (s : string) : bool :=
  spaceless s && free ";" s && free "=" s && free "-" s.

(** The transport header of a player that wants the stream on the ports
    [first] to [last]. *)
Definition transportValue (first last : string) : string :=
  "RTP/AVP;unicast;client_port=" +:+ first +:+ "-" +:+ last.

Definition transportLine (first last : string) : string :=
  "Transport: " +:+ transportValue first last.

(** A no-break space, U+00A0. *)
Definition nbsp : string := utf8 [0xC2; 0xA0]%N.

(** The methods [handleRequest] has a case for. *)
Definition methods : list string :=
  ["OPTIONS"; "DESCRIBE"; "SETUP"; "PLAY"; "TEARDOWN"; "RECORD"].

(** A stand-in for the digest of the remote address. *)
Definition exampleDigest (addr : string) : string :=
  "D41D8CD98F00B204E9800998ECF8427E".

Definition exampleClient : rtsp.Conn :=
  rtsp.mkConn "10.0.0.2:40000" "10.0.0.2" [].

(** * Properties *)

(** ** Byte order *)

Section ByteOrder.

Lemma land_255 (v : Z) : Z.land v 255 = v mod 256.
Proof. change 255 with (Z.ones 8). now rewrite Z.land_ones by lia. Qed.

Lemma BigEndian_put_2 (v : Z) :
  BigEndian_put 2 v = [(v / 256) mod 256; v mod 256].
Proof.
  unfold BigEndian_put. rewrite !land_255.
  change (8 * Z.of_nat 1) with 8. change (8 * Z.of_nat 0) with 0.
  rewrite Z.shiftr_0_r, Z.shiftr_div_pow2 by lia. reflexivity.
Qed.

Lemma BigEndian_put_4 (v : Z) :
  BigEndian_put 4 v =
  [(v / 16777216) mod 256; (v / 65536) mod 256; (v / 256) mod 256; v mod 256].
Proof.
  unfold BigEndian_put. rewrite !land_255.
  change (8 * Z.of_nat 3) with 24. change (8 * Z.of_nat 2) with 16.
  change (8 * Z.of_nat 1) with 8. change (8 * Z.of_nat 0) with 0.
  rewrite Z.shiftr_0_r, !Z.shiftr_div_pow2 by lia. reflexivity.
Qed.

Lemma BigEndian_get_put_2 (v : Z) :
  0 <= v < 65536 -> BigEndian_get (BigEndian_put 2 v) = v.
Proof.
  intros Hv. rewrite BigEndian_put_2. unfold BigEndian_get.
  cbn [fold_left]. Z.to_euclidean_division_equations. lia.
Qed.

Lemma BigEndian_get_put_4 (v : Z) :
  0 <= v < 4294967296 -> BigEndian_get (BigEndian_put 4 v) = v.
Proof.
  intros Hv. rewrite BigEndian_put_4. unfold BigEndian_get.
  cbn [fold_left]. Z.to_euclidean_division_equations. lia.
Qed.

Lemma BigEndian_put_length (n : nat) (v : Z) : length (BigEndian_put n v) = n.
Proof. induction n; simpl; congruence. Qed.

End ByteOrder.

(** ** Frame codec (protocol.go and the reader of Camera.go) *)

Section FrameCodec.

Lemma uint16_small (n : nat) :
  Z.of_nat n <= 65535 -> uint16 (Z.of_nat n) = Z.of_nat n.
Proof. intros Hn. unfold uint16. apply Z.mod_small. lia. Qed.

Lemma CreatePacket_bytes (header : Header) (payload : list Z) :
  CreatePacket header payload =
  BigEndian_put 2 (Magic header)
    ++ BigEndian_put 2 (uint16 (Z.of_nat (length payload)))
    ++ BigEndian_put 4 (MessageType header) ++ payload.
Proof. reflexivity. Qed.

(** Reading back what [CreatePacket] wrote, whatever follows it on the
    wire. *)
Lemma readMessage_CreatePacket (header : Header) (payload rest : list Z) :
  Magic header = 0xABCD ->
  0 <= MessageType header < 4294967296 ->
  Z.of_nat (length payload) <= 65535 ->
  readMessage (CreatePacket header payload ++ rest) =
  GotMessage
    (mkMessage (mkHeader (Magic header) (Z.of_nat (length payload))
                         (MessageType header)) payload)
    rest.
Proof.
  intros Hmagic Htype Hlen.
  pose proof (BigEndian_get_put_2 (Magic header)) as Hm.
  pose proof (BigEndian_get_put_2 (Z.of_nat (length payload))) as Hl.
  pose proof (BigEndian_get_put_4 (MessageType header) Htype) as Ht.
  rewrite CreatePacket_bytes, uint16_small by exact Hlen.
  rewrite BigEndian_put_2 in Hm |- *. rewrite BigEndian_put_2 in Hl |- *.
  rewrite BigEndian_put_4 in Ht |- *.
  unfold readMessage, readHeader. cbn [app].
  destruct (Nat.ltb_spec (length
    ((Magic header / 256) mod 256 :: Magic header mod 256
     :: (Z.of_nat (length payload) / 256) mod 256
     :: Z.of_nat (length payload) mod 256
     :: (MessageType header / 16777216) mod 256
     :: (MessageType header / 65536) mod 256
     :: (MessageType header / 256) mod 256
     :: MessageType header mod 256 :: payload ++ rest)) 8) as [Hshort | _];
    [cbn [length] in Hshort; lia |].
  cbn [take drop].
  rewrite ?take_0, ?drop_0, Hm, Hl, Ht by lia. cbn [Magic Length MessageType].
  rewrite Hmagic. change (negb (43981 =? 43981)) with false. cbv iota.
  destruct (Z.ltb_spec 0 (Z.of_nat (length payload))) as [Hpos | Hzero].
  - rewrite Nat2Z.id.
    replace (length (payload ++ rest) <? length payload)%nat with false
      by (symmetry; apply Nat.ltb_ge; rewrite length_app; lia).
    rewrite take_app_length, drop_app_length. reflexivity.
  - assert (payload = []) as ->
      by (destruct payload; [reflexivity | simpl in Hzero; lia]).
    reflexivity.
Qed.

(** A payload of 65536 bytes: the length field wraps to 0 and the
    reader takes the packet for one without payload. *)
Lemma readMessage_CreatePacket_wraps (header : Header) (payload : list Z) :
  Magic header = 0xABCD ->
  0 <= MessageType header < 4294967296 ->
  Z.of_nat (length payload) = 65536 ->
  readMessage (CreatePacket header payload) =
  GotMessage (mkMessage (mkHeader 0xABCD 0 (MessageType header)) []) payload.
Proof.
  intros Hmagic Htype Hlen.
  pose proof (BigEndian_get_put_4 (MessageType header) Htype) as Ht.
  rewrite CreatePacket_bytes, Hlen, Hmagic.
  change (uint16 65536) with 0.
  change (BigEndian_put 2 43981) with [171; 205].
  change (BigEndian_put 2 0) with [0; 0].
  rewrite BigEndian_put_4 in Ht |- *.
  unfold readMessage, readHeader. cbn [app].
  destruct (Nat.ltb_spec (length
    (171 :: 205 :: 0 :: 0
     :: (MessageType header / 16777216) mod 256
     :: (MessageType header / 65536) mod 256
     :: (MessageType header / 256) mod 256
     :: MessageType header mod 256 :: payload)) 8) as [Hshort | _];
    [cbn [length] in Hshort; lia |].
  cbn [take drop]. rewrite ?take_0, ?drop_0, Ht.
  reflexivity.
Qed.

(** C6 (as amended): for every header carrying the control-channel magic
    0xABCD (and a 32-bit message type) and every payload of at most 65535
    bytes, including the empty one, the bytes of [CreatePacket] are the
    big-endian magic, length and message type followed by the payload, and
    reading them back gives the header with its length field set to the
    payload's byte count, and the payload. *)
Theorem CreatePacket_roundtrip (header : Header) (payload : list Z) :
  Magic header = 0xABCD ->
  0 <= MessageType header < 4294967296 ->
  Z.of_nat (length payload) <= 65535 ->
  CreatePacket header payload =
    BigEndian_put 2 (Magic header)
      ++ BigEndian_put 2 (Z.of_nat (length payload))
      ++ BigEndian_put 4 (MessageType header) ++ payload
  /\ readMessage (CreatePacket header payload) =
     GotMessage
       (mkMessage (mkHeader (Magic header) (Z.of_nat (length payload))
                            (MessageType header)) payload)
       [].
Proof.
  intros Hmagic Htype Hlen. split.
  - rewrite CreatePacket_bytes, uint16_small by exact Hlen. reflexivity.
  - rewrite <- (app_nil_r (CreatePacket header payload)).
    now apply readMessage_CreatePacket.
Qed.

Lemma CreatePacket_roundtrip_witness :
  readMessage (CreatePacket (CreateCommandHeader TAKE_PICTURE) []) =
  GotMessage (mkMessage (mkHeader 0xABCD 0 TAKE_PICTURE) []) [].
Proof.
  apply (CreatePacket_roundtrip (CreateCommandHeader TAKE_PICTURE) []).
  - reflexivity.
  - unfold CreateCommandHeader, TAKE_PICTURE; simpl; lia.
  - simpl; lia.
Defined.

(** C6 (as stated) fails: a header with another magic is refused by the
    reader, and a payload of 65536 bytes is written with length 0, so that
    the reader returns an empty payload. *)
Lemma CreatePacket_roundtrip_counterexample :
  readMessage (CreatePacket (mkHeader 0x1234 0 LOGIN) [])
    = InvalidMagic (mkHeader 0x1234 0 LOGIN)
  /\ readMessage (CreatePacket (mkHeader 0x1234 0 LOGIN) [])
    <> GotMessage (mkMessage (mkHeader 0x1234 0 LOGIN) []) []
  /\ readMessage
       (CreatePacket (CreateCommandHeader LOGIN) (replicate (Z.to_nat 65536) 7))
    = GotMessage (mkMessage (mkHeader 0xABCD 0 LOGIN) [])
                 (replicate (Z.to_nat 65536) 7).
Proof.
  split; [vm_compute; reflexivity |].
  split; [vm_compute; discriminate |].
  apply (readMessage_CreatePacket_wraps (CreateCommandHeader LOGIN)).
  - reflexivity.
  - unfold CreateCommandHeader, LOGIN; simpl; lia.
  - rewrite length_replicate. apply Z2Nat.id. lia.
Qed.

(** The packet of the test of the repository: [ABCD00000000A038]. *)
Example CreatePacket_TAKE_PICTURE :
  CreatePacket (CreateCommandHeader TAKE_PICTURE) [] =
  [0xAB; 0xCD; 0x00; 0x00; 0x00; 0x00; 0xA0; 0x38].
Proof. reflexivity. Qed.

End FrameCodec.

(** ** The login packet *)

Section LoginPacket.

Lemma copy_length {A} (dst src : list A) : length (copy dst src) = length dst.
Proof. unfold copy. rewrite length_app, length_take, length_drop. lia. Qed.

Lemma copy_at_length {A} (off : nat) (dst src : list A) :
  length (copy_at off dst src) = length dst.
Proof.
  unfold copy_at. rewrite length_app, copy_length, length_take, length_drop. lia.
Qed.

(** The payload always has 128 bytes. *)
Lemma CreateLoginPayload_length (username password : string) :
  length (CreateLoginPayload username password) = 128%nat.
Proof.
  unfold CreateLoginPayload. rewrite copy_at_length, copy_length.
  apply length_replicate.
Qed.

(** X3: with a user name of at most 64 bytes the two fields are as the
    protocol wants them: the user name padded with zero bytes to 64 bytes,
    then the password, cut at 64 bytes and padded to 64 bytes. *)
Lemma CreateLoginPayload_short_username (username password : string) :
  (length (bytes username) <= 64)%nat ->
  CreateLoginPayload username password =
  (bytes username ++ replicate (64 - length (bytes username)) 0)
    ++ take 64 (bytes password)
    ++ replicate (64 - length (bytes password)) 0.
Proof.
  intros Hu. unfold CreateLoginPayload, copy_at, copy, make.
  rewrite length_replicate.
  set (u := bytes username) in *. set (p := bytes password).
  rewrite (take_ge u) by lia.
  rewrite drop_replicate.
  assert (Hsplit : u ++ replicate (128 - length u) 0
                   = (u ++ replicate (64 - length u) 0) ++ replicate 64 0).
  { rewrite <- app_assoc, <- replicate_add. do 2 f_equal. lia. }
  rewrite Hsplit.
  assert (Hlen : length (u ++ replicate (64 - length u) 0) = 64%nat)
    by (rewrite length_app, length_replicate; lia).
  rewrite take_app_length' by (symmetry; exact Hlen).
  rewrite drop_app_length' by (symmetry; exact Hlen).
  rewrite length_replicate, drop_replicate. reflexivity.
Qed.

(** C2 at a user name of 70 bytes: the payload still has 128 bytes, but
    the bytes of the user name beyond the 64th are written into the
    password field, behind the password "pw". *)
Theorem CreateLoginPacket_long_username :
  length (bytes longUsername) = 70%nat
  /\ length (CreateLoginPayload longUsername "pw") = 128%nat
  /\ drop 64 (CreateLoginPayload longUsername "pw")
     = bytes "pwuuuu" ++ replicate 58 0
  /\ drop 64 (CreateLoginPayload longUsername "pw")
     <> bytes "pw" ++ replicate 62 0
  /\ CreateLoginPacket longUsername "pw"
     = [0xAB; 0xCD; 0x00; 0x80; 0x00; 0x00; 0x01; 0x10]
         ++ CreateLoginPayload longUsername "pw".
Proof.
  repeat split; try (vm_compute; reflexivity).
  vm_compute. discriminate.
Qed.

(** The example of the specification: [login("admin", "12345")]. *)
Example CreateLoginPayload_admin :
  CreateLoginPayload "admin" "12345" =
  bytes "admin" ++ replicate 59 0 ++ bytes "12345" ++ replicate 59 0.
Proof. vm_compute. reflexivity. Qed.

End LoginPacket.

(** ** The file list *)

Section FileList.

Lemma Split_nonempty (s : string) (sep : ascii) : Split s sep <> [].
Proof.
  destruct s as [| c s]; simpl; [discriminate |].
  destruct (Ascii.eqb c sep); [discriminate |].
  destruct (Split s sep); discriminate.
Qed.

Lemma Split_app_sep (s : string) (sep : ascii) :
  Split (s +:+ String sep EmptyString) sep = Split s sep ++ [EmptyString].
Proof.
  induction s as [| c s IH]; simpl.
  - rewrite Ascii.eqb_refl. reflexivity.
  - destruct (Ascii.eqb c sep).
    + rewrite IH. reflexivity.
    + rewrite IH. pose proof (Split_nonempty s sep) as Hne.
      destruct (Split s sep); [congruence | reflexivity].
Qed.

Lemma parseFileList_loop_step (i : nat) (file : string) (files : list string)
    (stored : list StoredFile) :
  parseFileList_loop i (file :: files) stored =
  match fileEntry file with
  | Some entry =>
      if (i <? length stored)%nat
      then parseFileList_loop (S i) files (<[i := entry]> stored)
      else Panic (IndexOutOfRange i (length stored))
  | None => parseFileList_loop (S i) files stored
  end.
Proof.
  unfold fileEntry. cbn [parseFileList_loop].
  destruct (Split file ":") as [| path [| sizeText [| ? ?]]]; try reflexivity.
  destruct (ParseUint sizeText 64) as [size |]; [| reflexivity].
  destruct ((0 <? size) && (0 <? String.length path)%nat); reflexivity.
Qed.

(** As long as there is a slot for every segment, each segment fills
    its own slot, with its entry or with the placeholder. *)
Lemma parseFileList_loop_fits (files : list string) :
  forall (done : list StoredFile) (k : nat),
    (length files <= k)%nat ->
    parseFileList_loop (length done) files (done ++ replicate k placeholder) =
    Ok (done ++ map entryOrPlaceholder files
             ++ replicate (k - length files) placeholder).
Proof.
  induction files as [| file files IH]; intros done k Hk.
  - simpl. rewrite Nat.sub_0_r. reflexivity.
  - simpl in Hk. destruct k as [| k]; [lia |].
    rewrite parseFileList_loop_step.
    assert (Hnext : forall entry,
               parseFileList_loop (S (length done)) files
                 ((done ++ [entry]) ++ replicate k placeholder) =
               Ok (done ++ entry :: map entryOrPlaceholder files
                        ++ replicate (k - length files) placeholder)).
    { intros entry. specialize (IH (done ++ [entry]) k).
      rewrite length_app, Nat.add_1_r in IH. rewrite IH by lia.
      rewrite <- app_assoc. reflexivity. }
    unfold entryOrPlaceholder at 1. cbn [map].
    destruct (fileEntry file) as [entry |]; cbn [default].
    + replace (length done <? length (done ++ replicate (S k) placeholder))%nat
        with true
        by (symmetry; apply Nat.ltb_lt; rewrite length_app, length_replicate; lia).
      rewrite insert_app_r_alt, Nat.sub_diag by lia. cbn [replicate].
      change (<[0%nat := entry]> (placeholder :: replicate k placeholder))
        with (entry :: replicate k placeholder).
      rewrite (cons_middle entry), app_assoc. rewrite Hnext.
      reflexivity.
    + cbn [replicate].
      rewrite (cons_middle placeholder), app_assoc. rewrite Hnext.
      reflexivity.
Qed.

Lemma parseFileList_loop_app (xs ys : list string) :
  forall (i : nat) (stored : list StoredFile),
    parseFileList_loop i (xs ++ ys) stored =
    match parseFileList_loop i xs stored with
    | Ok stored' => parseFileList_loop (i + length xs) ys stored'
    | Panic p => Panic p
    end.
Proof.
  induction xs as [| x xs IH]; intros i stored.
  - simpl. rewrite Nat.add_0_r. reflexivity.
  - cbn [app]. rewrite !parseFileList_loop_step.
    cbn [length]. rewrite Nat.add_succ_r.
    destruct (fileEntry x); [destruct (i <? length stored)%nat |];
      try reflexivity; apply IH.
Qed.

(** [parseFileList] in closed form: the segments but the last fill
    their slots; the last segment has no slot, and panics if it is a
    valid entry. *)
Lemma parseFileList_split (input : string) (init : list string) (final : string) :
  Split input ";" = init ++ [final] ->
  parseFileList input =
  match fileEntry final with
  | Some _ => Panic (IndexOutOfRange (length init) (length init))
  | None => Ok (map entryOrPlaceholder init)
  end.
Proof.
  intros Hsplit. unfold parseFileList. rewrite Hsplit.
  change (mkStoredFile "" 0) with placeholder.
  rewrite length_app, Nat.add_1_r. cbn [length Nat.sub]. rewrite Nat.sub_0_r.
  rewrite parseFileList_loop_app.
  pose proof (parseFileList_loop_fits init [] (length init) (Nat.le_refl _)) as Hfits.
  cbn [app length] in Hfits. rewrite Hfits, Nat.sub_diag. cbn [replicate].
  rewrite app_nil_r. cbn [Nat.add].
  rewrite parseFileList_loop_step.
  destruct (fileEntry final); [| reflexivity].
  rewrite length_map, Nat.ltb_irrefl. reflexivity.
Qed.

Lemma fileEntry_Some (file : string) (entry : StoredFile) :
  fileEntry file = Some entry <->
  exists sizeText,
    Split file ":" = [Path entry; sizeText]
    /\ ParseUint sizeText 64 = Some (Size entry)
    /\ 0 < Size entry /\ Path entry <> "".
Proof.
  unfold fileEntry. split.
  - destruct (Split file ":") as [| path [| sizeText [| ? ?]]]; try discriminate.
    destruct (ParseUint sizeText 64) as [size |] eqn:Hsize; [| discriminate].
    destruct (Z.ltb_spec 0 size) as [Hpos |]; [| discriminate].
    destruct path as [| c path]; [discriminate |].
    cbn. intros [= <-]. exists sizeText. cbn.
    repeat split; auto.
  - intros (sizeText & -> & -> & Hpos & Hpath).
    destruct (Z.ltb_spec 0 (Size entry)) as [_ |]; [| lia].
    destruct entry as [[| c path] size]; [cbn in Hpath; congruence |].
    reflexivity.
Qed.

(** C7: the two listings of the specification, and in general, for a
    listing closed by its [;] (and for the segments in front of the last
    [;] of any text on which the function returns), one entry per segment
    at the index of the segment: the stored file when the segment is
    [path:size] with a nonempty path and a positive size, and the
    zero-valued placeholder otherwise. *)
Theorem parseFileList_keeps_placeholders :
  parseFileList "/a.mp4:1000;/b.mp4:2000;"
    = Ok [mkStoredFile "/a.mp4" 1000; mkStoredFile "/b.mp4" 2000]
  /\ parseFileList "/a.mp4:0;" = Ok [mkStoredFile "" 0]
  /\ (forall listing : string,
        parseFileList (listing +:+ ";")
          = Ok (map entryOrPlaceholder (Split listing ";")))
  /\ (forall (listing file : string) (i : nat),
        Split listing ";" !! i = Some file ->
        exists stored,
          parseFileList (listing +:+ ";") = Ok stored
          /\ length stored = length (Split listing ";")
          /\ stored !! i = Some (entryOrPlaceholder file))
  /\ (forall (input : string) (entries : list string) (final : string),
        Split input ";" = entries ++ [final] ->
        fileEntry final = None ->
        parseFileList input = Ok (map entryOrPlaceholder entries))
  /\ (forall file : string,
        (fileEntry file = None /\ entryOrPlaceholder file = mkStoredFile "" 0)
        \/ (exists path sizeText size,
              Split file ":" = [path; sizeText]
              /\ ParseUint sizeText 64 = Some size
              /\ 0 < size /\ path <> ""
              /\ entryOrPlaceholder file = mkStoredFile path size)).
Proof.
  assert (Hclosed : forall listing : string,
             parseFileList (listing +:+ ";")
             = Ok (map entryOrPlaceholder (Split listing ";"))).
  { intros listing.
    rewrite (parseFileList_split _ (Split listing ";") "")
      by apply Split_app_sep.
    reflexivity. }
  split; [vm_compute; reflexivity |].
  split; [vm_compute; reflexivity |].
  split; [exact Hclosed |].
  split.
  - intros listing file i Hi.
    exists (map entryOrPlaceholder (Split listing ";")).
    split; [apply Hclosed |]. split; [apply length_map |].
    rewrite list_lookup_fmap, Hi. reflexivity.
  - split.
    { intros input entries final Hsplit Hnone.
      rewrite (parseFileList_split input entries final Hsplit), Hnone.
      reflexivity. }
    intros file. unfold entryOrPlaceholder.
    destruct (fileEntry file) as [entry |] eqn:Hentry; [right | left; auto].
    apply fileEntry_Some in Hentry as (sizeText & H1 & H2 & H3 & H4).
    exists (Path entry), sizeText, (Size entry).
    destruct entry; cbn in *; auto.
Qed.

(** C10: when the last segment of the text is itself a valid entry (so
    that the text cannot end with [;]), the loop writes index [len-1]
    into a slice of length [len-1], [len] being the number of segments,
    and the function panics. *)
Theorem parseFileList_index_out_of_range
    (input final path sizeText : string) (size : Z) :
  last (Split input ";") = Some final ->
  Split final ":" = [path; sizeText] ->
  path <> "" ->
  ParseUint sizeText 64 = Some size ->
  0 < size ->
  parseFileList input =
    Panic (IndexOutOfRange (length (Split input ";") - 1)
                           (length (Split input ";") - 1))
  /\ (forall body : string, input <> body +:+ ";").
Proof.
  intros Hlast Hparts Hpath Hsize Hpos.
  apply last_Some in Hlast as [init Hinit].
  assert (Hentry : fileEntry final = Some (mkStoredFile path size))
    by (apply fileEntry_Some; exists sizeText; cbn; auto).
  split.
  - rewrite (parseFileList_split input init final Hinit), Hentry, Hinit.
    rewrite length_app, Nat.add_1_r. cbn [length Nat.sub].
    rewrite Nat.sub_0_r. reflexivity.
  - intros body ->. rewrite Split_app_sep in Hinit.
    apply app_inj_tail in Hinit as [_ <-]. discriminate Hentry.
Qed.

Lemma parseFileList_index_out_of_range_witness :
  parseFileList "/a.mp4:1000;/b.mp4:2000" = Panic (IndexOutOfRange 1 1)
  /\ (forall body : string, "/a.mp4:1000;/b.mp4:2000" <> body +:+ ";").
Proof.
  apply (parseFileList_index_out_of_range
           "/a.mp4:1000;/b.mp4:2000" "/b.mp4:2000" "/b.mp4" "2000" 2000).
  - reflexivity.
  - reflexivity.
  - discriminate.
  - reflexivity.
  - lia.
Defined.

(** The other half of C10: in every other case the function returns. *)
Lemma parseFileList_returns (input final : string) :
  last (Split input ";") = Some final ->
  fileEntry final = None ->
  exists stored, parseFileList input = Ok stored
                 /\ S (length stored) = length (Split input ";").
Proof.
  intros Hlast Hnone. apply last_Some in Hlast as [init Hinit].
  exists (map entryOrPlaceholder init).
  rewrite (parseFileList_split input init final Hinit), Hnone, Hinit.
  rewrite length_map, length_app, Nat.add_1_r. auto.
Qed.

End FileList.

(** ** The handler table *)

Section Handlers.













Lemma exampleStanding_standing : standing exampleStanding.
Proof. intros s m s' toRemove err [= _ <- _]. reflexivity. Qed.









End Handlers.

(** ** Commands and login *)

Section Commands.

#[local] Arguments select : simpl never.
#[local] Arguments CreatePacket : simpl never.
#[local] Arguments CreateLoginPacket : simpl never.
#[local] Arguments dispatch : simpl never.

Lemma select_timeout (ch : nat) (c : Camera) :
  chans (st c) !! ch = Some [] -> select ch [] c = Ok (c, None).
Proof. intros Hch. unfold select, chan_recv. rewrite Hch. reflexivity. Qed.

(** The commands that check the login state: before login they return
    the login error at once, leaving the camera (its connection, its
    handler table, its channels) as it was. *)
Lemma commands_require_login (arrivals : list Message) (c : Camera) :
  isLoggedIn (st c) = false ->
  TakePicture arrivals c = Ok (c, Some "Camera Login required")
  /\ StartRecording arrivals c = Ok (c, Some "Camera Login required")
  /\ StopRecording arrivals c = Ok (c, Some "Camera Login required")
  /\ GetFirmwareInfo arrivals c = Ok (c, ("", Some "Camera Login required"))
  /\ StartPreviewStream c = Ok (c, Some "Camera Login required").
Proof.
  intros Hlogin.
  unfold TakePicture, StartRecording, StopRecording, GetFirmwareInfo,
    StartPreviewStream.
  rewrite Hlogin. cbn. auto.
Qed.

(** C1 at [GetFileList]: it does not look at the login state.  On a
    camera that is connected but not logged in, it registers its handler and
    writes the request to the connection; with no answer it ends with its
    own timeout error, not with the login error. *)
Theorem GetFileList_without_login (c : Camera) (conn : Conn) :
  isLoggedIn (st c) = false ->
  connection (st c) = Some conn ->
  closed conn = false ->
  exists c',
    GetFileList [] c = Ok (c', ([], Some "Timed out while loading file list"))
    /\ connection (st c')
       = Some (mkConn (written conn
                         ++ [[0xAB; 0xCD; 0x00; 0x04; 0x00; 0x00; 0xA0; 0x25;
                              0x01; 0x00; 0x00; 0x00]]) false)
    /\ handlersFor c' FILE_LIST_CONTENT
       = handlersFor c FILE_LIST_CONTENT ++ [GetFileList_handler (nextId (st c))]
    /\ isLoggedIn (st c') = false.
Proof.
  intros Hlogin Hconn Hopen.
  unfold GetFileList, make_chan, SendPacket. cbn.
  rewrite Hconn, Hopen. cbn.
  rewrite select_timeout by (cbn; apply lookup_insert_eq).
  cbn. eexists. split; [reflexivity |]. cbn.
  split; [reflexivity |]. split; [| exact Hlogin].
  unfold handlersFor. cbn. rewrite lookup_insert_eq. reflexivity.
Qed.

Lemma GetFileList_without_login_witness :
  exists c',
    GetFileList [] connectedCamera
      = Ok (c', ([], Some "Timed out while loading file list"))
    /\ connection (st c')
       = Some (mkConn [[0xAB; 0xCD; 0x00; 0x04; 0x00; 0x00; 0xA0; 0x25;
                        0x01; 0x00; 0x00; 0x00]] false)
    /\ handlersFor c' FILE_LIST_CONTENT = [GetFileList_handler 1]
    /\ isLoggedIn (st c') = false.
Proof.
  apply (GetFileList_without_login connectedCamera (mkConn [] false));
    reflexivity.
Defined.

Lemma select_cons (ch : nat) (m : Message) (ms : list Message) (c : Camera) :
  chans (st c) !! ch = Some [] ->
  select ch (m :: ms) c = (c' ← dispatch m c; select ch ms c').
Proof. intros Hch. unfold select at 1, chan_recv. rewrite Hch. reflexivity. Qed.

Lemma select_ready (ch : nat) (ms : list Message) (c : Camera)
    (v : ChanVal) (q : list ChanVal) :
  chans (st c) !! ch = Some (v :: q) ->
  select ch ms c
  = Ok (with_st (fun _ => set_chans (<[ch := q]> (chans (st c))) (st c)) c, Some v).
Proof.
  intros Hch. destruct ms; unfold select, chan_recv; rewrite Hch; reflexivity.
Qed.

Lemma dispatch_unknown (m : Message) (c : Camera) :
  handlersFor c (MessageType (MHeader m)) = [] ->
  dispatch m c
  = Ok (with_st (log_Printf "Received Unknown Message (no handler registered)") c).
Proof. intros Hnone. unfold dispatch. rewrite Hnone. reflexivity. Qed.

Lemma Log_fields (line : string) (s : State) :
  chans (Log line s) = chans s
  /\ isLoggedIn (Log line s) = isLoggedIn s
  /\ connection (Log line s) = connection s.
Proof. unfold Log. destruct (verbose s); auto. Qed.

(** C5 at a camera that answers the login with its refusal (message
    type 0x1234): [Login] has registered its handler for [LOGIN_ACCEPT]
    only, the refusal is dumped as an unknown message, and [Login] ends
    with the timeout error.  Even run on the refusal, the handler of
    [Login] would remove itself with the error of [loginResultHandler]
    without sending on the channel [Login] waits for. *)
Theorem Login_rejection_times_out (c : Camera) (conn : Conn) (payload : list Z) :
  connection (st c) = Some conn ->
  closed conn = false ->
  handlersFor c 0x1234 = [] ->
  (exists c',
     Login [loginRejection payload] c = Ok (c', Some "Login request timed out")
     /\ isLoggedIn (st c') = isLoggedIn (st c)
     /\ connection (st c')
        = Some (mkConn (written conn
                          ++ [CreateLoginPacket (username (st c)) (password (st c))])
                       false))
  /\ (forall s : State,
        hfun (Login_handler (nextId (st c))) s (loginRejection payload)
        = Ok (Log "Login failed" s,
              (RemoveHandler,
               Some "There is already a client connected to the camera"))).
Proof.
  intros Hconn Hopen Hnone. split; [| intros s; reflexivity].
  unfold Login, make_chan, SendPacket. cbn.
  rewrite Hconn, Hopen. cbn.
  rewrite select_cons by (cbn; apply lookup_insert_eq).
  rewrite dispatch_unknown.
  2:{ unfold handlersFor in *. cbn.
      rewrite lookup_insert_ne by (unfold LOGIN_ACCEPT; lia). exact Hnone. }
  cbn. rewrite select_timeout by (cbn; apply lookup_insert_eq).
  cbn. eexists. split; [reflexivity |]. cbn.
  destruct (verbose (st c)); auto.
Qed.

Lemma Login_rejection_times_out_witness :
  exists c',
    Login [loginRejection []] connectedCamera
      = Ok (c', Some "Login request timed out")
    /\ isLoggedIn (st c') = false
    /\ connection (st c') = Some (mkConn [CreateLoginPacket "admin" "12345"] false).
Proof.
  apply (Login_rejection_times_out connectedCamera (mkConn [] false) []);
    reflexivity.
Defined.

(** X4: when the camera accepts, [Login] returns without error, the
    camera is logged in, and the handler [Login] had registered for the
    acceptance is gone again. *)
Lemma Login_accepted (c : Camera) (conn : Conn) :
  connection (st c) = Some conn ->
  closed conn = false ->
  handlersFor c LOGIN_ACCEPT = [] ->
  exists c',
    Login [loginAcceptance] c = Ok (c', None)
    /\ isLoggedIn (st c') = true
    /\ handlersFor c' LOGIN_ACCEPT = [].
Proof.
  intros Hconn Hopen Hnone.
  unfold Login, make_chan, SendPacket. cbn.
  rewrite Hconn, Hopen. cbn.
  rewrite select_cons by (cbn; apply lookup_insert_eq).
  unfold dispatch, handlersFor in *. cbn. rewrite lookup_insert_eq, Hnone. cbn.
  erewrite select_ready.
  2:{ cbn. rewrite (proj1 (Log_fields _ _)). cbn.
      rewrite lookup_insert_eq, lookup_insert_eq. reflexivity. }
  cbn. eexists. split; [reflexivity |]. cbn.
  rewrite lookup_insert_eq. split; [| reflexivity].
  now rewrite (proj1 (proj2 (Log_fields _ _))).
Qed.

End Commands.

(** ** The receive loops and the magic bytes *)

Section ReceiveLoops.

#[local] Arguments make : simpl never.

Lemma readMessage_rest (stream rest : list Z) (m : Message) :
  readMessage stream = GotMessage m rest -> (length rest + 8 <= length stream)%nat.
Proof.
  unfold readMessage.
  destruct (Nat.ltb_spec (length stream) 8) as [| Hlen]; [discriminate |].
  destruct (negb (Magic (readHeader stream) =? 43981)); [discriminate |].
  destruct (0 <? Length (readHeader stream)).
  - destruct (length (drop 8 stream) <? Z.to_nat (Length (readHeader stream)))%nat;
      [discriminate |].
    intros [= _ <-]. rewrite !length_drop. lia.
  - intros [= _ <-]. rewrite length_drop. lia.
Qed.

(** The loop of [handleConnection] never runs out of its unrolling. *)
Lemma handleConnection_loop_fuel (fuel1 : nat) :
  forall (fuel2 : nat) (stream : list Z) (c : Camera),
    (length stream < fuel1)%nat -> (length stream < fuel2)%nat ->
    handleConnection_loop fuel1 stream c = handleConnection_loop fuel2 stream c.
Proof.
  induction fuel1 as [| fuel1 IH]; intros fuel2 stream c H1 H2; [lia |].
  destruct fuel2 as [| fuel2]; [lia |].
  cbn [handleConnection_loop].
  destruct (disconnect (st c)); [reflexivity |].
  destruct (readMessage stream) as [| | | m rest] eqn:Hread; try reflexivity.
  apply readMessage_rest in Hread.
  destruct (dispatch m c) as [c' |]; [| reflexivity].
  cbn. apply IH; lia.
Qed.

Lemma handleConnection_message (stream rest : list Z) (m : Message) (c : Camera) :
  disconnect (st c) = false ->
  readMessage stream = GotMessage m rest ->
  handleConnection stream c = (c' ← dispatch m c; handleConnection rest c').
Proof.
  intros Hrun Hread. unfold handleConnection at 1.
  cbn [handleConnection_loop]. rewrite Hrun, Hread.
  destruct (dispatch m c) as [c' |]; [| reflexivity].
  unfold mbind, result_bind, Go.bind, handleConnection.
  apply readMessage_rest in Hread.
  apply handleConnection_loop_fuel; lia.
Qed.

(** A packet written by [CreatePacket], read from the wire, is
    dispatched, and the loop goes on with what follows it. *)
Lemma handleConnection_CreatePacket (header : Header) (payload rest : list Z)
    (c : Camera) :
  disconnect (st c) = false ->
  Magic header = 0xABCD ->
  0 <= MessageType header < 4294967296 ->
  Z.of_nat (length payload) <= 65535 ->
  handleConnection (CreatePacket header payload ++ rest) c
  = (c' ← dispatch
            (mkMessage (mkHeader (Magic header) (Z.of_nat (length payload))
                                 (MessageType header)) payload) c;
     handleConnection rest c').
Proof.
  intros Hrun Hmagic Htype Hlen. apply handleConnection_message; [exact Hrun |].
  now apply readMessage_CreatePacket.
Qed.

(** X11, control channel: at a header with another magic the loop of
    [handleConnection] ends; the bad frame reaches no handler and what
    follows it on the wire is not read. *)
Lemma handleConnection_invalid_magic (header : Header) (rest : list Z) (c : Camera) :
  disconnect (st c) = false ->
  0 <= Magic header < 65536 ->
  Magic header <> 0xABCD ->
  let stream := BigEndian_put 2 (Magic header) ++ BigEndian_put 2 (Length header)
                  ++ BigEndian_put 4 (MessageType header) ++ rest in
  exists c',
    handleConnection stream c = Ok c'
    /\ c' = disconnected
              (with_st (log_Printf "Received message with invalid magic") c)
    /\ invoked c' = invoked c
    /\ messageHandlers c' = messageHandlers c
    /\ connected (st c') = false.
Proof.
  intros Hrun Hrange Hmagic stream. subst stream.
  pose proof (BigEndian_get_put_2 (Magic header) Hrange) as Hm.
  rewrite BigEndian_put_2 in Hm. rewrite !BigEndian_put_2, BigEndian_put_4.
  unfold handleConnection. cbn [app handleConnection_loop]. rewrite Hrun.
  unfold readMessage.
  match goal with
  | |- context [(length ?l <? 8)%nat] =>
      destruct (Nat.ltb_spec (length l) 8) as [Hshort | _];
        [cbn [length] in Hshort; lia |]
  end.
  unfold readHeader. cbn [take drop]. rewrite ?take_0, Hm. cbn [Magic].
  destruct (Z.eqb_spec (Magic header) 43981) as [| _]; [contradiction |].
  cbn. eexists. split; [reflexivity |].
  split; [reflexivity |]. split; [reflexivity |]. split; reflexivity.
Qed.

Lemma copy_short {A} (dst src : list A) :
  (length src <= length dst)%nat -> copy dst src = src ++ drop (length src) dst.
Proof. intros Hlen. unfold copy. now rewrite take_ge by exact Hlen. Qed.

Lemma BigEndian_get_2 (v : Z) :
  0 <= v < 65536 -> BigEndian_get [(v / 256) mod 256; v mod 256] = v.
Proof. intros Hv. rewrite <- BigEndian_put_2. now apply BigEndian_get_put_2. Qed.

Lemma streamPacket_bytes (header : streamHeader) (payload tail : list Z) :
  streamPacket header payload ++ tail =
  (SMagic header / 256) mod 256 :: SMagic header mod 256
  :: (SLength header / 256) mod 256 :: SLength header mod 256
  :: (SequenceNumber header / 256) mod 256 :: SequenceNumber header mod 256
  :: (SMessageType header / 256) mod 256 :: SMessageType header mod 256
  :: payload ++ tail.
Proof. unfold streamPacket. rewrite !BigEndian_put_2. reflexivity. Qed.

Lemma streamPacket_length (header : streamHeader) (payload : list Z) :
  length (streamPacket header payload) = (8 + length payload)%nat.
Proof.
  unfold streamPacket. rewrite !length_app, !BigEndian_put_length. lia.
Qed.

(** What both stream loops read from a buffer that starts with a packet
    of the camera: its header and its payload. *)
Lemma readStreamHeader_streamPacket (header : streamHeader) (payload tail : list Z) :
  inRange header ->
  readStreamHeader (streamPacket header payload ++ tail) = header.
Proof.
  intros (Hm & Hl & Hs & Ht). rewrite streamPacket_bytes.
  unfold readStreamHeader. cbn [take drop]. rewrite ?take_0.
  rewrite !BigEndian_get_2 by assumption. destruct header; reflexivity.
Qed.

Lemma streamPayload_streamPacket (header : streamHeader) (payload tail : list Z) :
  SLength header = Z.of_nat (length payload) ->
  let buffer := streamPacket header payload ++ tail in
  let n := Z.to_nat (SLength header) in
  (0 <? SLength header) && (length (drop 8 buffer) <? n)%nat = false
  /\ (if 0 <? SLength header then take n (drop 8 buffer) else []) = payload.
Proof.
  intros Hlen buffer n. subst buffer n. rewrite streamPacket_bytes.
  cbn [drop]. rewrite drop_0, Hlen, Nat2Z.id. split.
  - apply andb_false_iff. right. apply Nat.ltb_ge. rewrite length_app. lia.
  - destruct (Z.ltb_spec 0 (Z.of_nat (length payload))) as [_ | Hzero].
    + apply take_app_length.
    + destruct payload; [reflexivity | cbn [length] in Hzero; lia].
Qed.

Lemma readElapsed_at_12 (pre post : list Z) (b0 b1 b2 b3 : Z) :
  length pre = 12%nat ->
  readElapsed (pre ++ [b0; b1; b2; b3] ++ post)
  = Ok (b0 + 256 * (b1 + 256 * (b2 + 256 * (b3 + 256 * 0)))).
Proof.
  intros Hpre. unfold readElapsed, LittleEndian_Uint32.
  rewrite drop_app_length' by (symmetry; exact Hpre).
  rewrite length_app, Hpre. reflexivity.
Qed.

(** Fragment stream, libipcamera: a datagram with another magic is
    logged, and the loop goes on with the events that follow. *)
Lemma relay_invalid_magic_continues (d : list Z) (events : list RelayEvent)
    (r : Relay) :
  SMagic (readStreamHeader (copy (buffer r) d)) <> 0xBCDE ->
  handleCameraStream (Datagram d :: events) r
  = handleCameraStream events
      (mkRelay (copy (buffer r) d) (sequenceNumber r) (elapsed r) (frameBuffer r)
         (packetBuffer r) (rtpWritten r)
         (relayLogs r ++ ["Received message with invalid magic"])).
Proof.
  intros Hmagic. cbn [handleCameraStream]. unfold relayPacket, relayRead.
  cbn [buffer sequenceNumber elapsed frameBuffer packetBuffer rtpWritten relayLogs].
  destruct (Z.eqb_spec (SMagic (readStreamHeader (copy (buffer r) d))) 48350)
    as [| _]; [contradiction |].
  reflexivity.
Qed.

(** Fragment stream, ipcamera: there the same datagram ends the loop. *)
Lemma listener_invalid_magic_terminates (d : list Z)
    (datagrams : list (option (list Z))) (l : ipcamera.Listener) :
  SMagic (readStreamHeader (copy (ipcamera.lbuffer l) d)) <> 0xBCDE ->
  exists l',
    ipcamera.handleCameraStream (Some d :: datagrams) l = Ok (Terminated, l')
    /\ ipcamera.lframeBuffer l' = ipcamera.lframeBuffer l
    /\ ipcamera.lrtpWritten l' = ipcamera.lrtpWritten l.
Proof.
  intros Hmagic. cbn [ipcamera.handleCameraStream].
  unfold ipcamera.listenerPacket, ipcamera.listenerRead.
  cbn [ipcamera.lbuffer].
  destruct (Z.eqb_spec (SMagic (readStreamHeader (copy (ipcamera.lbuffer l) d))) 48350)
    as [| _]; [contradiction |].
  cbn. eexists. split; [reflexivity |]. split; reflexivity.
Qed.

(** C4 at the relay of libipcamera: after a datagram with magic 0x1234
    the loop is still listening, and the data and boundary fragments that
    follow are assembled and sent. *)
Theorem relay_survives_invalid_magic :
  exists r,
    handleCameraStream
      [Datagram badDatagram; Datagram (dataDatagram 1 [1; 2; 3]);
       Datagram (boundaryDatagram 2 elapsed100)] freshRelay
    = Ok (Listening, r)
    /\ relayLogs r = ["Received message with invalid magic"]
    /\ rtpWritten r = [[1; 2; 3]]
    /\ sequenceNumber r = 1.
Proof.
  rewrite relay_invalid_magic_continues by (vm_compute; discriminate).
  eexists. split; [vm_compute; reflexivity |].
  split; [reflexivity |]. split; reflexivity.
Qed.

End ReceiveLoops.

(** ** Relay framing *)

Section RelayFraming.

#[local] Arguments make : simpl never.

Lemma dataDatagram_inRange (sequence : Z) (data : list Z) :
  0 <= sequence < 65536 -> Z.of_nat (length data) <= 2040 ->
  inRange (mkStreamHeader 0xBCDE (Z.of_nat (length data)) sequence 1).
Proof. intros Hs Hd. unfold inRange. cbn. lia. Qed.

Lemma boundaryDatagram_inRange (sequence : Z) (payload : list Z) :
  0 <= sequence < 65536 -> Z.of_nat (length payload) <= 2040 ->
  inRange (mkStreamHeader 0xBCDE (Z.of_nat (length payload)) sequence 2).
Proof. intros Hs Hd. unfold inRange. cbn. lia. Qed.

(** A data fragment at the head of the buffer is appended to the frame
    buffer. *)
Lemma relayPacket_data (r : Relay) (sequence : Z) (data tail : list Z) :
  buffer r = dataDatagram sequence data ++ tail ->
  0 <= sequence < 65536 -> Z.of_nat (length data) <= 2040 ->
  relayPacket r
  = Ok (mkRelay (buffer r) (sequenceNumber r) (elapsed r) (frameBuffer r ++ data)
          (packetBuffer r) (rtpWritten r) (relayLogs r)).
Proof.
  intros Hbuf Hs Hd. unfold relayPacket. rewrite Hbuf. unfold dataDatagram.
  rewrite readStreamHeader_streamPacket by now apply dataDatagram_inRange.
  pose proof (streamPayload_streamPacket
                (mkStreamHeader 0xBCDE (Z.of_nat (length data)) sequence 1)
                data tail eq_refl) as [Hfits Hpayload].
  cbn [SMagic SLength SMessageType] in *. rewrite Hfits, Hpayload. reflexivity.
Qed.

(** A boundary fragment at the head of the buffer: the packet buffer,
    with the frame appended, is written out as it is; then the header of
    the next packet is laid out, from the sequence number plus one and from
    [elapsed] as it was before this fragment; only then is [elapsed] taken
    from the fragment. *)
Lemma relayPacket_boundary (r : Relay) (sequence : Z)
    (pre post tail : list Z) (b0 b1 b2 b3 : Z) :
  let payload := pre ++ [b0; b1; b2; b3] ++ post in
  buffer r = boundaryDatagram sequence payload ++ tail ->
  0 <= sequence < 65536 -> Z.of_nat (length payload) <= 2040 ->
  length pre = 12%nat ->
  relayPacket r
  = Ok (mkRelay (buffer r) (uint16 (sequenceNumber r + 1))
          (b0 + 256 * (b1 + 256 * (b2 + 256 * (b3 + 256 * 0)))) []
          ([0x80; 0x63] ++ BigEndian_put 2 (uint16 (sequenceNumber r + 1))
             ++ BigEndian_put 4 (uint32 (elapsed r * 90)) ++ BigEndian_put 8 0)
          (rtpWritten r ++ [packetBuffer r ++ frameBuffer r]) (relayLogs r)).
Proof.
  intros payload Hbuf Hs Hd Hpre. unfold relayPacket. rewrite Hbuf.
  unfold boundaryDatagram.
  rewrite readStreamHeader_streamPacket by now apply boundaryDatagram_inRange.
  pose proof (streamPayload_streamPacket
                (mkStreamHeader 0xBCDE (Z.of_nat (length payload)) sequence 2)
                payload tail eq_refl) as [Hfits Hpayload].
  cbn [SMagic SLength SMessageType] in *. rewrite Hfits, Hpayload.
  change (negb (48350 =? 48350)) with false. change (2 =? 1) with false.
  change (2 =? 2) with true. cbv iota.
  subst payload. rewrite readElapsed_at_12 by exact Hpre. reflexivity.
Qed.

Lemma listenerPacket_data (l : ipcamera.Listener) (sequence : Z)
    (data tail : list Z) :
  ipcamera.lbuffer l = dataDatagram sequence data ++ tail ->
  ipcamera.close l = false ->
  0 <= sequence < 65536 -> Z.of_nat (length data) <= 2040 ->
  ipcamera.listenerPacket l
  = Ok (Listening,
        ipcamera.mkListener false (ipcamera.lbuffer l) (ipcamera.lsequenceNumber l)
          (ipcamera.lelapsed l) (ipcamera.lframeBuffer l ++ data)
          (ipcamera.lrtpWritten l) (ipcamera.llogs l)).
Proof.
  intros Hbuf Hclose Hs Hd. unfold ipcamera.listenerPacket.
  rewrite Hbuf. unfold dataDatagram.
  rewrite readStreamHeader_streamPacket by now apply dataDatagram_inRange.
  pose proof (streamPayload_streamPacket
                (mkStreamHeader 0xBCDE (Z.of_nat (length data)) sequence 1)
                data tail eq_refl) as [Hfits Hpayload].
  cbn [SMagic SLength SMessageType] in *. rewrite Hfits, Hpayload, Hclose.
  reflexivity.
Qed.

(** The listener of ipcamera builds the packet at the boundary itself:
    header first, from the sequence number and [elapsed] as they were
    before this fragment. *)
Lemma listenerPacket_boundary (l : ipcamera.Listener) (sequence : Z)
    (pre post tail : list Z) (b0 b1 b2 b3 : Z) :
  let payload := pre ++ [b0; b1; b2; b3] ++ post in
  ipcamera.lbuffer l = boundaryDatagram sequence payload ++ tail ->
  ipcamera.close l = false ->
  0 <= sequence < 65536 -> Z.of_nat (length payload) <= 2040 ->
  length pre = 12%nat ->
  ipcamera.listenerPacket l
  = Ok (Listening,
        ipcamera.mkListener false (ipcamera.lbuffer l)
          (uint16 (ipcamera.lsequenceNumber l + 1))
          (b0 + 256 * (b1 + 256 * (b2 + 256 * (b3 + 256 * 0)))) []
          (ipcamera.lrtpWritten l
             ++ [[0x80; 0x63] ++ BigEndian_put 2 (ipcamera.lsequenceNumber l)
                   ++ BigEndian_put 4 (uint32 (ipcamera.lelapsed l * 90))
                   ++ BigEndian_put 8 0 ++ ipcamera.lframeBuffer l])
          (ipcamera.llogs l)).
Proof.
  intros payload Hbuf Hclose Hs Hd Hpre. unfold ipcamera.listenerPacket.
  rewrite Hbuf. unfold boundaryDatagram.
  rewrite readStreamHeader_streamPacket by now apply boundaryDatagram_inRange.
  pose proof (streamPayload_streamPacket
                (mkStreamHeader 0xBCDE (Z.of_nat (length payload)) sequence 2)
                payload tail eq_refl) as [Hfits Hpayload].
  cbn [SMagic SLength SMessageType] in *. rewrite Hfits, Hpayload.
  change (negb (48350 =? 48350)) with false. change (2 =? 1) with false.
  change (2 =? 2) with true. cbv iota.
  subst payload. rewrite readElapsed_at_12 by exact Hpre.
  cbn. rewrite Hclose. reflexivity.
Qed.

#[local] Arguments relayPacket : simpl never.
#[local] Arguments ipcamera.listenerPacket : simpl never.
#[local] Arguments copy : simpl never.

Lemma make_length (n : nat) : length (make n) = n.
Proof. apply length_replicate. Qed.




(** Three frames through the relay of libipcamera, with elapsed 100,
    200 and 300: the second packet carries sequence number 1 and timestamp
    0, the third sequence number 2 and timestamp 9000 = 90 * 100. *)
Example relay_three_frames :
  exists r,
    handleCameraStream
      [Datagram (dataDatagram 1 [1]);
       Datagram (boundaryDatagram 2 [0; 0; 0; 0; 0; 0; 0; 0; 0; 0; 0; 0; 100; 0; 0; 0]);
       Datagram (dataDatagram 3 [2]);
       Datagram (boundaryDatagram 4 [0; 0; 0; 0; 0; 0; 0; 0; 0; 0; 0; 0; 200; 0; 0; 0]);
       Datagram (dataDatagram 5 [3]);
       Datagram (boundaryDatagram 6 [0; 0; 0; 0; 0; 0; 0; 0; 0; 0; 0; 0; 44; 1; 0; 0])]
      freshRelay
    = Ok (Listening, r)
    /\ rtpWritten r
       = [[1];
          [0x80; 0x63; 0; 1; 0; 0; 0; 0; 0; 0; 0; 0; 0; 0; 0; 0; 2];
          [0x80; 0x63; 0; 2; 0; 0; 0x23; 0x28; 0; 0; 0; 0; 0; 0; 0; 0; 3]]
    /\ timestampField [0x80; 0x63; 0; 2; 0; 0; 0x23; 0x28] = 9000.
Proof.
  eexists. split; [vm_compute; reflexivity |]. split; reflexivity.
Qed.

End RelayFraming.

(** ** The signaling server *)

Section Signaling.

Variable md5hex : string -> string.

(** A SETUP whose transport header has a port that is not a number is
    logged and dropped: nothing is written, the server state is kept, and
    the next request of the client is answered. *)
Lemma SETUP_unparsable_port_dropped (conn : rtsp.Conn) (s : rtsp.Server) :
  rtsp.handleRequest md5hex
    [setupLine; "CSeq: 3"; "Transport: RTP/AVP;unicast;client_port=abc-def"]
    conn s
  = Ok (rtsp.log "ERROR Parsing RTP description" s, conn)
  /\ rtsp.handleClient md5hex
       [setupLine; "CSeq: 3"; "Transport: RTP/AVP;unicast;client_port=abc-def"; "";
        optionsLine; "CSeq: 4"; ""] conn s
     = Ok (rtsp.log "ERROR Parsing RTP description" s,
           rtsp.Write ("Public: DESCRIBE, SETUP, PLAY, PAUSE, RECORD"
                         +:+ rtsp.CRLF +:+ rtsp.CRLF)
             (rtsp.Write ("CSeq: 4" +:+ rtsp.CRLF)
                (rtsp.Write ("RTSP/1.0 200 OK" +:+ rtsp.CRLF) conn))).
Proof. split; vm_compute; reflexivity. Qed.

(** The SETUP of the specification is answered and sets the target. *)
Lemma SETUP_answered (conn : rtsp.Conn) (s : rtsp.Server) :
  rtsp.handleRequest md5hex
    [setupLine; "CSeq: 3"; "Transport: RTP/AVP;unicast;client_port=5000-5001"]
    conn s
  = Ok (rtsp.mkServer 5000 (rtsp.RemoteIP conn) (rtsp.rtpRelay s) (rtsp.sdp s)
          (rtsp.actions s) (rtsp.logs s ++ ["Preparing to Stream"]),
        rtsp.Write rtsp.CRLF
          (rtsp.Write ("Session: " +:+ md5hex (rtsp.RemoteAddr conn) +:+ rtsp.CRLF)
             (rtsp.Write
                ("Transport: RTP/AVP;unicast;client_port=5000-5001;ssrc=0"
                   +:+ rtsp.CRLF)
                (rtsp.Write ("CSeq: 3" +:+ rtsp.CRLF)
                   (rtsp.Write ("RTSP/1.0 200 OK" +:+ rtsp.CRLF) conn))))).
Proof. vm_compute. reflexivity. Qed.

(** C9 at a SETUP without transport header, and at one whose last
    transport parameter has no [=]: [strings.Split(rtpDescription, "=")[1]]
    is out of range, the handler panics before anything is logged, and the
    request that follows on the connection is never handled. *)
Theorem SETUP_malformed_transport_panics (conn : rtsp.Conn) (s : rtsp.Server) :
  rtsp.handleRequest md5hex [setupLine; "CSeq: 3"] conn s
    = Panic (IndexOutOfRange 1 1)
  /\ rtsp.handleRequest md5hex
       [setupLine; "CSeq: 3"; "Transport: RTP/AVP;unicast"] conn s
     = Panic (IndexOutOfRange 1 1)
  /\ rtsp.handleClient md5hex
       [setupLine; "CSeq: 3"; ""; optionsLine; "CSeq: 4"; ""] conn s
     = Panic (IndexOutOfRange 1 1).
Proof. repeat split; vm_compute; reflexivity. Qed.

End Signaling.

(** * Further properties *)

(** ** Command and login packets *)

Section PacketsReadBack.

(** X1: for every 32-bit command code, [CreateCommandPacket] gives the
    eight bytes AB CD 00 00 followed by the code, most significant byte
    first, and the reader takes them for a message of that type with the
    empty payload, leaving what follows on the wire. *)
Theorem CreateCommandPacket_reads_back (command : Z) (rest : list Z) :
  0 <= command < 4294967296 ->
  CreateCommandPacket command = [0xAB; 0xCD; 0x00; 0x00] ++ BigEndian_put 4 command
  /\ length (CreateCommandPacket command) = 8%nat
  /\ readMessage (CreateCommandPacket command ++ rest)
     = GotMessage (mkMessage (mkHeader 0xABCD 0 command) []) rest.
Proof.
  intros Hcommand. split; [reflexivity |]. split; [reflexivity |].
  apply (readMessage_CreatePacket (CreateCommandHeader command) [] rest).
  - reflexivity.
  - exact Hcommand.
  - cbn. lia.
Qed.

Lemma CreateCommandPacket_reads_back_witness :
  CreateCommandPacket START_PREVIEW
    = [0xAB; 0xCD; 0x00; 0x00] ++ BigEndian_put 4 START_PREVIEW
  /\ length (CreateCommandPacket START_PREVIEW) = 8%nat
  /\ readMessage (CreateCommandPacket START_PREVIEW ++ [1; 2; 3])
     = GotMessage (mkMessage (mkHeader 0xABCD 0 START_PREVIEW) []) [1; 2; 3].
Proof.
  apply (CreateCommandPacket_reads_back START_PREVIEW [1; 2; 3]).
  unfold START_PREVIEW. lia.
Defined.

(** X2: whatever the user name and the password, the login packet has
    136 bytes and is read back as a [LOGIN] message whose payload is the
    128-byte login payload. *)
Theorem CreateLoginPacket_reads_back (username password : string) (rest : list Z) :
  length (CreateLoginPacket username password) = 136%nat
  /\ readMessage (CreateLoginPacket username password ++ rest)
     = GotMessage
         (mkMessage (mkHeader 0xABCD 128 LOGIN)
                    (CreateLoginPayload username password)) rest.
Proof.
  pose proof (CreateLoginPayload_length username password) as Hlen.
  unfold CreateLoginPacket. split.
  - rewrite CreatePacket_bytes, !length_app, !BigEndian_put_length, Hlen.
    reflexivity.
  - rewrite (readMessage_CreatePacket (CreateCommandHeader LOGIN)
               (CreateLoginPayload username password) rest).
    + rewrite Hlen. reflexivity.
    + reflexivity.
    + unfold CreateCommandHeader, LOGIN. cbn. lia.
    + rewrite Hlen. lia.
Qed.

Lemma CreateLoginPayload_short_username_witness :
  CreateLoginPayload "admin" "12345" =
  (bytes "admin" ++ replicate (64 - length (bytes "admin")) 0)
    ++ take 64 (bytes "12345") ++ replicate (64 - length (bytes "12345")) 0.
Proof.
  apply (CreateLoginPayload_short_username "admin" "12345"). cbn. lia.
Defined.

End PacketsReadBack.

(** ** Keep-alive and commands *)

Section CommandsAnswered.

Lemma Login_accepted_witness :
  exists c',
    Login [loginAcceptance] connectedCamera = Ok (c', None)
    /\ isLoggedIn (st c') = true
    /\ handlersFor c' LOGIN_ACCEPT = [].
Proof.
  apply (Login_accepted connectedCamera (mkConn [] false)); reflexivity.
Defined.

#[local] Arguments select : simpl never.
#[local] Arguments CreatePacket : simpl never.
#[local] Arguments CreateCommandPacket : simpl never.
#[local] Arguments CreateLoginPacket : simpl never.
#[local] Arguments dispatch : simpl never.

Lemma dispatch_alive (m : Message) (c : Camera) (conn : Conn) :
  MessageType (MHeader m) = ALIVE_REQUEST ->
  handlersFor c ALIVE_REQUEST = [aliveRequestHandler] ->
  connection (st c) = Some conn ->
  closed conn = false ->
  dispatch m c
  = Ok (mkCamera
          (set_connection
             (Some (mkConn (written conn ++ [aliveResponse]) false)) (st c))
          (<[ALIVE_REQUEST := [aliveRequestHandler]]> (messageHandlers c))
          (invoked c ++ [0%nat])).
Proof.
  intros Hm Hhs Hconn Hopen. unfold dispatch. rewrite Hm, Hhs.
  cbn [length Nat.eqb runHandlers aliveRequestHandler hfun].
  unfold SendPacket. rewrite Hconn, Hopen. reflexivity.
Qed.

(** X5: a connected camera whose only handler for [ALIVE_REQUEST] is the
    one [Connect] registers answers every keep-alive request on the wire
    with one keep-alive response, keeps that handler, and goes on reading:
    after [n] requests, [n] responses have been written. *)
Theorem keepalive_answered (n : nat) (rest : list Z) (c : Camera) (conn : Conn) :
  disconnect (st c) = false ->
  handlersFor c ALIVE_REQUEST = [aliveRequestHandler] ->
  connection (st c) = Some conn ->
  closed conn = false ->
  exists c',
    handleConnection
      (concat (replicate n (CreateCommandPacket ALIVE_REQUEST)) ++ rest) c
    = handleConnection rest c'
    /\ connection (st c')
       = Some (mkConn (written conn ++ replicate n aliveResponse) false)
    /\ handlersFor c' ALIVE_REQUEST = [aliveRequestHandler]
    /\ invoked c' = invoked c ++ replicate n 0%nat
    /\ disconnect (st c') = false
    /\ isLoggedIn (st c') = isLoggedIn (st c).
Proof.
  revert c conn. induction n as [| n IH]; intros c conn Hrun Hhs Hconn Hopen.
  - exists c. cbn [replicate concat app]. rewrite !app_nil_r.
    destruct conn as [w cl]. cbn in Hopen. subst cl. cbn [written].
    repeat split; auto.
  - cbn [replicate concat]. rewrite <- app_assoc.
    unfold CreateCommandPacket at 1.
    rewrite handleConnection_CreatePacket;
      [| exact Hrun | reflexivity | unfold ALIVE_REQUEST; cbn; lia | cbn; lia].
    rewrite (dispatch_alive _ c conn) by (try reflexivity; assumption).
    unfold mbind, result_bind, Go.bind.
    set (c1 := mkCamera
                 (set_connection
                    (Some (mkConn (written conn ++ [aliveResponse]) false)) (st c))
                 (<[ALIVE_REQUEST := [aliveRequestHandler]]> (messageHandlers c))
                 (invoked c ++ [0%nat])).
    destruct (IH c1 (mkConn (written conn ++ [aliveResponse]) false))
      as (c' & Hloop & Hw & Hh & Hi & Hd & Hl);
      [| | reflexivity | reflexivity | exists c'; rewrite Hloop].
    + exact Hrun.
    + unfold handlersFor, c1. cbn [messageHandlers].
      rewrite lookup_insert_eq. reflexivity.
    + unfold c1 in Hw, Hi, Hl. cbn [written invoked st] in Hw, Hi.
      rewrite <- app_assoc in Hw. rewrite <- app_assoc in Hi.
      cbn in Hl. auto 10.
Qed.

Lemma keepalive_answered_witness :
  exists c',
    handleConnection
      (concat (replicate 3 (CreateCommandPacket ALIVE_REQUEST)) ++ [])
      connectedCamera
    = handleConnection [] c'
    /\ connection (st c')
       = Some (mkConn ([] ++ replicate 3 aliveResponse) false)
    /\ handlersFor c' ALIVE_REQUEST = [aliveRequestHandler]
    /\ invoked c' = invoked connectedCamera ++ replicate 3 0%nat
    /\ disconnect (st c') = false
    /\ isLoggedIn (st c') = isLoggedIn (st connectedCamera).
Proof.
  apply (keepalive_answered 3 [] connectedCamera (mkConn [] false)); reflexivity.
Defined.

Lemma string_of_bytes_bytes (s : string) : string_of_bytes (bytes s) = s.
Proof.
  induction s as [| c s IH]; [reflexivity |].
  cbn [bytes string_of_bytes]. rewrite N2Z.id, ascii_N_embedding, IH.
  reflexivity.
Qed.

(** X6: on a logged-in camera with an open connection and no handler
    pending for the answer, [TakePicture], [StartRecording] and
    [StopRecording] write their command packet, return without error when
    the answer arrives, and leave no handler behind. *)
Theorem commands_answered (c : Camera) (conn : Conn) (saved accepted : Message) :
  isLoggedIn (st c) = true ->
  connection (st c) = Some conn ->
  closed conn = false ->
  MessageType (MHeader saved) = PICTURE_SAVED ->
  MessageType (MHeader accepted) = RECORD_COMMAND_ACCEPT ->
  handlersFor c PICTURE_SAVED = [] ->
  handlersFor c RECORD_COMMAND_ACCEPT = [] ->
  (exists c',
     TakePicture [saved] c = Ok (c', None)
     /\ connection (st c')
        = Some (mkConn (written conn ++ [CreateCommandPacket TAKE_PICTURE]) false)
     /\ handlersFor c' PICTURE_SAVED = []
     /\ invoked c' = invoked c ++ [nextId (st c)])
  /\ (exists c',
        StartRecording [accepted] c = Ok (c', None)
        /\ connection (st c')
           = Some (mkConn
                     (written conn
                        ++ [[0xAB; 0xCD; 0; 4; 0; 0; 0xA0; 0x3A; 1; 0; 0; 0]])
                     false)
        /\ handlersFor c' RECORD_COMMAND_ACCEPT = []
        /\ invoked c' = invoked c ++ [nextId (st c)])
  /\ (exists c',
        StopRecording [accepted] c = Ok (c', None)
        /\ connection (st c')
           = Some (mkConn
                     (written conn
                        ++ [[0xAB; 0xCD; 0; 4; 0; 0; 0xA0; 0x3A; 0; 0; 0; 0]])
                     false)
        /\ handlersFor c' RECORD_COMMAND_ACCEPT = []
        /\ invoked c' = invoked c ++ [nextId (st c)]).
Proof.
  intros Hlogin Hconn Hopen Hsaved Haccepted Hnone1 Hnone2.
  split; [| split].
  - unfold TakePicture, make_chan, SendPacket. rewrite Hlogin. cbn.
    rewrite Hconn, Hopen. cbn.
    rewrite select_cons by (cbn; apply lookup_insert_eq).
    unfold dispatch, handlersFor in *. cbn. rewrite Hsaved.
    rewrite lookup_insert_eq, Hnone1. cbn.
    erewrite select_ready.
    2:{ cbn. rewrite (proj1 (Log_fields _ _)). cbn.
        rewrite lookup_insert_eq, lookup_insert_eq. reflexivity. }
    cbn. eexists. split; [reflexivity |]. cbn.
    rewrite lookup_insert_eq, (proj2 (proj2 (Log_fields _ _))). auto.
  - unfold StartRecording, make_chan, SendPacket. rewrite Hlogin. cbn.
    rewrite (proj2 (proj2 (Log_fields _ _))). cbn. rewrite Hconn, Hopen. cbn.
    rewrite select_cons
      by (cbn; rewrite (proj1 (Log_fields _ _)); cbn; apply lookup_insert_eq).
    unfold dispatch, handlersFor in *. cbn. rewrite Haccepted.
    rewrite lookup_insert_eq, Hnone2. cbn.
    erewrite select_ready.
    2:{ cbn. rewrite (proj1 (Log_fields _ _)). cbn.
        rewrite (proj1 (Log_fields _ _)). cbn.
        rewrite lookup_insert_eq, lookup_insert_eq. reflexivity. }
    cbn. eexists. split; [reflexivity |]. cbn.
    rewrite lookup_insert_eq, (proj2 (proj2 (Log_fields _ _))). auto.
  - unfold StopRecording, make_chan, SendPacket. rewrite Hlogin. cbn.
    rewrite (proj2 (proj2 (Log_fields _ _))). cbn. rewrite Hconn, Hopen. cbn.
    rewrite select_cons
      by (cbn; rewrite (proj1 (Log_fields _ _)); cbn; apply lookup_insert_eq).
    unfold dispatch, handlersFor in *. cbn. rewrite Haccepted.
    rewrite lookup_insert_eq, Hnone2. cbn.
    erewrite select_ready.
    2:{ cbn. rewrite (proj1 (Log_fields _ _)). cbn.
        rewrite (proj1 (Log_fields _ _)). cbn.
        rewrite lookup_insert_eq, lookup_insert_eq. reflexivity. }
    cbn. eexists. split; [reflexivity |]. cbn.
    rewrite lookup_insert_eq, (proj2 (proj2 (Log_fields _ _))). auto.
Qed.

Lemma commands_answered_witness :
  (exists c',
     TakePicture [exampleMessage] loggedInCamera = Ok (c', None)
     /\ connection (st c')
        = Some (mkConn ([] ++ [CreateCommandPacket TAKE_PICTURE]) false)
     /\ handlersFor c' PICTURE_SAVED = []
     /\ invoked c' = invoked loggedInCamera ++ [nextId (st loggedInCamera)])
  /\ (exists c',
        StartRecording [mkMessage (mkHeader 0xABCD 0 RECORD_COMMAND_ACCEPT) []]
          loggedInCamera = Ok (c', None)
        /\ connection (st c')
           = Some (mkConn
                     ([] ++ [[0xAB; 0xCD; 0; 4; 0; 0; 0xA0; 0x3A; 1; 0; 0; 0]])
                     false)
        /\ handlersFor c' RECORD_COMMAND_ACCEPT = []
        /\ invoked c' = invoked loggedInCamera ++ [nextId (st loggedInCamera)])
  /\ (exists c',
        StopRecording [mkMessage (mkHeader 0xABCD 0 RECORD_COMMAND_ACCEPT) []]
          loggedInCamera = Ok (c', None)
        /\ connection (st c')
           = Some (mkConn
                     ([] ++ [[0xAB; 0xCD; 0; 4; 0; 0; 0xA0; 0x3A; 0; 0; 0; 0]])
                     false)
        /\ handlersFor c' RECORD_COMMAND_ACCEPT = []
        /\ invoked c' = invoked loggedInCamera ++ [nextId (st loggedInCamera)]).
Proof.
  apply (commands_answered loggedInCamera (mkConn [] false) exampleMessage
           (mkMessage (mkHeader 0xABCD 0 RECORD_COMMAND_ACCEPT) []));
    reflexivity.
Defined.

(** X7: when no answer arrives, each command that waits ends with its
    own timeout error, and the handler it registered stays in the table,
    behind the handlers that were there. *)
Theorem command_timeout_leaves_handler (c : Camera) (conn : Conn) :
  isLoggedIn (st c) = true ->
  connection (st c) = Some conn ->
  closed conn = false ->
  (exists c',
     TakePicture [] c = Ok (c', Some "TAKE_PICTURE request timed out")
     /\ hid <$> handlersFor c' PICTURE_SAVED
        = (hid <$> handlersFor c PICTURE_SAVED) ++ [nextId (st c)])
  /\ (exists c',
        StartRecording [] c = Ok (c', Some "CONTROL_RECORDING request timed out")
        /\ hid <$> handlersFor c' RECORD_COMMAND_ACCEPT
           = (hid <$> handlersFor c RECORD_COMMAND_ACCEPT) ++ [nextId (st c)])
  /\ (exists c',
        StopRecording [] c = Ok (c', Some "CONTROL_RECORDING request timed out")
        /\ hid <$> handlersFor c' RECORD_COMMAND_ACCEPT
           = (hid <$> handlersFor c RECORD_COMMAND_ACCEPT) ++ [nextId (st c)])
  /\ (exists c',
        GetFirmwareInfo [] c
        = Ok (c', ("", Some "Firmware information request timed out"))
        /\ hid <$> handlersFor c' FIRMWARE_INFORMATION
           = (hid <$> handlersFor c FIRMWARE_INFORMATION) ++ [nextId (st c)]).
Proof.
  intros Hlogin Hconn Hopen.
  split; [| split; [| split]].
  - unfold TakePicture, make_chan, SendPacket. rewrite Hlogin. cbn.
    rewrite Hconn, Hopen. cbn.
    rewrite select_timeout by (cbn; apply lookup_insert_eq).
    cbn. eexists. split; [reflexivity |].
    unfold handlersFor. cbn. rewrite lookup_insert_eq. cbn.
    rewrite fmap_app. reflexivity.
  - unfold StartRecording, make_chan, SendPacket. rewrite Hlogin. cbn.
    rewrite (proj2 (proj2 (Log_fields _ _))). cbn. rewrite Hconn, Hopen. cbn.
    rewrite select_timeout
      by (cbn; rewrite (proj1 (Log_fields _ _)); cbn; apply lookup_insert_eq).
    cbn. eexists. split; [reflexivity |].
    unfold handlersFor. cbn. rewrite lookup_insert_eq. cbn.
    rewrite fmap_app. reflexivity.
  - unfold StopRecording, make_chan, SendPacket. rewrite Hlogin. cbn.
    rewrite (proj2 (proj2 (Log_fields _ _))). cbn. rewrite Hconn, Hopen. cbn.
    rewrite select_timeout
      by (cbn; rewrite (proj1 (Log_fields _ _)); cbn; apply lookup_insert_eq).
    cbn. eexists. split; [reflexivity |].
    unfold handlersFor. cbn. rewrite lookup_insert_eq. cbn.
    rewrite fmap_app. reflexivity.
  - unfold GetFirmwareInfo, make_chan, SendPacket. rewrite Hlogin. cbn.
    rewrite Hconn, Hopen. cbn.
    rewrite select_timeout by (cbn; apply lookup_insert_eq).
    cbn. eexists. split; [reflexivity |].
    unfold handlersFor. cbn. rewrite lookup_insert_eq. cbn.
    rewrite fmap_app. reflexivity.
Qed.

Lemma command_timeout_leaves_handler_witness :
  exists c',
    TakePicture [] loggedInCamera
      = Ok (c', Some "TAKE_PICTURE request timed out")
    /\ hid <$> handlersFor c' PICTURE_SAVED
       = (hid <$> handlersFor loggedInCamera PICTURE_SAVED)
           ++ [nextId (st loggedInCamera)].
Proof.
  apply (command_timeout_leaves_handler loggedInCamera (mkConn [] false));
    reflexivity.
Defined.

(** X8: [GetFirmwareInfo] hands back the payload of the answer as text:
    for every text the camera sends, that text is the result. *)
Theorem GetFirmwareInfo_returns_payload (c : Camera) (conn : Conn)
    (version : string) (header : Header) :
  isLoggedIn (st c) = true ->
  connection (st c) = Some conn ->
  closed conn = false ->
  MessageType header = FIRMWARE_INFORMATION ->
  handlersFor c FIRMWARE_INFORMATION = [] ->
  exists c',
    GetFirmwareInfo [mkMessage header (bytes version)] c = Ok (c', (version, None))
    /\ connection (st c')
       = Some (mkConn (written conn ++ [CreateCommandPacket REQUEST_FIRMWARE_INFO])
                      false)
    /\ handlersFor c' FIRMWARE_INFORMATION = [].
Proof.
  intros Hlogin Hconn Hopen Htype Hnone.
  unfold GetFirmwareInfo, make_chan, SendPacket. rewrite Hlogin. cbn.
  rewrite Hconn, Hopen. cbn.
  rewrite select_cons by (cbn; apply lookup_insert_eq).
  unfold dispatch, handlersFor in *. cbn. rewrite Htype.
  rewrite lookup_insert_eq, Hnone. cbn.
  erewrite select_ready.
  2:{ cbn. rewrite lookup_insert_eq, lookup_insert_eq. reflexivity. }
  cbn. rewrite string_of_bytes_bytes.
  eexists. split; [reflexivity |]. cbn.
  rewrite lookup_insert_eq. auto.
Qed.

Lemma GetFirmwareInfo_returns_payload_witness :
  exists c',
    GetFirmwareInfo
      [mkMessage (mkHeader 0xABCD 8 FIRMWARE_INFORMATION) (bytes "v1.0 rc5")]
      loggedInCamera
    = Ok (c', ("v1.0 rc5", None))
    /\ connection (st c')
       = Some (mkConn ([] ++ [CreateCommandPacket REQUEST_FIRMWARE_INFO]) false)
    /\ handlersFor c' FIRMWARE_INFORMATION = [].
Proof.
  apply (GetFirmwareInfo_returns_payload loggedInCamera (mkConn [] false)
           "v1.0 rc5" (mkHeader 0xABCD 8 FIRMWARE_INFORMATION));
    reflexivity.
Defined.

(** X9: [Disconnect] is final.  After it the receive loop ends at its
    next pass without reading, the commands return the write error of the
    closed connection at once, whatever arrives, and [Login], which does
    not look at the result of its write, runs into its timeout. *)
Theorem Disconnect_is_final (c : Camera) (conn : Conn)
    (arrivals : list Message) (stream : list Z) :
  connection (st c) = Some conn ->
  isLoggedIn (st c) = true ->
  exists c1,
    Disconnect c = Ok c1
    /\ connection (st c1) = Some (mkConn (written conn) true)
    /\ handleConnection stream c1 = Ok (disconnected c1)
    /\ (exists c2, TakePicture arrivals c1
                    = Ok (c2, Some "use of closed network connection")
                    /\ connection (st c2) = connection (st c1))
    /\ (exists c2, StartRecording arrivals c1
                    = Ok (c2, Some "use of closed network connection")
                    /\ connection (st c2) = connection (st c1))
    /\ (exists c2, StopRecording arrivals c1
                    = Ok (c2, Some "use of closed network connection")
                    /\ connection (st c2) = connection (st c1))
    /\ (exists c2, GetFirmwareInfo arrivals c1
                    = Ok (c2, ("", Some "use of closed network connection"))
                    /\ connection (st c2) = connection (st c1))
    /\ (exists c2, GetFileList arrivals c1
                    = Ok (c2, ([], Some "use of closed network connection"))
                    /\ connection (st c2) = connection (st c1))
    /\ (exists c2, StartPreviewStream c1
                    = Ok (c2, Some "use of closed network connection")
                    /\ connection (st c2) = connection (st c1))
    /\ (exists c2, Login [] c1 = Ok (c2, Some "Login request timed out")
                    /\ connection (st c2) = connection (st c1)).
Proof.
  intros Hconn Hlogin. unfold Disconnect. rewrite Hconn.
  eexists. split; [reflexivity |]. split; [reflexivity |].
  split; [reflexivity |].
  repeat split.
  - unfold TakePicture, make_chan, SendPacket. cbn. rewrite Hlogin. cbn.
    eexists. split; reflexivity.
  - unfold StartRecording, make_chan, SendPacket. cbn. rewrite Hlogin. cbn.
    rewrite (proj2 (proj2 (Log_fields _ _))). cbn.
    eexists. split; [reflexivity |].
    cbn. now rewrite (proj2 (proj2 (Log_fields _ _))).
  - unfold StopRecording, make_chan, SendPacket. cbn. rewrite Hlogin. cbn.
    rewrite (proj2 (proj2 (Log_fields _ _))). cbn.
    eexists. split; [reflexivity |].
    cbn. now rewrite (proj2 (proj2 (Log_fields _ _))).
  - unfold GetFirmwareInfo, make_chan, SendPacket. cbn. rewrite Hlogin. cbn.
    eexists. split; reflexivity.
  - unfold GetFileList, make_chan, SendPacket. cbn.
    eexists. split; reflexivity.
  - unfold StartPreviewStream, SendPacket. cbn. rewrite Hlogin. cbn.
    rewrite (proj2 (proj2 (Log_fields _ _))). cbn.
    eexists. split; [reflexivity |].
    cbn. now rewrite (proj2 (proj2 (Log_fields _ _))).
  - unfold Login, make_chan, SendPacket. cbn.
    rewrite select_timeout by (cbn; apply lookup_insert_eq).
    cbn. eexists. split; reflexivity.
Qed.

Lemma Disconnect_is_final_witness :
  exists c1,
    Disconnect loggedInCamera = Ok c1
    /\ connection (st c1) = Some (mkConn [] true)
    /\ handleConnection (CreateCommandPacket ALIVE_REQUEST) c1
       = Ok (disconnected c1).
Proof.
  destruct (Disconnect_is_final loggedInCamera (mkConn [] false) []
              (CreateCommandPacket ALIVE_REQUEST) eq_refl eq_refl)
    as (c1 & H1 & H2 & H3 & _).
  exists c1. auto.
Defined.

(** X10: when [net.Dial] has failed, [Connect] leaves the connection
    nil, and [Login], [GetFileList] and [Disconnect] then panic on it. *)
Theorem failed_Connect_panics (c : Camera) (arrivals : list Message) :
  connection (st c) = None ->
  connection (st (Connect None c)) = None
  /\ handlersFor (Connect None c) ALIVE_REQUEST = handlersFor c ALIVE_REQUEST
  /\ Login arrivals (Connect None c) = Panic NilDereference
  /\ GetFileList arrivals (Connect None c) = Panic NilDereference
  /\ Disconnect (Connect None c) = Panic NilDereference.
Proof.
  intros Hnil.
  assert (Hc : connection (st (Connect None c)) = None).
  { unfold Connect. cbn. now rewrite (proj2 (proj2 (Log_fields _ _))). }
  split; [exact Hc |]. split; [reflexivity |].
  split; [| split].
  - unfold Login, make_chan, SendPacket. cbn [st with_st Handle addHandler
      connection set_nextId set_chans fst snd].
    rewrite Hc. reflexivity.
  - unfold GetFileList, make_chan, SendPacket. cbn [st with_st Handle addHandler
      connection set_nextId set_chans set_vars fst snd].
    rewrite Hc. reflexivity.
  - unfold Disconnect. rewrite Hc. reflexivity.
Qed.

Lemma failed_Connect_panics_witness :
  connection (st (Connect None (CreateCamera "admin" "12345"))) = None
  /\ handlersFor (Connect None (CreateCamera "admin" "12345")) ALIVE_REQUEST
     = handlersFor (CreateCamera "admin" "12345") ALIVE_REQUEST
  /\ Login [] (Connect None (CreateCamera "admin" "12345")) = Panic NilDereference
  /\ GetFileList [] (Connect None (CreateCamera "admin" "12345"))
     = Panic NilDereference
  /\ Disconnect (Connect None (CreateCamera "admin" "12345"))
     = Panic NilDereference.
Proof.
  apply (failed_Connect_panics (CreateCamera "admin" "12345") []). reflexivity.
Defined.

End CommandsAnswered.

(** ** The receive loop of the control channel *)

Section ControlLoop.

#[local] Arguments dispatch : simpl never.
#[local] Arguments CreatePacket : simpl never.

Lemma handleConnection_invalid_magic_witness :
  exists c',
    handleConnection
      (BigEndian_put 2 0x1234 ++ BigEndian_put 2 0 ++ BigEndian_put 4 ALIVE_REQUEST
         ++ CreateCommandPacket ALIVE_REQUEST) connectedCamera
    = Ok c'
    /\ c' = disconnected
              (with_st (log_Printf "Received message with invalid magic")
                 connectedCamera)
    /\ invoked c' = invoked connectedCamera
    /\ messageHandlers c' = messageHandlers connectedCamera
    /\ connected (st c') = false.
Proof.
  apply (handleConnection_invalid_magic (mkHeader 0x1234 0 ALIVE_REQUEST)
           (CreateCommandPacket ALIVE_REQUEST) connectedCamera).
  - reflexivity.
  - cbn. lia.
  - cbn. lia.
Defined.

(** X12: a frame that is cut off ends the loop without reaching a
    handler: fewer than eight header bytes, or a header with the right
    magic that announces more payload bytes than follow. *)
Theorem handleConnection_truncated (c : Camera) (stream payload : list Z)
    (header : Header) :
  disconnect (st c) = false ->
  ((length stream < 8)%nat ->
   handleConnection stream c
   = Ok (disconnected (with_st (log_Printf "ERROR Reading from Camera") c)))
  /\ (Magic header = 0xABCD ->
      0 <= MessageType header < 4294967296 ->
      0 < Length header < 65536 ->
      Z.of_nat (length payload) < Length header ->
      handleConnection
        (BigEndian_put 2 (Magic header) ++ BigEndian_put 2 (Length header)
           ++ BigEndian_put 4 (MessageType header) ++ payload) c
      = Ok (disconnected
              (with_st (log_Printf "ERROR Reading Payload from Camera") c))).
Proof.
  intros Hrun. split.
  - intros Hshort. unfold handleConnection. cbn [handleConnection_loop].
    rewrite Hrun. unfold readMessage.
    destruct (Nat.ltb_spec (length stream) 8) as [_ | Hlong]; [| lia].
    unfold with_st. rewrite Hrun. reflexivity.
  - intros Hmagic Htype Hlength Hpayload.
    pose proof (BigEndian_get_put_2 (Length header)) as Hl.
    pose proof (BigEndian_get_put_4 (MessageType header) Htype) as Ht.
    rewrite Hmagic. change (BigEndian_put 2 43981) with [171; 205].
    rewrite BigEndian_put_2 in Hl |- *. rewrite BigEndian_put_4 in Ht |- *.
    unfold handleConnection. cbn [app handleConnection_loop]. rewrite Hrun.
    unfold readMessage.
    match goal with
    | |- context [(length ?l <? 8)%nat] =>
        destruct (Nat.ltb_spec (length l) 8) as [Hshort | _];
          [cbn [length] in Hshort; lia |]
    end.
    unfold readHeader. cbn [take drop]. rewrite ?take_0, ?drop_0, Hl, Ht by lia.
    cbn [Magic Length]. change (negb (BigEndian_get [171; 205] =? 43981)) with false.
    cbv iota.
    destruct (Z.ltb_spec 0 (Length header)) as [_ |]; [| lia].
    destruct (Nat.ltb_spec (length payload) (Z.to_nat (Length header)))
      as [_ |]; [reflexivity | lia].
Qed.

Lemma handleConnection_truncated_witness :
  handleConnection
    (BigEndian_put 2 0xABCD ++ BigEndian_put 2 4
       ++ BigEndian_put 4 FIRMWARE_INFORMATION ++ [1; 2]) connectedCamera
  = Ok (disconnected
          (with_st (log_Printf "ERROR Reading Payload from Camera")
             connectedCamera)).
Proof.
  apply (handleConnection_truncated connectedCamera [] [1; 2]
           (mkHeader 0xABCD 4 FIRMWARE_INFORMATION)).
  - reflexivity.
  - reflexivity.
  - cbn. unfold FIRMWARE_INFORMATION. lia.
  - cbn. lia.
  - cbn. lia.
Defined.

(** X13: a message of a type without handler is not an error: it is
    logged, the handler table and the record of invoked handlers stay as
    they are, and the loop goes on with the frames that follow. *)
Theorem handleConnection_skips_unknown (c : Camera) (header : Header)
    (payload rest : list Z) :
  disconnect (st c) = false ->
  Magic header = 0xABCD ->
  0 <= MessageType header < 4294967296 ->
  Z.of_nat (length payload) <= 65535 ->
  handlersFor c (MessageType header) = [] ->
  handleConnection (CreatePacket header payload ++ rest) c
  = handleConnection rest
      (mkCamera
         (log_Printf "Received Unknown Message (no handler registered)" (st c))
         (messageHandlers c) (invoked c)).
Proof.
  intros Hrun Hmagic Htype Hlen Hnone.
  rewrite handleConnection_CreatePacket by assumption.
  unfold dispatch. cbn [MHeader MessageType]. rewrite Hnone. reflexivity.
Qed.

Lemma handleConnection_skips_unknown_witness :
  handleConnection
    (CreatePacket (CreateCommandHeader PICTURE_SAVED) []
       ++ CreateCommandPacket ALIVE_REQUEST) connectedCamera
  = handleConnection (CreateCommandPacket ALIVE_REQUEST)
      (mkCamera
         (log_Printf "Received Unknown Message (no handler registered)"
            (st connectedCamera))
         (messageHandlers connectedCamera) (invoked connectedCamera)).
Proof.
  apply (handleConnection_skips_unknown connectedCamera
           (CreateCommandHeader PICTURE_SAVED) [] (CreateCommandPacket ALIVE_REQUEST)).
  - reflexivity.
  - reflexivity.
  - cbn. unfold PICTURE_SAVED. lia.
  - cbn. lia.
  - reflexivity.
Defined.

Lemma handleConnection_loop_disconnected (fuel : nat) :
  forall (stream : list Z) (c c' : Camera),
    handleConnection_loop fuel stream c = Ok c' -> connected (st c') = false.
Proof.
  induction fuel as [| fuel IH]; intros stream c c' Hrun; cbn in Hrun.
  - injection Hrun as <-. reflexivity.
  - destruct (disconnect (st c)); [injection Hrun as <-; reflexivity |].
    destruct (readMessage stream) as [| | | m rest];
      try (injection Hrun as <-; reflexivity).
    destruct (dispatch m c) as [c1 |]; [| discriminate].
    exact (IH _ _ _ Hrun).
Qed.

(** X14: however the receive loop comes to its end -- the disconnect
    flag, the end of the stream, a bad magic, a cut-off payload, after any
    number of dispatched messages -- it leaves the camera marked as not
    connected. *)
Theorem handleConnection_ends_disconnected (stream : list Z) (c c' : Camera) :
  handleConnection stream c = Ok c' -> connected (st c') = false.
Proof. apply handleConnection_loop_disconnected. Qed.

Lemma handleConnection_ends_disconnected_witness :
  connected
    (st (disconnected
           (with_st (log_Printf "ERROR Reading from Camera") connectedCamera)))
  = false.
Proof.
  apply (handleConnection_ends_disconnected [] connectedCamera). reflexivity.
Defined.

End ControlLoop.

(** ** The file list in parts *)

Section FileListParts.

#[local] Arguments select : simpl never.
#[local] Arguments CreatePacket : simpl never.
#[local] Arguments dispatch : simpl never.
#[local] Arguments parseFileList : simpl never.

Lemma LittleEndian_get_put32 (v : Z) :
  0 <= v < 4294967296 -> LittleEndian_get (LittleEndian_put32 v) = v.
Proof.
  intros Hv. unfold LittleEndian_get, LittleEndian_put32. cbn [fold_right].
  Z.to_euclidean_division_equations. lia.
Qed.

Lemma append_empty_r (s : string) : s +:+ "" = s.
Proof.
  induction s as [| c s IH]; [reflexivity |].
  change (String c (s +:+ "") = String c s). now rewrite IH.
Qed.

Lemma append_associative (s1 s2 s3 : string) :
  (s1 +:+ s2) +:+ s3 = s1 +:+ (s2 +:+ s3).
Proof.
  induction s1 as [| c s1 IH]; [reflexivity |].
  change (String c ((s1 +:+ s2) +:+ s3) = String c (s1 +:+ (s2 +:+ s3))).
  now rewrite IH.
Qed.

(** The handler of [GetFileList] on one part. *)
Lemma GetFileList_handler_part (ch : nat) (s : State) (total index : Z)
    (chunk acc : string) :
  0 <= total < 4294967296 ->
  0 <= index < 4294967296 ->
  vars s !! ch = Some acc ->
  hfun (GetFileList_handler ch) s (fileListPart total index chunk)
  = let s' := set_vars (<[ch := acc +:+ chunk]> (vars s)) s in
    if total <=? uint32 (index + 1) then
      match parseFileList (acc +:+ chunk) with
      | Ok files => Ok (chan_send ch (VFiles files) s', (RemoveHandler, None))
      | Panic p => Panic p
      end
    else Ok (s', (KeepHandler, None)).
Proof.
  intros Htotal Hindex Hacc.
  pose proof (LittleEndian_get_put32 total Htotal) as Ht.
  pose proof (LittleEndian_get_put32 index Hindex) as Hi.
  unfold LittleEndian_put32 in Ht, Hi.
  unfold GetFileList_handler, fileListPart, LittleEndian_put32.
  cbn [hfun Payload app].
  match goal with
  | |- context [(length ?l <? 4)%nat] =>
      destruct (Nat.ltb_spec (length l) 4) as [Hshort | _];
        [cbn [length] in Hshort; lia |]
  end.
  match goal with
  | |- context [(length ?l <? 8)%nat] =>
      destruct (Nat.ltb_spec (length l) 8) as [Hshort | _];
        [cbn [length] in Hshort; lia |]
  end.
  cbn [take drop]. rewrite ?take_0, ?drop_0.
  unfold LittleEndian_Uint32. cbn [length Nat.ltb Nat.leb take].
  rewrite ?take_0, Ht, Hi.
  unfold mbind, result_bind, Go.bind. rewrite Hacc. cbn [default]. unfold id.
  rewrite string_of_bytes_bytes. cbv zeta.
  destruct (total <=? uint32 (index + 1)); [| reflexivity].
  destruct (parseFileList (acc +:+ chunk)); reflexivity.
Qed.

Lemma select_fileListParts (ch : nat) (total : Z) (files : list StoredFile)
    (chunks : list string) :
  forall (index : nat) (acc : string) (c : Camera),
    chunks <> [] ->
    Z.of_nat index + Z.of_nat (length chunks) = total ->
    total < 4294967296 ->
    handlersFor c FILE_LIST_CONTENT = [GetFileList_handler ch] ->
    chans (st c) !! ch = Some [] ->
    vars (st c) !! ch = Some acc ->
    parseFileList (acc +:+ joined chunks) = Ok files ->
    exists c',
      select ch (fileListParts total index chunks) c = Ok (c', Some (VFiles files))
      /\ handlersFor c' FILE_LIST_CONTENT = []
      /\ connection (st c') = connection (st c)
      /\ isLoggedIn (st c') = isLoggedIn (st c).
Proof.
  induction chunks as [| chunk chunks IH];
    intros index acc c Hne Hcount Htotal Hhs Hch Hacc Hparse; [congruence |].
  cbn [fileListParts]. rewrite select_cons by exact Hch.
  assert (Hstep :
    dispatch (fileListPart total (Z.of_nat index) chunk) c
    = match hfun (GetFileList_handler ch) (st c)
              (fileListPart total (Z.of_nat index) chunk) with
      | Ok (s', (toRemove, None)) =>
          Ok (mkCamera s'
                (<[FILE_LIST_CONTENT :=
                     if toRemove then [] else [GetFileList_handler ch]]>
                   (messageHandlers c))
                (invoked c ++ [ch]))
      | Ok (s', (toRemove, Some _)) =>
          Ok (mkCamera (log_Printf "ERROR running message handler" s')
                (<[FILE_LIST_CONTENT :=
                     if toRemove then [] else [GetFileList_handler ch]]>
                   (messageHandlers c))
                (invoked c ++ [ch]))
      | Panic p => Panic p
      end).
  { unfold dispatch. cbn [fileListPart MHeader MessageType]. rewrite Hhs.
    cbn [length Nat.eqb runHandlers].
    destruct (hfun (GetFileList_handler ch) (st c)
                (fileListPart total (Z.of_nat index) chunk))
      as [[s' [[] [e |]]] | p]; reflexivity. }
  rewrite Hstep. cbn [length] in Hcount.
  rewrite (GetFileList_handler_part ch (st c) total (Z.of_nat index) chunk acc)
    by (try exact Hacc; lia).
  cbv zeta. unfold uint32. rewrite Z.mod_small by lia.
  destruct chunks as [| chunk' chunks].
  - cbn [joined fold_right] in Hparse. rewrite append_empty_r in Hparse.
    cbn [length] in Hcount.
    destruct (Z.leb_spec total (Z.of_nat index + 1)) as [_ |]; [| lia].
    rewrite Hparse. unfold mbind, result_bind, Go.bind. cbn [fileListParts].
    erewrite select_ready.
    2:{ cbn. rewrite Hch. cbn. apply lookup_insert_eq. }
    eexists. split; [reflexivity |].
    unfold handlersFor. cbn. rewrite lookup_insert_eq. auto.
  - cbn [length] in Hcount.
    destruct (Z.leb_spec total (Z.of_nat index + 1)) as [| _]; [lia |].
    unfold mbind, result_bind, Go.bind.
    edestruct (IH (S index) (acc +:+ chunk)) as (c' & Hsel & Hh & Hconn & Hlog);
      [discriminate | | exact Htotal | | | | | exists c'; rewrite Hsel].
    + cbn [length]. lia.
    + unfold handlersFor. cbn [messageHandlers]. rewrite lookup_insert_eq.
      reflexivity.
    + cbn. exact Hch.
    + cbn. apply lookup_insert_eq.
    + rewrite append_associative. exact Hparse.
    + cbn in Hconn, Hlog. auto.
Qed.

(** X15: the file list in parts.  When the camera sends the listing cut
    into any number of pieces, as parts numbered from 0 with the total in
    each, [GetFileList] hands back what [parseFileList] makes of the pieces
    put together, takes its handler out of the table with the last part,
    and has written the one request. *)
Theorem GetFileList_reassembles (c : Camera) (conn : Conn)
    (chunks : list string) (files : list StoredFile) :
  connection (st c) = Some conn ->
  closed conn = false ->
  handlersFor c FILE_LIST_CONTENT = [] ->
  chunks <> [] ->
  Z.of_nat (length chunks) < 4294967296 ->
  parseFileList (joined chunks) = Ok files ->
  exists c',
    GetFileList (fileListParts (Z.of_nat (length chunks)) 0 chunks) c
    = Ok (c', (files, None))
    /\ handlersFor c' FILE_LIST_CONTENT = []
    /\ connection (st c')
       = Some (mkConn
                 (written conn
                    ++ [[0xAB; 0xCD; 0; 4; 0; 0; 0xA0; 0x25; 1; 0; 0; 0]]) false).
Proof.
  intros Hconn Hopen Hnone Hne Hcount Hparse.
  unfold GetFileList, make_chan, SendPacket. cbn. rewrite Hconn, Hopen. cbn.
  edestruct (select_fileListParts (nextId (st c)) (Z.of_nat (length chunks))
               files chunks 0 "")
    as (c' & Hsel & Hh & Hc & _);
    [exact Hne | cbn; lia | exact Hcount | | | | exact Hparse | rewrite Hsel].
  - unfold handlersFor in *. cbn. rewrite lookup_insert_eq, Hnone. reflexivity.
  - cbn. apply lookup_insert_eq.
  - cbn. apply lookup_insert_eq.
  - cbn. exists c'. cbn in Hc. auto.
Qed.

Lemma GetFileList_reassembles_witness :
  exists c',
    GetFileList
      (fileListParts 2 0 ["/a.mp4:10"; "00;/b.mp4:2000;"]) connectedCamera
    = Ok (c', ([mkStoredFile "/a.mp4" 1000; mkStoredFile "/b.mp4" 2000], None))
    /\ handlersFor c' FILE_LIST_CONTENT = []
    /\ connection (st c')
       = Some (mkConn
                 ([] ++ [[0xAB; 0xCD; 0; 4; 0; 0; 0xA0; 0x25; 1; 0; 0; 0]]) false).
Proof.
  apply (GetFileList_reassembles connectedCamera (mkConn [] false)
           ["/a.mp4:10"; "00;/b.mp4:2000;"]).
  - reflexivity.
  - reflexivity.
  - reflexivity.
  - discriminate.
  - cbn. lia.
  - vm_compute. reflexivity.
Defined.

#[local] Arguments GetFileList_handler : simpl never.

Lemma GetFileList_handler_short (ch : nat) (s : State) (part : Message) :
  (length (Payload part) < 8)%nat ->
  hfun (GetFileList_handler ch) s part
  = Panic (SliceOutOfRange (if (length (Payload part) <? 4)%nat then 4 else 8)
                           (length (Payload part))).
Proof.
  intros Hshort. unfold GetFileList_handler. cbn [hfun].
  destruct (Nat.ltb_spec (length (Payload part)) 4) as [| Hfour];
    [reflexivity |].
  assert (Hlen : length (take 4 (Payload part)) = 4%nat)
    by (rewrite length_take; lia).
  unfold LittleEndian_Uint32. rewrite Hlen.
  change (4 <? 4)%nat with false. cbv iota.
  unfold mbind, result_bind, Go.bind.
  destruct (Nat.ltb_spec (length (Payload part)) 8) as [_ |]; [| lia].
  reflexivity.
Qed.

(** X16: a part of the file list with fewer than eight payload bytes
    makes the handler of [GetFileList] slice out of range: the receive loop
    panics, whatever follows. *)
Theorem GetFileList_short_part_panics (c : Camera) (conn : Conn)
    (part : Message) (arrivals : list Message) :
  connection (st c) = Some conn ->
  closed conn = false ->
  handlersFor c FILE_LIST_CONTENT = [] ->
  MessageType (MHeader part) = FILE_LIST_CONTENT ->
  (length (Payload part) < 8)%nat ->
  GetFileList (part :: arrivals) c
  = Panic (SliceOutOfRange (if (length (Payload part) <? 4)%nat then 4 else 8)
                           (length (Payload part))).
Proof.
  intros Hconn Hopen Hnone Htype Hshort.
  unfold GetFileList, make_chan, SendPacket. cbn. rewrite Hconn, Hopen. cbn.
  rewrite select_cons by (cbn; apply lookup_insert_eq).
  unfold dispatch, handlersFor in *. cbn [st messageHandlers with_st Handle
    addHandler]. rewrite Htype, lookup_insert_eq, Hnone.
  cbn [default app]. unfold id. cbn [length Nat.eqb runHandlers].
  rewrite GetFileList_handler_short by exact Hshort.
  reflexivity.
Qed.

Lemma GetFileList_short_part_panics_witness :
  GetFileList [mkMessage (mkHeader 0xABCD 5 FILE_LIST_CONTENT) [1; 0; 0; 0; 0]]
    connectedCamera
  = Panic (SliceOutOfRange 8 5).
Proof.
  apply (GetFileList_short_part_panics connectedCamera (mkConn [] false)
           (mkMessage (mkHeader 0xABCD 5 FILE_LIST_CONTENT) [1; 0; 0; 0; 0]) []).
  - reflexivity.
  - reflexivity.
  - reflexivity.
  - reflexivity.
  - cbn. lia.
Defined.

End FileListParts.

(** ** Frames through the relays *)

Section RelayFrames.

#[local] Arguments make : simpl never.
#[local] Arguments relayPacket : simpl never.
#[local] Arguments ipcamera.listenerPacket : simpl never.
#[local] Arguments copy : simpl never.

Lemma relayRead_short (d : list Z) (r : Relay) :
  (length d <= length (buffer r))%nat ->
  buffer (relayRead d r) = d ++ drop (length d) (buffer r)
  /\ length (buffer (relayRead d r)) = length (buffer r).
Proof.
  intros Hfit. cbn [relayRead buffer].
  split; [now apply copy_short | apply copy_length].
Qed.

(** Data fragments in a row are appended to the frame buffer, in the
    order of arrival; nothing else of the relay changes but the datagram
    buffer. *)
Lemma relay_data_fragments (fragments : list (Z * list Z)) :
  forall (events : list RelayEvent) (r : Relay),
    length (buffer r) = length (make 2048) ->
    Forall fits fragments ->
    exists buffer',
      length buffer' = length (make 2048)
      /\ handleCameraStream (dataEvents fragments ++ events) r
         = handleCameraStream events
             (mkRelay buffer' (sequenceNumber r) (elapsed r)
                (frameBuffer r ++ concat (snd <$> fragments))
                (packetBuffer r) (rtpWritten r) (relayLogs r)).
Proof.
  induction fragments as [| [sequence data] fragments IH];
    intros events r Hbuf Hfits.
  - exists (buffer r). split; [exact Hbuf |].
    cbn [dataEvents map app fmap list_fmap concat]. rewrite app_nil_r.
    destruct r; reflexivity.
  - apply Forall_cons in Hfits as [[Hs Hd] Hfits]. cbn [fst snd] in Hs, Hd.
    assert (Hfit : (length (dataDatagram sequence data) <= length (buffer r))%nat)
      by (rewrite Hbuf; unfold dataDatagram;
          rewrite streamPacket_length, make_length; lia).
    destruct (relayRead_short _ r Hfit) as [Hread Hlen].
    cbn [dataEvents map app handleCameraStream fst snd].
    rewrite (relayPacket_data (relayRead (dataDatagram sequence data) r)
               sequence data _ Hread Hs Hd).
    unfold mbind, result_bind, Go.bind. fold (dataEvents fragments).
    match goal with
    | |- exists _, _ /\ handleCameraStream _ ?r1 = _ =>
        destruct (IH events r1) as (buffer' & Hlen' & Hrun);
          [cbn [buffer]; rewrite <- Hbuf; exact Hlen | exact Hfits |]
    end.
    exists buffer'. split; [exact Hlen' |]. rewrite Hrun.
    cbn [sequenceNumber elapsed frameBuffer packetBuffer rtpWritten relayLogs
         relayRead fmap list_fmap concat fst snd].
    rewrite <- app_assoc. reflexivity.
Qed.

(** X17: a frame through the relay of libipcamera, from any state.  The
    data fragments of the frame, then the boundary fragment: one packet is
    written, made of the packet buffer as it stood (the header laid out at
    the boundary before), the frame buffer, and the data of the fragments
    in order; the next header is laid out with the sequence number plus one
    (wrapping at 16 bits) and the timestamp 90 times the elapsed value of
    the boundary before (wrapping at 32 bits); the elapsed value of this
    boundary is kept for the header after that. *)
Theorem relay_frame (r : Relay) (fragments : list (Z * list Z))
    (sequence : Z) (pre post : list Z) (b0 b1 b2 b3 : Z) :
  let boundary := pre ++ [b0; b1; b2; b3] ++ post in
  length (buffer r) = length (make 2048) ->
  Forall fits fragments ->
  0 <= sequence < 65536 ->
  Z.of_nat (length boundary) <= 2040 ->
  length pre = 12%nat ->
  exists r',
    handleCameraStream
      (dataEvents fragments ++ [Datagram (boundaryDatagram sequence boundary)]) r
    = Ok (Listening, r')
    /\ rtpWritten r'
       = rtpWritten r
           ++ [packetBuffer r ++ frameBuffer r ++ concat (snd <$> fragments)]
    /\ packetBuffer r'
       = rtpHeader (uint16 (sequenceNumber r + 1)) (uint32 (elapsed r * 90))
    /\ sequenceNumber r' = uint16 (sequenceNumber r + 1)
    /\ elapsed r' = b0 + 256 * (b1 + 256 * (b2 + 256 * (b3 + 256 * 0)))
    /\ frameBuffer r' = []
    /\ length (buffer r') = length (make 2048)
    /\ relayLogs r' = relayLogs r.
Proof.
  intros boundary Hbuf Hfits Hs Hb Hpre.
  destruct (relay_data_fragments fragments
              [Datagram (boundaryDatagram sequence boundary)] r Hbuf Hfits)
    as (buffer' & Hlen & Hrun).
  rewrite Hrun. cbn [handleCameraStream].
  set (r1 := mkRelay buffer' (sequenceNumber r) (elapsed r)
               (frameBuffer r ++ concat (snd <$> fragments))
               (packetBuffer r) (rtpWritten r) (relayLogs r)).
  assert (Hfit : (length (boundaryDatagram sequence boundary)
                  <= length (buffer r1))%nat)
    by (cbn [r1 buffer]; rewrite Hlen; unfold boundaryDatagram;
        rewrite streamPacket_length, make_length; lia).
  destruct (relayRead_short _ r1 Hfit) as [Hread Hlen1].
  rewrite (relayPacket_boundary (relayRead _ r1) sequence pre post _ b0 b1 b2 b3
             Hread Hs Hb Hpre).
  unfold mbind, result_bind, Go.bind.
  eexists. split; [reflexivity |].
  cbn [rtpWritten packetBuffer sequenceNumber elapsed frameBuffer buffer
       relayLogs relayRead r1].
  repeat split; try reflexivity.
  cbn [r1 buffer] in Hlen1. rewrite <- Hlen. exact Hlen1.
Qed.

Lemma relay_frame_witness :
  exists r',
    handleCameraStream
      (dataEvents [(1, [1; 2]); (2, [3])]
         ++ [Datagram (boundaryDatagram 3 ([0; 0; 0; 0; 0; 0; 0; 0; 0; 0; 0; 0]
                                             ++ [100; 0; 0; 0] ++ []))])
      freshRelay
    = Ok (Listening, r')
    /\ rtpWritten r'
       = rtpWritten freshRelay
           ++ [packetBuffer freshRelay ++ frameBuffer freshRelay
                 ++ concat (snd <$> [(1, [1; 2]); (2, [3])])]
    /\ packetBuffer r'
       = rtpHeader (uint16 (sequenceNumber freshRelay + 1))
                   (uint32 (elapsed freshRelay * 90))
    /\ sequenceNumber r' = uint16 (sequenceNumber freshRelay + 1)
    /\ elapsed r' = 100 + 256 * (0 + 256 * (0 + 256 * (0 + 256 * 0)))
    /\ frameBuffer r' = []
    /\ length (buffer r') = length (make 2048)
    /\ relayLogs r' = relayLogs freshRelay.
Proof.
  apply (relay_frame freshRelay [(1, [1; 2]); (2, [3])] 3
           [0; 0; 0; 0; 0; 0; 0; 0; 0; 0; 0; 0] [] 100 0 0 0).
  - reflexivity.
  - repeat constructor; cbn; lia.
  - lia.
  - cbn. lia.
  - reflexivity.
Defined.

Lemma listenerRead_short (d : list Z) (l : ipcamera.Listener) :
  (length d <= length (ipcamera.lbuffer l))%nat ->
  ipcamera.lbuffer (ipcamera.listenerRead d l)
  = d ++ drop (length d) (ipcamera.lbuffer l)
  /\ length (ipcamera.lbuffer (ipcamera.listenerRead d l))
     = length (ipcamera.lbuffer l).
Proof.
  intros Hfit. cbn [ipcamera.listenerRead ipcamera.lbuffer].
  split; [now apply copy_short | apply copy_length].
Qed.

Lemma listener_data_fragments (fragments : list (Z * list Z)) :
  forall (datagrams : list (option (list Z))) (l : ipcamera.Listener),
    length (ipcamera.lbuffer l) = length (make 2048) ->
    ipcamera.close l = false ->
    Forall fits fragments ->
    exists buffer',
      length buffer' = length (make 2048)
      /\ ipcamera.handleCameraStream (dataDatagrams fragments ++ datagrams) l
         = ipcamera.handleCameraStream datagrams
             (ipcamera.mkListener false buffer' (ipcamera.lsequenceNumber l)
                (ipcamera.lelapsed l)
                (ipcamera.lframeBuffer l ++ concat (snd <$> fragments))
                (ipcamera.lrtpWritten l) (ipcamera.llogs l)).
Proof.
  induction fragments as [| [sequence data] fragments IH];
    intros datagrams l Hbuf Hclose Hfits.
  - exists (ipcamera.lbuffer l). split; [exact Hbuf |].
    cbn [dataDatagrams map app fmap list_fmap concat]. rewrite app_nil_r.
    destruct l as [cl ? ? ? ? ? ?]. cbn in Hclose. subst cl. reflexivity.
  - apply Forall_cons in Hfits as [[Hs Hd] Hfits]. cbn [fst snd] in Hs, Hd.
    assert (Hfit : (length (dataDatagram sequence data)
                    <= length (ipcamera.lbuffer l))%nat)
      by (rewrite Hbuf; unfold dataDatagram;
          rewrite streamPacket_length, make_length; lia).
    destruct (listenerRead_short _ l Hfit) as [Hread Hlen].
    cbn [dataDatagrams map app ipcamera.handleCameraStream fst snd].
    rewrite (listenerPacket_data (ipcamera.listenerRead (dataDatagram sequence data) l)
               sequence data _ Hread Hclose Hs Hd).
    unfold mbind, result_bind, Go.bind. cbn [fst snd].
    fold (dataDatagrams fragments).
    match goal with
    | |- exists _, _ /\ ipcamera.handleCameraStream _ ?l1 = _ =>
        destruct (IH datagrams l1) as (buffer' & Hlen' & Hrun);
          [cbn [ipcamera.lbuffer]; rewrite <- Hbuf; exact Hlen
          | reflexivity | exact Hfits |]
    end.
    exists buffer'. split; [exact Hlen' |]. rewrite Hrun.
    cbn [ipcamera.lsequenceNumber ipcamera.lelapsed ipcamera.lframeBuffer
         ipcamera.lrtpWritten ipcamera.llogs ipcamera.listenerRead
         fmap list_fmap concat fst snd].
    rewrite <- app_assoc. reflexivity.
Qed.

(** X18: a frame through the listener of ipcamera, from any state.  At
    the boundary fragment one packet is written: the header with the
    sequence number as it stands and the timestamp 90 times the elapsed
    value of the boundary before, then the frame buffer and the data of the
    fragments in order; then the sequence number goes up by one (wrapping
    at 16 bits) and the elapsed value of this boundary is kept. *)
Theorem listener_frame (l : ipcamera.Listener) (fragments : list (Z * list Z))
    (sequence : Z) (pre post : list Z) (b0 b1 b2 b3 : Z) :
  let boundary := pre ++ [b0; b1; b2; b3] ++ post in
  length (ipcamera.lbuffer l) = length (make 2048) ->
  ipcamera.close l = false ->
  Forall fits fragments ->
  0 <= sequence < 65536 ->
  Z.of_nat (length boundary) <= 2040 ->
  length pre = 12%nat ->
  exists l',
    ipcamera.handleCameraStream
      (dataDatagrams fragments ++ [Some (boundaryDatagram sequence boundary)]) l
    = Ok (Listening, l')
    /\ ipcamera.lrtpWritten l'
       = ipcamera.lrtpWritten l
           ++ [rtpHeader (ipcamera.lsequenceNumber l)
                         (uint32 (ipcamera.lelapsed l * 90))
                 ++ ipcamera.lframeBuffer l ++ concat (snd <$> fragments)]
    /\ ipcamera.lsequenceNumber l' = uint16 (ipcamera.lsequenceNumber l + 1)
    /\ ipcamera.lelapsed l' = b0 + 256 * (b1 + 256 * (b2 + 256 * (b3 + 256 * 0)))
    /\ ipcamera.lframeBuffer l' = []
    /\ length (ipcamera.lbuffer l') = length (make 2048)
    /\ ipcamera.llogs l' = ipcamera.llogs l.
Proof.
  intros boundary Hbuf Hclose Hfits Hs Hb Hpre.
  destruct (listener_data_fragments fragments
              [Some (boundaryDatagram sequence boundary)] l Hbuf Hclose Hfits)
    as (buffer' & Hlen & Hrun).
  rewrite Hrun. cbn [ipcamera.handleCameraStream].
  set (l1 := ipcamera.mkListener false buffer' (ipcamera.lsequenceNumber l)
               (ipcamera.lelapsed l)
               (ipcamera.lframeBuffer l ++ concat (snd <$> fragments))
               (ipcamera.lrtpWritten l) (ipcamera.llogs l)).
  assert (Hfit : (length (boundaryDatagram sequence boundary)
                  <= length (ipcamera.lbuffer l1))%nat)
    by (cbn [l1 ipcamera.lbuffer]; rewrite Hlen; unfold boundaryDatagram;
        rewrite streamPacket_length, make_length; lia).
  destruct (listenerRead_short _ l1 Hfit) as [Hread Hlen1].
  rewrite (listenerPacket_boundary (ipcamera.listenerRead _ l1) sequence pre post
             _ b0 b1 b2 b3 Hread eq_refl Hs Hb Hpre).
  unfold mbind, result_bind, Go.bind. cbn [fst snd].
  eexists. split; [reflexivity |].
  cbn [ipcamera.lrtpWritten ipcamera.lsequenceNumber ipcamera.lelapsed
       ipcamera.lframeBuffer ipcamera.lbuffer ipcamera.llogs
       ipcamera.listenerRead l1].
  split; [unfold rtpHeader; rewrite <- !app_assoc; reflexivity |].
  repeat split; try reflexivity.
  cbn [l1 ipcamera.lbuffer] in Hlen1. rewrite <- Hlen. exact Hlen1.
Qed.

Lemma listener_frame_witness :
  exists l',
    ipcamera.handleCameraStream
      (dataDatagrams [(1, [1; 2]); (2, [3])]
         ++ [Some (boundaryDatagram 3 ([0; 0; 0; 0; 0; 0; 0; 0; 0; 0; 0; 0]
                                         ++ [100; 0; 0; 0] ++ []))])
      ipcamera.freshListener
    = Ok (Listening, l')
    /\ ipcamera.lrtpWritten l'
       = ipcamera.lrtpWritten ipcamera.freshListener
           ++ [rtpHeader (ipcamera.lsequenceNumber ipcamera.freshListener)
                         (uint32 (ipcamera.lelapsed ipcamera.freshListener * 90))
                 ++ ipcamera.lframeBuffer ipcamera.freshListener
                 ++ concat (snd <$> [(1, [1; 2]); (2, [3])])]
    /\ ipcamera.lsequenceNumber l'
       = uint16 (ipcamera.lsequenceNumber ipcamera.freshListener + 1)
    /\ ipcamera.lelapsed l' = 100 + 256 * (0 + 256 * (0 + 256 * (0 + 256 * 0)))
    /\ ipcamera.lframeBuffer l' = []
    /\ length (ipcamera.lbuffer l') = length (make 2048)
    /\ ipcamera.llogs l' = ipcamera.llogs ipcamera.freshListener.
Proof.
  apply (listener_frame ipcamera.freshListener [(1, [1; 2]); (2, [3])] 3
           [0; 0; 0; 0; 0; 0; 0; 0; 0; 0; 0; 0] [] 100 0 0 0).
  - reflexivity.
  - reflexivity.
  - repeat constructor; cbn; lia.
  - lia.
  - cbn. lia.
  - reflexivity.
Defined.

(** X19: a fragment whose header announces more payload than the 2040
    bytes the datagram buffer holds behind the header is a read error:
    nothing is appended and nothing is sent.  The relay of libipcamera logs
    it and goes on with the next event; the listener of ipcamera ends its
    loop. *)
Theorem oversized_fragment (r : Relay) (l : ipcamera.Listener)
    (header : streamHeader) (payload : list Z) (events : list RelayEvent)
    (datagrams : list (option (list Z))) :
  length (buffer r) = length (make 2048) ->
  length (ipcamera.lbuffer l) = length (make 2048) ->
  inRange header ->
  SMagic header = 0xBCDE ->
  2040 < SLength header ->
  Z.of_nat (length payload) <= 2040 ->
  handleCameraStream (Datagram (streamPacket header payload) :: events) r
  = handleCameraStream events
      (mkRelay (copy (buffer r) (streamPacket header payload))
         (sequenceNumber r) (elapsed r) (frameBuffer r) (packetBuffer r)
         (rtpWritten r) (relayLogs r ++ ["Read Error"]))
  /\ ipcamera.handleCameraStream (Some (streamPacket header payload) :: datagrams) l
     = Ok (Terminated,
           ipcamera.mkListener (ipcamera.close l)
             (copy (ipcamera.lbuffer l) (streamPacket header payload))
             (ipcamera.lsequenceNumber l) (ipcamera.lelapsed l)
             (ipcamera.lframeBuffer l) (ipcamera.lrtpWritten l)
             (ipcamera.llogs l ++ ["Read Error"])).
Proof.
  intros Hbuf Hlbuf Hrange Hmagic Hlength Hpayload.
  assert (Hparse : forall buf : list Z,
             length buf = length (make 2048) ->
             readStreamHeader (copy buf (streamPacket header payload)) = header
             /\ (length (drop 8 (copy buf (streamPacket header payload)))
                 <? Z.to_nat (SLength header))%nat = true).
  { intros buf Hlen. split.
    - rewrite copy_short
        by (rewrite streamPacket_length, Hlen, make_length; lia).
      now apply readStreamHeader_streamPacket.
    - apply Nat.ltb_lt. rewrite length_drop, copy_length, Hlen, make_length. lia. }
  destruct (Hparse _ Hbuf) as [Hh Hshort].
  destruct (Hparse _ Hlbuf) as [Hlh Hlshort].
  assert (Hpos : (0 <? SLength header) = true) by (apply Z.ltb_lt; lia).
  split.
  - cbn [handleCameraStream]. unfold relayPacket, relayRead. cbn [buffer].
    rewrite Hh, Hmagic, Hpos, Hshort. reflexivity.
  - cbn [ipcamera.handleCameraStream]. unfold ipcamera.listenerPacket,
      ipcamera.listenerRead. cbn [ipcamera.lbuffer].
    rewrite Hlh, Hmagic, Hpos, Hlshort. reflexivity.
Qed.

Lemma oversized_fragment_witness :
  handleCameraStream
    [Datagram (streamPacket (mkStreamHeader 0xBCDE 4000 1 1) [1; 2; 3])] freshRelay
  = handleCameraStream []
      (mkRelay
         (copy (buffer freshRelay)
            (streamPacket (mkStreamHeader 0xBCDE 4000 1 1) [1; 2; 3]))
         (sequenceNumber freshRelay) (elapsed freshRelay) (frameBuffer freshRelay)
         (packetBuffer freshRelay) (rtpWritten freshRelay)
         (relayLogs freshRelay ++ ["Read Error"]))
  /\ ipcamera.handleCameraStream
       [Some (streamPacket (mkStreamHeader 0xBCDE 4000 1 1) [1; 2; 3])]
       ipcamera.freshListener
     = Ok (Terminated,
           ipcamera.mkListener (ipcamera.close ipcamera.freshListener)
             (copy (ipcamera.lbuffer ipcamera.freshListener)
                (streamPacket (mkStreamHeader 0xBCDE 4000 1 1) [1; 2; 3]))
             (ipcamera.lsequenceNumber ipcamera.freshListener)
             (ipcamera.lelapsed ipcamera.freshListener)
             (ipcamera.lframeBuffer ipcamera.freshListener)
             (ipcamera.lrtpWritten ipcamera.freshListener)
             (ipcamera.llogs ipcamera.freshListener ++ ["Read Error"])).
Proof.
  apply (oversized_fragment freshRelay ipcamera.freshListener
           (mkStreamHeader 0xBCDE 4000 1 1) [1; 2; 3] [] []).
  - reflexivity.
  - reflexivity.
  - unfold inRange. cbn. lia.
  - reflexivity.
  - cbn. lia.
  - cbn. lia.
Defined.

(** X20: a boundary fragment with fewer than 16 payload bytes makes
    both loops panic when they take the elapsed value from offset 12: a
    slice out of range below 12 bytes, an index out of range from 12 to 15
    bytes. *)
Theorem short_boundary_panics (r : Relay) (l : ipcamera.Listener)
    (sequence : Z) (payload : list Z) (events : list RelayEvent)
    (datagrams : list (option (list Z))) :
  length (buffer r) = length (make 2048) ->
  length (ipcamera.lbuffer l) = length (make 2048) ->
  0 <= sequence < 65536 ->
  (length payload < 16)%nat ->
  let p := if (length payload <? 12)%nat
           then SliceOutOfRange 12 (length payload)
           else IndexOutOfRange 3 (length payload - 12) in
  handleCameraStream (Datagram (boundaryDatagram sequence payload) :: events) r
  = Panic p
  /\ ipcamera.handleCameraStream
       (Some (boundaryDatagram sequence payload) :: datagrams) l
     = Panic p.
Proof.
  intros Hbuf Hlbuf Hs Hshort p.
  assert (Hb : Z.of_nat (length payload) <= 2040) by lia.
  assert (Hparse : forall buf : list Z,
             length buf = length (make 2048) ->
             exists tail,
               copy buf (boundaryDatagram sequence payload)
               = boundaryDatagram sequence payload ++ tail).
  { intros buf Hlen. eexists. apply copy_short. unfold boundaryDatagram.
    rewrite streamPacket_length, Hlen, make_length. lia. }
  assert (Helapsed : readElapsed payload = Panic p).
  { unfold readElapsed, LittleEndian_Uint32, p. rewrite length_drop.
    destruct (Nat.ltb_spec (length payload) 12) as [| H12]; [reflexivity |].
    destruct (Nat.ltb_spec (length payload - 12) 4) as [| H4]; [reflexivity | lia]. }
  pose proof (boundaryDatagram_inRange sequence payload Hs Hb) as Hrange.
  split.
  - destruct (Hparse _ Hbuf) as [tail Hread].
    cbn [handleCameraStream]. unfold relayPacket, relayRead. cbn [buffer].
    rewrite Hread. unfold boundaryDatagram.
    rewrite readStreamHeader_streamPacket by exact Hrange.
    pose proof (streamPayload_streamPacket
                  (mkStreamHeader 0xBCDE (Z.of_nat (length payload)) sequence 2)
                  payload tail eq_refl) as [Hfits Hpayload].
    cbn [SMagic SLength SMessageType] in *. rewrite Hfits, Hpayload, Helapsed.
    reflexivity.
  - destruct (Hparse _ Hlbuf) as [tail Hread].
    cbn [ipcamera.handleCameraStream]. unfold ipcamera.listenerPacket,
      ipcamera.listenerRead. cbn [ipcamera.lbuffer].
    rewrite Hread. unfold boundaryDatagram.
    rewrite readStreamHeader_streamPacket by exact Hrange.
    pose proof (streamPayload_streamPacket
                  (mkStreamHeader 0xBCDE (Z.of_nat (length payload)) sequence 2)
                  payload tail eq_refl) as [Hfits Hpayload].
    cbn [SMagic SLength SMessageType] in *. rewrite Hfits, Hpayload, Helapsed.
    reflexivity.
Qed.

Lemma short_boundary_panics_witness :
  handleCameraStream [Datagram (boundaryDatagram 1 [0; 0; 0; 0])] freshRelay
  = Panic (SliceOutOfRange 12 4)
  /\ ipcamera.handleCameraStream [Some (boundaryDatagram 1 [0; 0; 0; 0])]
       ipcamera.freshListener
     = Panic (SliceOutOfRange 12 4).
Proof.
  apply (short_boundary_panics freshRelay ipcamera.freshListener 1 [0; 0; 0; 0]
           [] []).
  - reflexivity.
  - reflexivity.
  - lia.
  - cbn. lia.
Defined.

Lemma relay_failed_reads (sequence : Z) (data tail : list Z) (failures : nat) :
  forall (events : list RelayEvent) (r : Relay),
    buffer r = dataDatagram sequence data ++ tail ->
    0 <= sequence < 65536 -> Z.of_nat (length data) <= 2040 ->
    handleCameraStream (repeat ReadFailed failures ++ events) r
    = handleCameraStream events
        (mkRelay (buffer r) (sequenceNumber r) (elapsed r)
           (frameBuffer r ++ concat (repeat data failures))
           (packetBuffer r) (rtpWritten r) (relayLogs r)).
Proof.
  induction failures as [| failures IH]; intros events r Hbuf Hs Hd.
  - cbn [repeat app concat]. rewrite app_nil_r. destruct r; reflexivity.
  - cbn [repeat app handleCameraStream concat].
    rewrite (relayPacket_data r sequence data tail Hbuf Hs Hd).
    unfold mbind, result_bind, Go.bind.
    rewrite IH by (try exact Hbuf; assumption).
    cbn [buffer sequenceNumber elapsed frameBuffer packetBuffer rtpWritten
         relayLogs].
    rewrite <- app_assoc. reflexivity.
Qed.

(** X21: the relay does not look at the result of [conn.ReadFrom].  When
    reads fail after a data fragment (the read deadline of ten seconds
    passes), every failed read finds the fragment still in the buffer and
    appends its data to the frame once more. *)
Theorem failed_read_repeats_fragment (r : Relay) (sequence : Z)
    (data : list Z) (failures : nat) (events : list RelayEvent) :
  length (buffer r) = length (make 2048) ->
  0 <= sequence < 65536 ->
  Z.of_nat (length data) <= 2040 ->
  handleCameraStream
    (Datagram (dataDatagram sequence data) :: repeat ReadFailed failures ++ events)
    r
  = handleCameraStream events
      (mkRelay (copy (buffer r) (dataDatagram sequence data))
         (sequenceNumber r) (elapsed r)
         (frameBuffer r ++ data ++ concat (repeat data failures))
         (packetBuffer r) (rtpWritten r) (relayLogs r)).
Proof.
  intros Hbuf Hs Hd.
  assert (Hfit : (length (dataDatagram sequence data) <= length (buffer r))%nat)
    by (rewrite Hbuf; unfold dataDatagram;
        rewrite streamPacket_length, make_length; lia).
  destruct (relayRead_short _ r Hfit) as [Hread _].
  cbn [handleCameraStream].
  rewrite (relayPacket_data (relayRead (dataDatagram sequence data) r)
             sequence data _ Hread Hs Hd).
  unfold mbind, result_bind, Go.bind.
  rewrite (relay_failed_reads sequence data
             (drop (length (dataDatagram sequence data)) (buffer r)))
    by (try exact Hread; assumption).
  cbn [buffer sequenceNumber elapsed frameBuffer packetBuffer rtpWritten
       relayLogs relayRead].
  rewrite <- app_assoc. reflexivity.
Qed.

Lemma failed_read_repeats_fragment_witness :
  handleCameraStream
    (Datagram (dataDatagram 7 [1; 2; 3]) :: repeat ReadFailed 2 ++ []) freshRelay
  = handleCameraStream []
      (mkRelay (copy (buffer freshRelay) (dataDatagram 7 [1; 2; 3]))
         (sequenceNumber freshRelay) (elapsed freshRelay)
         (frameBuffer freshRelay ++ [1; 2; 3] ++ concat (repeat [1; 2; 3] 2))
         (packetBuffer freshRelay) (rtpWritten freshRelay)
         (relayLogs freshRelay)).
Proof.
  apply (failed_read_repeats_fragment freshRelay 7 [1; 2; 3] 2 []).
  - reflexivity.
  - lia.
  - cbn. lia.
Defined.

(** X22: a fragment of a type other than 1 and 2 is logged and has no
    other effect: the frame in the making, the sequence number, the elapsed
    value and what has been sent stay as they are, and both loops go on. *)
Theorem unknown_fragment_ignored (r : Relay) (l : ipcamera.Listener)
    (header : streamHeader) (payload : list Z) (events : list RelayEvent)
    (datagrams : list (option (list Z))) :
  length (buffer r) = length (make 2048) ->
  length (ipcamera.lbuffer l) = length (make 2048) ->
  ipcamera.close l = false ->
  inRange header ->
  SMagic header = 0xBCDE ->
  SLength header = Z.of_nat (length payload) ->
  SLength header <= 2040 ->
  SMessageType header <> 1 ->
  SMessageType header <> 2 ->
  handleCameraStream (Datagram (streamPacket header payload) :: events) r
  = handleCameraStream events
      (mkRelay (copy (buffer r) (streamPacket header payload))
         (sequenceNumber r) (elapsed r) (frameBuffer r) (packetBuffer r)
         (rtpWritten r) (relayLogs r ++ ["Received Unknown Message"]))
  /\ ipcamera.handleCameraStream (Some (streamPacket header payload) :: datagrams) l
     = ipcamera.handleCameraStream datagrams
         (ipcamera.mkListener false
            (copy (ipcamera.lbuffer l) (streamPacket header payload))
            (ipcamera.lsequenceNumber l) (ipcamera.lelapsed l)
            (ipcamera.lframeBuffer l) (ipcamera.lrtpWritten l)
            (ipcamera.llogs l ++ ["Received Unknown Message"])).
Proof.
  intros Hbuf Hlbuf Hclose Hrange Hmagic Hlength Hfit Hdata Hboundary.
  assert (Hparse : forall buf : list Z,
             length buf = length (make 2048) ->
             exists tail,
               copy buf (streamPacket header payload)
               = streamPacket header payload ++ tail).
  { intros buf Hlen. eexists. apply copy_short.
    rewrite streamPacket_length, Hlen, make_length. lia. }
  pose proof (streamPayload_streamPacket header payload) as Hpayload.
  assert (H1 : (SMessageType header =? 1) = false) by now apply Z.eqb_neq.
  assert (H2 : (SMessageType header =? 2) = false) by now apply Z.eqb_neq.
  split.
  - destruct (Hparse _ Hbuf) as [tail Hread].
    destruct (Hpayload tail Hlength) as [Hfits _].
    cbn [handleCameraStream]. unfold relayPacket, relayRead. cbn [buffer].
    rewrite Hread, (readStreamHeader_streamPacket header payload tail Hrange).
    rewrite Hmagic, Hfits, H1, H2. rewrite <- Hread. reflexivity.
  - destruct (Hparse _ Hlbuf) as [tail Hread].
    destruct (Hpayload tail Hlength) as [Hfits _].
    cbn [ipcamera.handleCameraStream]. unfold ipcamera.listenerPacket,
      ipcamera.listenerRead. cbn [ipcamera.lbuffer ipcamera.close].
    rewrite Hread, (readStreamHeader_streamPacket header payload tail Hrange).
    rewrite Hmagic, Hfits, H1, H2, Hclose. rewrite <- Hread. reflexivity.
Qed.

Lemma unknown_fragment_ignored_witness :
  handleCameraStream
    [Datagram (streamPacket (mkStreamHeader 0xBCDE 2 5 9) [1; 2])] freshRelay
  = handleCameraStream []
      (mkRelay
         (copy (buffer freshRelay) (streamPacket (mkStreamHeader 0xBCDE 2 5 9) [1; 2]))
         (sequenceNumber freshRelay) (elapsed freshRelay) (frameBuffer freshRelay)
         (packetBuffer freshRelay) (rtpWritten freshRelay)
         (relayLogs freshRelay ++ ["Received Unknown Message"]))
  /\ ipcamera.handleCameraStream
       [Some (streamPacket (mkStreamHeader 0xBCDE 2 5 9) [1; 2])]
       ipcamera.freshListener
     = ipcamera.handleCameraStream []
         (ipcamera.mkListener false
            (copy (ipcamera.lbuffer ipcamera.freshListener)
               (streamPacket (mkStreamHeader 0xBCDE 2 5 9) [1; 2]))
            (ipcamera.lsequenceNumber ipcamera.freshListener)
            (ipcamera.lelapsed ipcamera.freshListener)
            (ipcamera.lframeBuffer ipcamera.freshListener)
            (ipcamera.lrtpWritten ipcamera.freshListener)
            (ipcamera.llogs ipcamera.freshListener ++ ["Received Unknown Message"])).
Proof.
  apply (unknown_fragment_ignored freshRelay ipcamera.freshListener
           (mkStreamHeader 0xBCDE 2 5 9) [1; 2] [] []).
  - reflexivity.
  - reflexivity.
  - reflexivity.
  - unfold inRange. cbn. lia.
  - reflexivity.
  - reflexivity.
  - cbn. lia.
  - cbn. lia.
  - cbn. lia.
Defined.

End RelayFrames.

(** ** Requests on the signaling connection *)

Section Requests.

Variable md5hex : string -> string.

#[local] Arguments rtsp.handleRequest : simpl never.

Lemma handleClient_loop_lines (request : list string) :
  forall (rest packet : list string) (conn : rtsp.Conn) (s : rtsp.Server),
    Forall nonblank request ->
    rtsp.handleClient_loop md5hex (request ++ rest) packet conn s
    = rtsp.handleClient_loop md5hex rest (packet ++ request) conn s.
Proof.
  induction request as [| line request IH]; intros rest packet conn s Hlines.
  - cbn [app]. now rewrite app_nil_r.
  - apply Forall_cons in Hlines as [Hline Hlines].
    cbn [app rtsp.handleClient_loop].
    replace (0 <? String.length line)%nat with true
      by (symmetry; apply Nat.ltb_lt; exact Hline).
    rewrite IH by exact Hlines. now rewrite <- app_assoc.
Qed.

Lemma handleClient_request (request rest : list string)
    (conn : rtsp.Conn) (s : rtsp.Server) :
  Forall nonblank request ->
  rtsp.handleClient md5hex (request ++ "" :: rest) conn s
  = r ← rtsp.handleRequest md5hex request conn s;
    rtsp.handleClient md5hex rest r.2 r.1.
Proof.
  intros Hlines. unfold rtsp.handleClient.
  rewrite handleClient_loop_lines by exact Hlines.
  cbn [app rtsp.handleClient_loop String.length Nat.ltb Nat.leb].
  reflexivity.
Qed.

(** X23: a request is handled when its empty line arrives, and not
    before.  Lines that are not followed by an empty line are collected
    and never handled: nothing is written to the client and the server does
    nothing. *)
Theorem unterminated_request_unanswered (lines : list string)
    (conn : rtsp.Conn) (s : rtsp.Server) :
  Forall nonblank lines ->
  rtsp.handleClient md5hex lines conn s = Ok (s, conn).
Proof.
  intros Hlines. unfold rtsp.handleClient.
  rewrite <- (app_nil_r lines).
  rewrite handleClient_loop_lines by exact Hlines. reflexivity.
Qed.

(** X24: the connection is cut into requests at the empty lines.  The
    lines up to the first empty line are handed to [handleRequest] as one
    request; what follows is handled in the same way, on the server and the
    connection as that request left them; if the handler panics, nothing
    that follows is handled. *)
Theorem requests_end_at_empty_lines (request rest : list string)
    (conn : rtsp.Conn) (s : rtsp.Server) :
  Forall nonblank request ->
  rtsp.handleClient md5hex (request ++ "" :: rest) conn s
  = match rtsp.handleRequest md5hex request conn s with
    | Ok (s', conn') => rtsp.handleClient md5hex rest conn' s'
    | Panic p => Panic p
    end.
Proof.
  intros Hlines. rewrite handleClient_request by exact Hlines.
  destruct (rtsp.handleRequest md5hex request conn s) as [[s' conn'] | p];
    reflexivity.
Qed.

(** X25: an empty line that ends no request makes the handler panic at
    [packet[0]]: as the first line of the connection, and as a second empty
    line behind a request that was handled. *)
Theorem empty_request_panics (request rest : list string)
    (conn conn' : rtsp.Conn) (s s' : rtsp.Server) :
  Forall nonblank request ->
  rtsp.handleRequest md5hex request conn s = Ok (s', conn') ->
  rtsp.handleClient md5hex ("" :: rest) conn s = Panic (IndexOutOfRange 0 0)
  /\ rtsp.handleClient md5hex (request ++ "" :: "" :: rest) conn s
     = Panic (IndexOutOfRange 0 0).
Proof.
  intros Hlines Hhandled. split.
  - reflexivity.
  - rewrite handleClient_request by exact Hlines. rewrite Hhandled. reflexivity.
Qed.

(** X26: TEARDOWN while the server has no relay (no PLAY has been
    handled) calls [Stop] on a nil relay: the handler panics before it
    writes an answer, and the requests that follow on the connection are not
    handled. *)
Theorem TEARDOWN_without_relay_panics (line url version : string)
    (headerLines rest : list string) (conn : rtsp.Conn) (s : rtsp.Server) :
  Split line " " = ["TEARDOWN"; url; version] ->
  Forall nonblank (line :: headerLines) ->
  rtsp.rtpRelay s = false ->
  rtsp.handleRequest md5hex (line :: headerLines) conn s = Panic NilDereference
  /\ rtsp.handleClient md5hex (line :: headerLines ++ "" :: rest) conn s
     = Panic NilDereference.
Proof.
  intros Hline Hlines Hrelay.
  assert (Hpanic : rtsp.handleRequest md5hex (line :: headerLines) conn s
                   = Panic NilDereference).
  { unfold rtsp.handleRequest. rewrite Hline. cbn. rewrite Hrelay. reflexivity. }
  split; [exact Hpanic |].
  change (line :: headerLines ++ "" :: rest)
    with ((line :: headerLines) ++ "" :: rest).
  rewrite handleClient_request by exact Hlines. rewrite Hpanic. reflexivity.
Qed.

(** X27: a request whose method has no case in [handleRequest] (PAUSE
    is one) gets no answer at all: nothing is written, the server is left
    as it was, and the connection goes on with the next request. *)
Theorem unknown_method_unanswered (line method url version : string)
    (headerLines rest : list string) (conn : rtsp.Conn) (s : rtsp.Server) :
  Split line " " = [method; url; version] ->
  method ∉ methods ->
  Forall nonblank (line :: headerLines) ->
  rtsp.handleRequest md5hex (line :: headerLines) conn s = Ok (s, conn)
  /\ rtsp.handleClient md5hex (line :: headerLines ++ "" :: rest) conn s
     = rtsp.handleClient md5hex rest conn s.
Proof.
  intros Hline Hmethod Hlines.
  assert (Hskip : rtsp.handleRequest md5hex (line :: headerLines) conn s
                  = Ok (s, conn)).
  { unfold rtsp.handleRequest. rewrite Hline. unfold methods in Hmethod.
    repeat match goal with
           | |- context [String.eqb method ?m] =>
               destruct (String.eqb_spec method m) as [-> | _];
                 [exfalso; apply Hmethod; repeat constructor |]
           end.
    reflexivity. }
  split; [exact Hskip |].
  change (line :: headerLines ++ "" :: rest)
    with ((line :: headerLines) ++ "" :: rest).
  rewrite handleClient_request by exact Hlines. rewrite Hskip. reflexivity.
Qed.

(** *** Header lines *)

Lemma append_nil (s : string) : "" +:+ s = s.
Proof. reflexivity. Qed.

Lemma append_cons (c : ascii) (s t : string) :
  String c s +:+ t = String c (s +:+ t).
Proof. reflexivity. Qed.

Lemma Split_free (sep : ascii) (s : string) :
  free sep s = true -> Split s sep = [s].
Proof.
  induction s as [| c s IH]; cbn [free Split]; [reflexivity |].
  intros [Hc Hs]%andb_true_iff. apply negb_true_iff in Hc.
  rewrite Hc, IH by exact Hs. reflexivity.
Qed.

Lemma Split_free_app (sep : ascii) (a b : string) :
  free sep a = true -> Split (a +:+ String sep b) sep = a :: Split b sep.
Proof.
  induction a as [| c a IH];
    rewrite ?append_nil, ?append_cons; cbn [free Split].
  - intros _. now rewrite Ascii.eqb_refl.
  - intros [Hc Ha]%andb_true_iff. apply negb_true_iff in Hc.
    rewrite Hc, IH by exact Ha. reflexivity.
Qed.

(** [strings.Join] undoes [strings.Split]. *)
Lemma Join_Split (s : string) (sep : ascii) :
  Join (Split s sep) (String sep EmptyString) = s.
Proof.
  induction s as [| c s IH]; cbn [Split]; [reflexivity |].
  pose proof (Split_nonempty s sep) as Hne.
  destruct (Split s sep) as [| x xs]; [congruence |].
  destruct (Ascii.eqb_spec c sep) as [-> | _].
  - change (Join ("" :: x :: xs) (String sep ""))
      with ("" +:+ String sep "" +:+ Join (x :: xs) (String sep "")).
    rewrite append_nil, append_cons, append_nil. now rewrite IH.
  - destruct xs as [| y ys].
    + cbn [Join] in *. now rewrite IH.
    + change (Join (String c x :: y :: ys) (String sep ""))
        with (String c x +:+ String sep "" +:+ Join (y :: ys) (String sep "")).
      change (Join (x :: y :: ys) (String sep ""))
        with (x +:+ String sep "" +:+ Join (y :: ys) (String sep "")) in IH.
      rewrite append_cons. now rewrite IH.
Qed.

Lemma parseHeaders_app (lines lines' : list string) :
  forall headers : gmap string string,
    rtsp.parseHeaders (lines ++ lines') headers
    = rtsp.parseHeaders lines' (rtsp.parseHeaders lines headers).
Proof.
  induction lines as [| line lines IH]; intros headers; [reflexivity |].
  cbn [app rtsp.parseHeaders].
  destruct (Split line ":") as [| key [| value values]]; apply IH.
Qed.

Lemma parseHeaders_line (key value : string) (headers : gmap string string) :
  free ":" key = true ->
  rtsp.parseHeaders [key +:+ String ":" value] headers
  = <[key := TrimSpace value]> headers.
Proof.
  intros Hkey. cbn [rtsp.parseHeaders].
  rewrite Split_free_app by exact Hkey.
  pose proof (Split_nonempty value ":") as Hne.
  pose proof (Join_Split value ":") as Hjoin.
  destruct (Split value ":") as [| x xs]; [congruence |].
  now rewrite Hjoin.
Qed.

(** X28: the value of a header is all that stands behind the first
    colon of its line, with the white space around it taken off: colons
    inside the value are kept.  When several lines have the same key, the
    last of them gives the value. *)
Theorem header_of_last_line (key value : string) (lines : list string)
    (headers : gmap string string) :
  free ":" key = true ->
  rtsp.header
    (rtsp.parseHeaders (lines ++ [key +:+ String ":" value]) headers) key
  = TrimSpace value.
Proof.
  intros Hkey. rewrite parseHeaders_app, parseHeaders_line by exact Hkey.
  unfold rtsp.header. now rewrite lookup_insert_eq.
Qed.

(** *** SETUP and PLAY *)

Lemma free_app (sep : ascii) (a b : string) :
  free sep (a +:+ b) = free sep a && free sep b.
Proof.
  induction a as [| c a IH];
    rewrite ?append_nil, ?append_cons; cbn [free]; [reflexivity |].
  now rewrite IH, andb_assoc.
Qed.

(** No white space rune has the byte [-] in its encoding. *)
Lemma isUnicodeSpace_free (s : string) :
  isUnicodeSpace s = true -> free "-" s = true.
Proof.
  unfold isUnicodeSpace. rewrite existsb_exists.
  intros (space & Hin & Heq). apply String.eqb_eq in Heq as ->.
  unfold unicodeSpaces in Hin. cbn [map] in Hin.
  repeat (destruct Hin as [<- | Hin]; [reflexivity |]).
  destruct Hin.
Qed.

(** White space is taken off behind the last [-] only. *)
Lemma TrimRight_dash (a b : string) :
  TrimRight (a +:+ String "-" b) = a +:+ String "-" (TrimRight b).
Proof.
  induction a as [| c a IH]; rewrite ?append_nil, ?append_cons.
  - cbn [TrimRight]. destruct (TrimRight b); reflexivity.
  - cbn [TrimRight]. rewrite IH.
    assert (Hkept : isUnicodeSpace (String c (a +:+ String "-" (TrimRight b)))
                    = false).
    { destruct (isUnicodeSpace _) eqn:Hspace; [| reflexivity].
      apply isUnicodeSpace_free in Hspace. cbn [free] in Hspace.
      rewrite free_app in Hspace. cbn [free] in Hspace.
      rewrite Ascii.eqb_refl in Hspace. cbn in Hspace.
      rewrite !andb_false_r in Hspace. discriminate Hspace. }
    destruct a as [| d a]; rewrite ?append_nil, ?append_cons in *;
      rewrite Hkept; reflexivity.
Qed.

(** What [TrimRight] leaves is the front of the text. *)
Lemma TrimRight_front (s : string) : exists r, s = TrimRight s +:+ r.
Proof.
  induction s as [| c s [r Hr]]; [exists ""; reflexivity |].
  cbn [TrimRight]. destruct (TrimRight s) as [| d t].
  - destruct (isSpace c).
    + exists (String c s). reflexivity.
    + exists s. reflexivity.
  - destruct (isUnicodeSpace (String c (String d t))).
    + exists (String c s). reflexivity.
    + exists r. rewrite append_cons. now rewrite <- Hr.
Qed.

Lemma free_TrimRight (sep : ascii) (s : string) :
  free sep s = true -> free sep (TrimRight s) = true.
Proof.
  destruct (TrimRight_front s) as [r Hr]. rewrite Hr at 1.
  rewrite free_app. now intros [H _]%andb_true_iff.
Qed.

Lemma plain_fields (s : string) :
  plain s = true ->
  spaceless s = true /\ free ";" s = true /\ free "=" s = true
  /\ free "-" s = true.
Proof.
  unfold plain. rewrite !andb_true_iff. tauto.
Qed.

(** The transport header as the handler has it: white space at the end
    of the line is taken off, of whatever kind. *)
Lemma transport_header (first last : string) (lines : list string) :
  rtsp.header (rtsp.parseHeaders (lines ++ [transportLine first last]) ∅)
    "Transport"
  = transportValue first (TrimRight last).
Proof.
  change (transportLine first last)
    with ("Transport" +:+ String ":" (String " " (transportValue first last))).
  rewrite parseHeaders_app, parseHeaders_line by reflexivity.
  unfold rtsp.header. rewrite lookup_insert_eq. cbn [default]. unfold id.
  unfold TrimSpace.
  change (TrimLeft (String " " (transportValue first last)))
    with (transportValue first last).
  unfold transportValue.
  change ("RTP/AVP;unicast;client_port=" +:+ first +:+ "-" +:+ last)
    with ("RTP/AVP;unicast;client_port=" +:+ (first +:+ String "-" last)).
  rewrite <- append_associative, TrimRight_dash, append_associative.
  reflexivity.
Qed.

(** The text the handler takes for the port. *)
Lemma transport_port (first last : string) :
  free ";" first = true -> free "=" first = true -> free "-" first = true ->
  free ";" last = true -> free "=" last = true ->
  Split (transportValue first last) ";"
  = ["RTP/AVP"; "unicast"; "client_port=" +:+ first +:+ "-" +:+ last]
  /\ Split ("client_port=" +:+ first +:+ "-" +:+ last) "="
     = ["client_port"; first +:+ "-" +:+ last]
  /\ Split (first +:+ "-" +:+ last) "-" = first :: Split last "-".
Proof.
  intros Hsemi1 Heq1 Hdash1 Hsemi2 Heq2.
  repeat split.
  - change (transportValue first last)
      with ("RTP/AVP" +:+ String ";"
              ("unicast" +:+ String ";"
                 ("client_port=" +:+ first +:+ "-" +:+ last))).
    rewrite !Split_free_app by reflexivity.
    rewrite Split_free; [reflexivity |].
    rewrite !free_app, Hsemi1, Hsemi2. reflexivity.
  - change ("client_port=" +:+ first +:+ "-" +:+ last)
      with ("client_port" +:+ String "=" (first +:+ "-" +:+ last)).
    rewrite Split_free_app by reflexivity.
    rewrite Split_free; [reflexivity |].
    rewrite !free_app, Heq1, Heq2. reflexivity.
  - change (first +:+ "-" +:+ last) with (first +:+ String "-" last).
    now rewrite Split_free_app.
Qed.

Lemma handleRequest_SETUP (line url version first last : string)
    (headerLines : list string) (conn : rtsp.Conn) (s : rtsp.Server) :
  Split line " " = ["SETUP"; url; version] ->
  plain first = true -> plain last = true ->
  rtsp.handleRequest md5hex (line :: headerLines ++ [transportLine first last])
    conn s
  = match ParseInt first 32 with
    | None => Ok (rtsp.log "ERROR Parsing RTP description" s, conn)
    | Some port =>
        Ok (rtsp.mkServer port (rtsp.RemoteIP conn) (rtsp.rtpRelay s)
              (rtsp.sdp s) (rtsp.actions s)
              (rtsp.logs s ++ ["Preparing to Stream"]),
            rtsp.Write rtsp.CRLF
              (rtsp.writeHeader "Session" (md5hex (rtsp.RemoteAddr conn))
                 (rtsp.writeHeader "Transport"
                    (transportValue first (TrimRight last) +:+ ";ssrc=0")
                    (rtsp.replyCSeq
                       (rtsp.parseHeaders
                          (headerLines ++ [transportLine first last]) ∅)
                       (rtsp.writeStatus 200 "OK" conn)))))
    end.
Proof.
  intros Hline (_ & Hsemi1 & Heq1 & Hdash1)%plain_fields
         (_ & Hsemi2 & Heq2 & _)%plain_fields.
  destruct (transport_port first (TrimRight last) Hsemi1 Heq1 Hdash1
              (free_TrimRight _ _ Hsemi2) (free_TrimRight _ _ Heq2))
    as (Hsemi & Heq & Hdash).
  unfold rtsp.handleRequest. rewrite Hline.
  change (String.eqb "SETUP" "OPTIONS") with false.
  change (String.eqb "SETUP" "DESCRIBE") with false.
  change (String.eqb "SETUP" "SETUP") with true.
  cbv iota.
  rewrite (transport_header first last headerLines), Hsemi.
  cbn [List.last]. rewrite Heq, Hdash. cbn [hd].
  destruct (ParseInt first 32); reflexivity.
Qed.

Lemma setup_request_nonblank (line first last : string)
    (headerLines : list string) :
  Forall nonblank (line :: headerLines) ->
  Forall nonblank (line :: headerLines ++ [transportLine first last]).
Proof.
  intros Hlines. change (Forall nonblank ((line :: headerLines)
                                            ++ [transportLine first last])).
  apply Forall_app. split; [exact Hlines |].
  constructor; [| constructor]. unfold nonblank, transportLine.
  rewrite append_cons. cbn [String.length]. lia.
Qed.

(** X29: SETUP with a transport header [client_port=first-last].  When
    [first] is a number that fits 32 bits, the server takes it as the port
    and the address of the client as the target of the stream, and answers
    with the transport header, the white space at its end taken off (that
    of Unicode too), extended by [;ssrc=0], and with the session.  When it
    is not, the request is logged and gets no answer at all, and the target
    is left as it was.  In both cases the connection goes on with the next
    request. *)
Theorem SETUP_client_port (line url version first last : string)
    (headerLines rest : list string) (conn : rtsp.Conn) (s : rtsp.Server) :
  Split line " " = ["SETUP"; url; version] ->
  plain first = true -> plain last = true ->
  Forall nonblank (line :: headerLines) ->
  rtsp.handleClient md5hex
    (line :: headerLines ++ [transportLine first last] ++ "" :: rest) conn s
  = match ParseInt first 32 with
    | None =>
        rtsp.handleClient md5hex rest conn
          (rtsp.log "ERROR Parsing RTP description" s)
    | Some port =>
        rtsp.handleClient md5hex rest
          (rtsp.Write rtsp.CRLF
             (rtsp.writeHeader "Session" (md5hex (rtsp.RemoteAddr conn))
                (rtsp.writeHeader "Transport"
                   (transportValue first (TrimRight last) +:+ ";ssrc=0")
                   (rtsp.replyCSeq
                      (rtsp.parseHeaders
                         (headerLines ++ [transportLine first last]) ∅)
                      (rtsp.writeStatus 200 "OK" conn)))))
          (rtsp.mkServer port (rtsp.RemoteIP conn) (rtsp.rtpRelay s)
             (rtsp.sdp s) (rtsp.actions s)
             (rtsp.logs s ++ ["Preparing to Stream"]))
    end.
Proof.
  intros Hline Hfirst Hlast Hlines.
  replace (line :: headerLines ++ [transportLine first last] ++ "" :: rest)
    with ((line :: headerLines ++ [transportLine first last]) ++ "" :: rest)
    by (cbn [app]; now rewrite <- app_assoc).
  rewrite handleClient_request by now apply setup_request_nonblank.
  rewrite (handleRequest_SETUP line url version first last headerLines conn s
             Hline Hfirst Hlast).
  destruct (ParseInt first 32); reflexivity.
Qed.


End Requests.

(** The theorems of the section at the lines of a player. *)

Lemma unterminated_request_unanswered_witness :
  rtsp.handleClient exampleDigest [playLine; "CSeq: 5"] exampleClient
    rtsp.CreateServer
  = Ok (rtsp.CreateServer, exampleClient).
Proof.
  apply (unterminated_request_unanswered exampleDigest [playLine; "CSeq: 5"]).
  repeat constructor.
Defined.

Lemma requests_end_at_empty_lines_witness :
  rtsp.handleClient exampleDigest
    ([optionsLine; "CSeq: 1"] ++ "" :: [playLine; "CSeq: 2"; ""])
    exampleClient rtsp.CreateServer
  = match rtsp.handleRequest exampleDigest [optionsLine; "CSeq: 1"]
            exampleClient rtsp.CreateServer with
    | Ok (s', conn') =>
        rtsp.handleClient exampleDigest [playLine; "CSeq: 2"; ""] conn' s'
    | Panic p => Panic p
    end.
Proof.
  apply (requests_end_at_empty_lines exampleDigest [optionsLine; "CSeq: 1"]).
  repeat constructor.
Defined.

Lemma empty_request_panics_witness :
  rtsp.handleClient exampleDigest ("" :: [optionsLine]) exampleClient
    rtsp.CreateServer
  = Panic (IndexOutOfRange 0 0)
  /\ rtsp.handleClient exampleDigest
       ([optionsLine; "CSeq: 1"] ++ "" :: "" :: [optionsLine])
       exampleClient rtsp.CreateServer
     = Panic (IndexOutOfRange 0 0).
Proof.
  eapply (empty_request_panics exampleDigest [optionsLine; "CSeq: 1"]
            [optionsLine]).
  - repeat constructor.
  - vm_compute. reflexivity.
Defined.

Lemma TEARDOWN_without_relay_panics_witness :
  rtsp.handleRequest exampleDigest (teardownLine :: ["CSeq: 6"]) exampleClient
    rtsp.CreateServer
  = Panic NilDereference
  /\ rtsp.handleClient exampleDigest
       (teardownLine :: ["CSeq: 6"] ++ "" :: [optionsLine; ""])
       exampleClient rtsp.CreateServer
     = Panic NilDereference.
Proof.
  apply (TEARDOWN_without_relay_panics exampleDigest teardownLine
           "rtsp://127.0.0.1:8554/" "RTSP/1.0").
  - reflexivity.
  - repeat constructor.
  - reflexivity.
Defined.

Lemma unknown_method_unanswered_witness :
  rtsp.handleRequest exampleDigest (pauseLine :: ["CSeq: 7"]) exampleClient
    rtsp.CreateServer
  = Ok (rtsp.CreateServer, exampleClient)
  /\ rtsp.handleClient exampleDigest
       (pauseLine :: ["CSeq: 7"] ++ "" :: [optionsLine; ""])
       exampleClient rtsp.CreateServer
     = rtsp.handleClient exampleDigest [optionsLine; ""] exampleClient
         rtsp.CreateServer.
Proof.
  apply (unknown_method_unanswered exampleDigest pauseLine "PAUSE"
           "rtsp://127.0.0.1:8554/" "RTSP/1.0").
  - reflexivity.
  - unfold methods. intros Hin.
    repeat (apply elem_of_cons in Hin as [Hin | Hin]; [discriminate Hin |]).
    now apply elem_of_nil in Hin.
  - repeat constructor.
Defined.

Lemma header_of_last_line_witness :
  rtsp.header
    (rtsp.parseHeaders
       (["Range: npt=0-"]
          ++ ["Range" +:+ String ":" " clock=19961108T142300Z-19961108T143520Z "])
       ∅)
    "Range"
  = TrimSpace " clock=19961108T142300Z-19961108T143520Z ".
Proof.
  apply (header_of_last_line "Range"
           " clock=19961108T142300Z-19961108T143520Z " ["Range: npt=0-"] ∅).
  reflexivity.
Defined.

Lemma SETUP_client_port_witness :
  rtsp.handleClient exampleDigest
    (setupLine :: ["CSeq: 3"] ++ [transportLine "5000" ("5001" +:+ nbsp)]
       ++ "" :: [])
    exampleClient rtsp.CreateServer
  = match ParseInt "5000" 32 with
    | None =>
        rtsp.handleClient exampleDigest [] exampleClient
          (rtsp.log "ERROR Parsing RTP description" rtsp.CreateServer)
    | Some port =>
        rtsp.handleClient exampleDigest []
          (rtsp.Write rtsp.CRLF
             (rtsp.writeHeader "Session"
                (exampleDigest (rtsp.RemoteAddr exampleClient))
                (rtsp.writeHeader "Transport"
                   (transportValue "5000" "5001" +:+ ";ssrc=0")
                   (rtsp.replyCSeq
                      (rtsp.parseHeaders
                         (["CSeq: 3"]
                            ++ [transportLine "5000" ("5001" +:+ nbsp)]) ∅)
                      (rtsp.writeStatus 200 "OK" exampleClient)))))
          (rtsp.mkServer port (rtsp.RemoteIP exampleClient)
             (rtsp.rtpRelay rtsp.CreateServer) (rtsp.sdp rtsp.CreateServer)
             (rtsp.actions rtsp.CreateServer)
             (rtsp.logs rtsp.CreateServer ++ ["Preparing to Stream"]))
    end.
Proof.
  apply (SETUP_client_port exampleDigest setupLine "rtsp://127.0.0.1:8554/"
           "RTSP/1.0" "5000" ("5001" +:+ nbsp) ["CSeq: 3"] [] exampleClient
           rtsp.CreateServer).
  - reflexivity.
  - reflexivity.
  - reflexivity.
  - repeat constructor.
Defined.

